(** * NaturewatchCameraServer: camera controller, drivers and clock endpoint

    A shallow embedding of the parts of the server that the frame loop,
    the exposure read-back, the configuration commands, the simulated
    device and the [/time] endpoint are made of, followed by the
    properties established about them.

    Source files embedded here:
    - [naturewatch_camera_server/CameraController.py]
    - [naturewatch_camera_server/ServerConfig.py]
    - [naturewatch_camera_server/driver/Interface.py]
    - [naturewatch_camera_server/driver/MockDriver.py]
    - [naturewatch_camera_server/driver/RaspberryPiDriver.py]
    - [naturewatch_camera_server/api.py] *)

From Stdlib Require Import ZArith Bool Ascii String SpecFloat QArith Qabs Lqa.
From stdpp Require Import gmap strings list fin_maps.

Local Open Scope Z_scope.

(* ===================================================================== *)
(** * Python runtime: exceptions, results, names                          *)
(* ===================================================================== *)

Module Py.

(** The exception classes that the embedded code raises or catches.
    [KeyboardInterrupt] and [SystemExit] derive from [BaseException]
    only; every other one derives from [Exception]. *)
Inductive exn : Type :=
| AssertionError
| NameError (name : string)
| IndexError
| AttributeError
| KeyError (key : string)
| TypeError
| ZeroDivisionError
| OverflowError
| ValueError
| OSError
| CvError
| Exception (msg : string)
| KeyboardInterrupt
| SystemExit.

(** [isinstance(e, Exception)], as tested by [except Exception]. *)
Definition is_Exception (e : exn) : bool :=
  match e with
  | KeyboardInterrupt | SystemExit => false
  | _ => true
  end.

(** The outcome of a call: a value, or a raised exception. *)
Inductive result (A : Type) : Type :=
| Ok (a : A)
| Raise (e : exn).
Arguments Ok {A} a.
Arguments Raise {A} e.

Definition bind {A B} (r : result A) (k : A -> result B) : result B :=
  match r with
  | Ok a => k a
  | Raise e => Raise e
  end.

#[global] Instance exn_eq_dec : EqDecision exn.
Proof. solve_decision. Defined.

#[global] Instance result_eq_dec {A} `{EqDecision A} : EqDecision (result A).
Proof. solve_decision. Defined.

(** [assert b] *)
Definition assert (b : bool) : result unit :=
  if b then Ok tt else Raise AssertionError.

(** Resolution of a bare name against the global names of a module. *)
Definition resolve (globals : list string) (name : string) : result unit :=
  if bool_decide (name ∈ globals) then Ok tt else Raise (NameError name).

(** A key of a dictionary unpacked into keyword arguments (by two
    stars before it): a string, or a member of an enumeration. *)
Inductive kwkey : Type :=
| KStr (s : string)
| KEnum (name : string).

(** A call that unpacks a dictionary into keyword arguments, before
    the function called is entered: the keys of the dictionary must be
    strings. *)
Definition unpack_kwargs (keys : list kwkey) : result unit :=
  if forallb (fun k => match k with KStr _ => true | KEnum _ => false end)
       keys
  then Ok tt else Raise TypeError.

(** Values stored in the configuration dictionary (decoded JSON);
    [VObj] stands for any other object, known by its name. *)
Inductive value : Type :=
| VNone
| VInt (n : Z)
| VStr (s : string)
| VObj (name : string).

#[global] Instance value_eq_dec : EqDecision value.
Proof. solve_decision. Defined.

End Py.

#[global] Instance result_ret : MRet Py.result := λ A a, Py.Ok a.
#[global] Instance result_bind : MBind Py.result := λ A B k r, Py.bind r k.

(** ** State and exceptions

    A method of a Python object reads and writes the object's
    attributes and may raise; what it has written before raising stays
    written.  [PyM.M S A] is such a computation over a state [S]. *)

Module PyM.

Definition M (S A : Type) : Type := S -> S * Py.result A.

Definition ret {S A} (a : A) : M S A := fun s => (s, Py.Ok a).

Definition bind {S A B} (m : M S A) (k : A -> M S B) : M S B :=
  fun s => match m s with
           | (s', Py.Ok a) => k a s'
           | (s', Py.Raise e) => (s', Py.Raise e)
           end.

Definition raise {S A} (e : Py.exn) : M S A := fun s => (s, Py.Raise e).

(** Run a pure, possibly raising computation. *)
Definition lift {S A} (r : Py.result A) : M S A := fun s => (s, r).

Definition get {S} : M S S := fun s => (s, Py.Ok s).

Definition gets {S A} (f : S -> A) : M S A := fun s => (s, Py.Ok (f s)).

Definition modify {S} (f : S -> S) : M S unit := fun s => (f s, Py.Ok tt).

End PyM.

#[global] Instance M_ret {S} : MRet (PyM.M S) := λ A a, PyM.ret a.
#[global] Instance M_bind {S} : MBind (PyM.M S) := λ A B k m, PyM.bind m k.

(* ===================================================================== *)
(** * Python floats: IEEE 754 binary64                                    *)
(* ===================================================================== *)

Module F64.

Definition prec : Z := 53.
Definition emax : Z := 1024.

Definition float : Type := spec_float.

(** [float(n)] for an integer [n], rounding to nearest even. *)
Definition of_Z (n : Z) : float := binary_normalize prec emax n 0 false.

Definition add : float -> float -> float := SFadd prec emax.
Definition sub : float -> float -> float := SFsub prec emax.
Definition mul : float -> float -> float := SFmul prec emax.
Definition div : float -> float -> float := SFdiv prec emax.

(** [x < y] and [x <= y] on two floats *)
Definition ltb (x y : float) : bool := SFltb x y.
Definition leb (x y : float) : bool := SFleb x y.

(** [x > y] *)
Definition gtb (x y : float) : bool := SFltb y x.

(** A binary64 value: a finite float has a mantissa of at most 53 bits,
    in its canonical form, and an exponent within range. *)
Definition valid (x : float) : Prop := valid_binary prec emax x = true.

Definition is_finite (x : float) : bool :=
  match x with
  | S754_zero _ | S754_finite _ _ _ => true
  | S754_infinity _ | S754_nan => false
  end.

(** The rational number a finite float is: plus or minus [m * 2 ^ e]. *)
Definition to_Q (x : float) : Q :=
  match x with
  | S754_finite s m e =>
      let n := if s then Zneg m else Zpos m in
      match e with
      | Zneg k => n # (2 ^ k)%positive
      | _ => inject_Z (n * 2 ^ e)
      end
  | _ => 0%Q
  end.

(** How a float compares with an integer.  Python compares the two by
    value, without rounding the integer to a float; NaN compares with
    nothing. *)
Definition compare_Z (x : float) (n : Z) : option comparison :=
  match x with
  | S754_nan => None
  | S754_infinity s => Some (if s then Lt else Gt)
  | _ => Some (to_Q x ?= inject_Z n)%Q
  end.

(** [float(n)], as the arithmetic operators convert an integer operand:
    too large an integer raises. *)
Definition of_int (n : Z) : Py.result float :=
  match of_Z n with
  | S754_infinity _ => Py.Raise Py.OverflowError
  | x => Py.Ok x
  end.

(** [int(x)]: truncation toward zero; [None] where Python raises
    (infinities and NaN). *)
Definition to_int (x : float) : option Z :=
  match x with
  | S754_zero _ => Some 0
  | S754_finite s m e =>
      let mag := match e with
                 | Zneg p => Z.shiftr (Zpos m) (Zpos p)
                 | _ => Z.shiftl (Zpos m) e
                 end in
      Some (if s then - mag else mag)
  | S754_infinity _ | S754_nan => None
  end.

(** [int(x)] with Python's exceptions: [OverflowError] for an
    infinity, [ValueError] for NaN. *)
Definition int_of (x : float) : Py.result Z :=
  match to_int x with
  | Some n => Py.Ok n
  | None => Py.Raise (match x with
                      | S754_nan => Py.ValueError
                      | _ => Py.OverflowError
                      end)
  end.

(** The literal [1.1]: the double nearest to 11/10. *)
Definition lit_1_1 : float := div (of_Z 11) (of_Z 10).

End F64.

(* ===================================================================== *)
(** * Python numbers                                                      *)
(* ===================================================================== *)

Module Num.

(** A number: an [int] (a [bool] is one), or a [float]. *)
Inductive t : Type :=
| Int (n : Z)
| Bool (b : bool)
| Float (x : F64.float).

(** An [int], with [True] as 1 and [False] as 0, or a [float]. *)
Definition repr (x : t) : Z + F64.float :=
  match x with
  | Int n => inl n
  | Bool b => inl (Z.b2z b)
  | Float f => inr f
  end.

(** [x - y]: on two integers an integer; with a float among the two,
    the integer is converted and the floats are subtracted. *)
Definition sub (x y : t) : Py.result t :=
  match repr x, repr y with
  | inl a, inl b => Py.Ok (Int (a - b))
  | inl a, inr g => f ← F64.of_int a; Py.Ok (Float (F64.sub f g))
  | inr f, inl b => g ← F64.of_int b; Py.Ok (Float (F64.sub f g))
  | inr f, inr g => Py.Ok (Float (F64.sub f g))
  end.

(** [x < y]: an integer and a float compare by value. *)
Definition lt (x y : t) : bool :=
  match repr x, repr y with
  | inl a, inl b => a <? b
  | inl a, inr g => bool_decide (F64.compare_Z g a = Some Gt)
  | inr f, inl b => bool_decide (F64.compare_Z f b = Some Lt)
  | inr f, inr g => F64.ltb f g
  end.

(** [x <= y] *)
Definition le (x y : t) : bool :=
  match repr x, repr y with
  | inl a, inl b => a <=? b
  | inl a, inr g => bool_decide (F64.compare_Z g a = Some Gt
                                 ∨ F64.compare_Z g a = Some Eq)
  | inr f, inl b => bool_decide (F64.compare_Z f b = Some Lt
                                 ∨ F64.compare_Z f b = Some Eq)
  | inr f, inr g => F64.leb f g
  end.

(** A float among the numbers is a binary64 value. *)
Definition valid (x : t) : Prop :=
  match x with
  | Float f => F64.valid f
  | _ => True
  end.

(** The rational number a number is, when it is one: an infinity and
    NaN are not. *)
Definition exact (x : t) : option Q :=
  match repr x with
  | inl n => Some (inject_Z n)
  | inr f => if F64.is_finite f then Some (F64.to_Q f) else None
  end.

End Num.

(** An integer is a number. *)
Coercion Num.Int : Z >-> Num.t.

(* ===================================================================== *)
(** * driver/Interface.py                                                 *)
(* ===================================================================== *)

Module Interface.

Inductive LEDState : Type := OFF | ON.
Inductive ExposureMode : Type := AUTO | MANUAL.
Inductive SharpnessMode : Type := SHARP_AUTO | SHARP_MANUAL.
Inductive ImageResolution : Type := LORES | HIRES.

#[global] Instance ImageResolution_eq_dec : EqDecision ImageResolution.
Proof. solve_decision. Defined.

(** [ExposureMode.value] *)
Definition ExposureMode_value (m : ExposureMode) : string :=
  match m with AUTO => "auto" | MANUAL => "manual" end.

End Interface.

(* ===================================================================== *)
(** * Images and OpenCV                                                   *)
(* ===================================================================== *)

(** A numpy array of pixel data, flattened. *)
Definition ndarray : Type := list Z.

(** The OpenCV functions the server calls.  They belong to the [cv2]
    package, not to this repository, and are taken as given. *)
Class Cv2 : Type := {
  (** [cv2.cvtColor(src, cv2.COLOR_YUV420p2RGB)] *)
  cvtColor_YUV420p2RGB : ndarray -> Py.result (option ndarray);
  (** [cv2.cvtColor(src, cv2.COLOR_BGR2YUV_I420)] *)
  cvtColor_BGR2YUV_I420 : ndarray -> ndarray;
  (** [cv2.flip(src, 0)] *)
  flip0 : ndarray -> ndarray;
  (** [cv2.imencode(".jpg", img)] on an array: the flag and the buffer *)
  imencode_jpg : ndarray -> Py.result (bool * list Z)
}.

(** [cv2.imencode(".jpg", img)] where [img] may be [None]: OpenCV
    refuses what is not an array with a [cv2.error]. *)
Definition cv2_imencode `{Cv2} (img : option ndarray)
  : Py.result (bool * list Z) :=
  match img with
  | None => Py.Raise Py.CvError
  | Some a => imencode_jpg a
  end.

(* ===================================================================== *)
(** * ServerConfig.py                                                     *)
(* ===================================================================== *)

Module ServerConfig.

(** The dictionary [self.config] of a [Config] object. *)
Abbreviation Config := (gmap string Py.value).

(** The names that a [Config] has as attributes of its own: two
    instance attributes, three methods and five properties.  (Every
    object also has the attributes written between double underscores;
    the statements below keep to other keys.) *)
Definition attributes : list string :=
  ["config"; "file_lock"; "load_from_file"; "config_path"; "flush";
   "data_path"; "photos_path"; "videos_path"; "hi_res"; "lo_res"].

Definition hasattr (item : string) : bool := bool_decide (item ∈ attributes).

(** [Config.__getitem__]: an attribute of the object when there is one
    of that name (returned as the object it is), the dictionary entry
    otherwise.  For the name of a property the object is whatever the
    property evaluates to from the dictionary, which is not followed
    here: where a statement below depends on what is read, a
    dictionary key is read. *)
Definition getitem (c : Config) (item : string) : Py.result Py.value :=
  if hasattr item then Py.Ok (Py.VObj item)
  else match c !! item with
       | Some v => Py.Ok v
       | None => Py.Raise (Py.KeyError item)
       end.

(** [Config.__setitem__]: [setattr(self, item)] lacks its third
    argument, so an attribute name raises; any other key is written to
    the dictionary. *)
Definition setitem (item : string) (val : Py.value) : PyM.M Config unit :=
  fun c => if hasattr item then (c, Py.Raise Py.TypeError)
           else (<[item := val]> c, Py.Ok tt).

(** [Config.config_path]: built from the ["data_path"] entry. *)
Definition config_path (c : Config) : Py.result string :=
  match c !! "data_path" with
  | Some (Py.VStr p) => Py.Ok p
  | Some _ => Py.Raise Py.TypeError
  | None => Py.Raise (Py.KeyError "data_path")
  end.

(** The global names of [ServerConfig.py]. *)
Definition globals : list string :=
  ["json"; "pathlib"; "Lock"; "MODULE_PATH"; "Config"].

(** [Config.flush]: takes the lock, opens [config_path] for writing
    ([fs_open] tells whether the file system lets it), then evaluates
    [json.dumps(new_config, ...)]; the lock is released in [finally].
    The dictionary is not touched. *)
Definition flush (fs_open : string -> bool) (c : Config) : Py.result unit :=
  p ← config_path c;
  if fs_open p then
    Py.resolve globals "json";;
    Py.resolve globals "new_config";;
    Py.resolve globals "json_file"
  else Py.Raise Py.OSError.

End ServerConfig.

(* ===================================================================== *)
(** * bisect.bisect_left (Python standard library)                        *)
(* ===================================================================== *)

(** The list searched holds integers; what is searched for is any
    number. *)

Module Bisect.

(** [a[i]] for a non-negative index. *)
Definition index (a : list Z) (i : nat) : Py.result Z :=
  match a !! i with
  | Some v => Py.Ok v
  | None => Py.Raise Py.IndexError
  end.

(** The [while lo < hi] loop of [bisect_left]; every turn shrinks
    [hi - lo], so [fuel] counts turns. *)
Fixpoint bisect_loop (fuel : nat) (a : list Z) (x : Num.t) (lo hi : nat)
  : Py.result nat :=
  if (lo <? hi)%nat then
    match fuel with
    | O => Py.Ok lo
    | S fuel' =>
        let mid := ((lo + hi) / 2)%nat in
        a_mid ← index a mid;
        if Num.lt (Num.Int a_mid) x
        then bisect_loop fuel' a x (mid + 1)%nat hi
        else bisect_loop fuel' a x lo mid
    end
  else Py.Ok lo.

(** [bisect_left(a, x)] with [lo = 0] and [hi = len(a)]. *)
Definition bisect_left (a : list Z) (x : Num.t) : Py.result nat :=
  bisect_loop (length a) a x 0%nat (length a).

End Bisect.

(* ===================================================================== *)
(** * The driver interface, as the controller uses it                     *)
(* ===================================================================== *)

Module DriverInterface.

(** What a driver hands back as a shutter speed: a number (the
    camera's metadata and a simulated device's settings may hold a
    float or a boolean as well as an integer), or a value of another
    kind. *)
Inductive reading : Type :=
| Number (x : Num.t)
| Value (v : Py.value).

(** The number a reading is, if it is one. *)
Definition number_of (r : reading) : option Num.t :=
  match r with
  | Number x => Some x
  | Value (Py.VInt n) => Some (Num.Int n)
  | Value _ => None
  end.

(** What [get_exposure_settings] of a driver returns. *)
Record exposure_settings : Type := {
  es_mode : Interface.ExposureMode;
  es_analogue_gain : Py.value;
  es_shutter_speed : reading
}.

(** [DriverInterface]: the abstract methods the controller calls, over
    the driver object's state [D]. *)
Class Driver (D : Type) : Type := {
  initialise_camera : ServerConfig.Config -> PyM.M D unit;
  get_yuv_image : Interface.ImageResolution -> PyM.M D ndarray;
  set_exposure :
    Interface.ExposureMode -> Py.value -> Py.value -> PyM.M D unit;
  get_exposure_settings : PyM.M D exposure_settings;
  autofocus : PyM.M D unit;
  set_preprocess_callback : PyM.M D unit;
  stop : PyM.M D unit
}.

End DriverInterface.

(* ===================================================================== *)
(** * CameraController.py                                                 *)
(* ===================================================================== *)

Module CameraController.

(** The global names of [CameraController.py]: its imports and its
    class. *)
Definition globals : list string :=
  ["threading"; "cv2"; "imutils"; "time"; "logging"; "io"; "np"; "os";
   "enum"; "dt"; "subprocess"; "bisect_left"; "LEDState";
   "ImageResolution"; "CameraController"].

Inductive log_level : Type := DEBUG | INFO | WARNING | ERROR.

(** A call of the logger: a message at a level, or
    [logger.exception(e)]. *)
Inductive log_entry : Type :=
| Log (lvl : log_level) (msg : string)
| LogException (e : Py.exn).

(** ** Strings of a resolution: [split] and [int] *)

(** [s.split('x', 1)] unpacked into two names: the text before the
    first ['x'] and the text after it; [None] when [s] has no ['x']. *)
Fixpoint split_x (s : string) : option (string * string) :=
  match s with
  | EmptyString => None
  | String ch rest =>
      if Ascii.eqb ch "x"%char then Some (EmptyString, rest)
      else match split_x rest with
           | Some (before, after) => Some (String ch before, after)
           | None => None
           end
  end.

(** [width, height = resolution.split('x', 1)] *)
Definition unpack_split (resolution : Py.value)
  : Py.result (string * string) :=
  match resolution with
  | Py.VStr s =>
      match split_x s with
      | Some p => Py.Ok p
      | None => Py.Raise Py.ValueError
      end
  | _ => Py.Raise Py.AttributeError
  end.

Definition digit (ch : Ascii.ascii) : option Z :=
  let n := Z.of_nat (Ascii.nat_of_ascii ch) in
  if (48 <=? n) && (n <=? 57) then Some (n - 48) else None.

Fixpoint int_digits (acc : Z) (s : string) : option Z :=
  match s with
  | EmptyString => Some acc
  | String ch rest =>
      match digit ch with
      | Some d => int_digits (10 * acc + d) rest
      | None => None
      end
  end.

(** [int(s)] for a string of decimal digits, which is all that the
    supported resolutions contain; other text raises. *)
Definition py_int (s : string) : Py.result Z :=
  match s with
  | EmptyString => Py.Raise Py.ValueError
  | _ => match int_digits 0 s with
         | Some n => Py.Ok n
         | None => Py.Raise Py.ValueError
         end
  end.

(** ** Exposure read-back: [find_closest_exposure] *)

(** [ExpList[-1]] *)
Definition index_last (a : list Z) : Py.result Z :=
  match last a with
  | Some v => Py.Ok v
  | None => Py.Raise Py.IndexError
  end.

Definition find_closest_exposure (ExpList : list Z) (ExpValue : Num.t)
  : Py.result Z :=
  pos ← Bisect.bisect_left ExpList ExpValue;
  if (pos =? 0)%nat then Bisect.index ExpList 0
  else if (pos =? length ExpList)%nat then index_last ExpList
  else
    before ← Bisect.index ExpList (pos - 1);
    after ← Bisect.index ExpList pos;
    to_after ← Num.sub (Num.Int after) ExpValue;
    from_before ← Num.sub ExpValue (Num.Int before);
    if Num.lt to_after from_before then mret after
    else mret before.

(** The table of [get_exposure_settings]. *)
Definition ExpList : list Z :=
  [250; 313; 400; 500; 625; 800; 1000; 1250;
   1563; 2000; 2500; 3125; 4000; 5000; 6250;
   8000; 10000; 12500; 16666; 20000; 25000;
   33333].

(** The dictionary [get_exposure_settings] returns. *)
Record exposure_readback : Type := {
  mode : string;
  analogue_gain : Py.value;
  shutter_speed : Z
}.

(** The resolutions [set_resolution] accepts. *)
Definition supported_resolutions : list Py.value :=
  [Py.VStr "1640x1232"; Py.VStr "1920x1080"].

Section Controller.

Context `{Cv2} {D : Type} `{DriverInterface.Driver D}.

(** Whether [open(path, 'w')] succeeds. *)
Variable fs_open : string -> bool.

(** The attributes of a [CameraController]; [slept] lists the
    [time.sleep] calls made so far, in milliseconds. *)
Record t : Type := {
  stop_event : bool;
  logger : list log_entry;
  config : ServerConfig.Config;
  driver : D;
  image : option ndarray;
  yuvimage : option ndarray;
  recording_active : bool;
  slept : list Z
}.

Definition log (e : log_entry) : PyM.M t unit :=
  PyM.modify (fun c =>
    {| stop_event := stop_event c; logger := logger c ++ [e];
       config := config c; driver := driver c; image := image c;
       yuvimage := yuvimage c; recording_active := recording_active c;
       slept := slept c |}).

Definition sleep (ms : Z) : PyM.M t unit :=
  PyM.modify (fun c =>
    {| stop_event := stop_event c; logger := logger c;
       config := config c; driver := driver c; image := image c;
       yuvimage := yuvimage c; recording_active := recording_active c;
       slept := slept c ++ [ms] |}).

Definition set_yuvimage (v : option ndarray) : PyM.M t unit :=
  PyM.modify (fun c =>
    {| stop_event := stop_event c; logger := logger c;
       config := config c; driver := driver c; image := image c;
       yuvimage := v; recording_active := recording_active c;
       slept := slept c |}).

Definition set_image (v : option ndarray) : PyM.M t unit :=
  PyM.modify (fun c =>
    {| stop_event := stop_event c; logger := logger c;
       config := config c; driver := driver c; image := v;
       yuvimage := yuvimage c; recording_active := recording_active c;
       slept := slept c |}).

Definition set_stop_event : PyM.M t unit :=
  PyM.modify (fun c =>
    {| stop_event := true; logger := logger c;
       config := config c; driver := driver c; image := image c;
       yuvimage := yuvimage c; recording_active := recording_active c;
       slept := slept c |}).

(** A call [self.driver.m(...)]: the method runs on the driver object. *)
Definition on_driver {A} (m : PyM.M D A) : PyM.M t A :=
  fun c =>
    let '(d, r) := m (driver c) in
    ({| stop_event := stop_event c; logger := logger c;
        config := config c; driver := d; image := image c;
        yuvimage := yuvimage c; recording_active := recording_active c;
        slept := slept c |}, r).

(** A write [self.config[item] = val]. *)
Definition on_config {A} (m : PyM.M ServerConfig.Config A) : PyM.M t A :=
  fun c =>
    let '(cfg, r) := m (config c) in
    ({| stop_event := stop_event c; logger := logger c;
        config := cfg; driver := driver c; image := image c;
        yuvimage := yuvimage c; recording_active := recording_active c;
        slept := slept c |}, r).

(** A read [self.config[item]]. *)
Definition config_get (item : string) : PyM.M t Py.value :=
  fun c => (c, ServerConfig.getitem (config c) item).

(** [self.config.flush()] *)
Definition config_flush : PyM.M t unit :=
  fun c => (c, ServerConfig.flush fs_open (config c)).

(** ** Construction *)

(** [CameraController.__init__(logger, driver, config)]: the object it
    leaves behind, unless a call it makes raises. *)
Definition init (d : D) (cfg : ServerConfig.Config) : Py.result t :=
  let '(d1, r1) := DriverInterface.initialise_camera cfg d in
  r1;;
  timestamp ← ServerConfig.getitem cfg "timestamp";
  let '(d2, r2) :=
    if bool_decide (timestamp = Py.VStr "on")
    then DriverInterface.set_preprocess_callback d1
    else (d1, Py.Ok tt) in
  r2;;
  mret {| stop_event := false; logger := []; config := cfg; driver := d2;
          image := None; yuvimage := None; recording_active := false;
          slept := [] |}.

(** ** The frame loop: [run] *)

(** The [try] block of one turn of the loop. *)
Definition try_body : PyM.M t unit :=
  y ← on_driver (DriverInterface.get_yuv_image Interface.LORES);
  set_yuvimage (Some y);;
  img ← PyM.lift (cvtColor_YUV420p2RGB y);
  set_image img;;
  (if img is None
   then log (Log WARNING "CameraController: got empty image.")
   else mret tt);;
  recording ← PyM.gets recording_active;
  if (recording : bool) then sleep 1000 else sleep 30.

(** The body of [except Exception as e]. *)
Definition on_exception (e : Py.exn) : PyM.M t unit :=
  log (Log ERROR "CameraController: driver error, reinitialising.");;
  log (LogException e);;
  cfg ← PyM.gets config;
  on_driver (DriverInterface.initialise_camera cfg);;
  sleep 20.

(** How a turn of the loop ends: on to the next test of the loop
    condition, out by [break], or out with an exception. *)
Inductive flow : Type :=
| Continue
| Break
| Propagate (e : Py.exn).

(** One turn: the [try] block and its two [except] clauses. *)
Definition iteration (c : t) : t * flow :=
  match try_body c with
  | (c1, Py.Ok _) => (c1, Continue)
  | (c1, Py.Raise Py.KeyboardInterrupt) =>
      (fst (log (Log INFO "CameraController: interrupted...") c1), Break)
  | (c1, Py.Raise e) =>
      if Py.is_Exception e then
        match on_exception e c1 with
        | (c2, Py.Ok _) => (c2, Continue)
        | (c2, Py.Raise e') => (c2, Propagate e')
        end
      else (c1, Propagate e)
  end.

(** [stop]: the only place that sets the stop event. *)
Definition stop : PyM.M t unit :=
  log (Log INFO "CameraController: stopping ...");;
  set_stop_event;;
  on_driver DriverInterface.stop.

Definition is_stopped (c : t) : bool := stop_event c.

(** Why [run] is over. *)
Inductive exit : Type :=
| StopSignal
| Interrupted
| Unwound (e : Py.exn).

(** [run], followed for as many tests of the loop condition as [sched]
    is long.  An entry of [sched] tells whether another thread has
    called [stop] since the previous test.  [None] says the loop is
    still going when [sched] ends. *)
Fixpoint run (sched : list bool) (c : t) : t * option exit :=
  match sched with
  | [] => (c, None)
  | stop_called :: sched' =>
      let c0 := if stop_called then fst (stop c) else c in
      if is_stopped c0 then (c0, Some StopSignal)
      else match iteration c0 with
           | (c1, Continue) => run sched' c1
           | (c1, Break) => (c1, Some Interrupted)
           | (c1, Propagate e) => (c1, Some (Unwound e))
           end
  end.

(** ** Reading the latest frame *)

(** [get_md_yuvimage]; falls off its end, returning [None], when the
    slot is empty. *)
Definition get_md_yuvimage (c : t) : option ndarray :=
  match yuvimage c with
  | Some a => Some a
  | None => None
  end.

Definition get_md_image (c : t) : option ndarray :=
  match image c with
  | Some a => Some a
  | None => None
  end.

Definition get_image_binary (c : t) : Py.result (list Z) :=
  r ← cv2_imencode (get_md_image c);
  mret (snd r).

(** ** Exposure *)

(** [set_exposure(ExposureTime, AnalogueGain)] *)
Definition set_exposure (ExposureTime AnalogueGain : Py.value)
  : PyM.M t unit :=
  on_config (ServerConfig.setitem "shutter_speed" ExposureTime);;
  on_config (ServerConfig.setitem "analogue_gain" AnalogueGain);;
  on_config (ServerConfig.setitem "exposure_mode" (Py.VStr "off"));;
  PyM.lift (Py.resolve globals "ExposureMode");;
  on_driver (DriverInterface.set_exposure
               Interface.MANUAL ExposureTime AnalogueGain);;
  config_flush.

(** [get_exposure_settings]: the driver's settings with the shutter
    speed replaced by the table value closest to it.  The first
    comparison of [bisect_left], of an entry of the table with the
    shutter speed, raises when that is no number. *)
Definition get_exposure_settings : PyM.M t exposure_readback :=
  settings ← on_driver DriverInterface.get_exposure_settings;
  raw ← PyM.lift (match DriverInterface.number_of
                          (DriverInterface.es_shutter_speed settings) with
                  | Some x => Py.Ok x
                  | None => Py.Raise Py.TypeError
                  end);
  exposure_value ← PyM.lift (find_closest_exposure ExpList raw);
  mret {| mode := Interface.ExposureMode_value
                    (DriverInterface.es_mode settings);
          analogue_gain := DriverInterface.es_analogue_gain settings;
          shutter_speed := exposure_value |}.

(** ** Resolution *)

(** [set_resolution(resolution)] *)
Definition set_resolution (resolution : Py.value) : PyM.M t unit :=
  current ← config_get "resolution";
  if bool_decide (resolution ≠ current) then
    PyM.lift (Py.assert (bool_decide (resolution ∈ supported_resolutions)));;
    on_config (ServerConfig.setitem "resolution" resolution);;
    wh ← PyM.lift (unpack_split resolution);
    height ← PyM.lift (py_int (snd wh));
    on_config (ServerConfig.setitem "img_height" (Py.VInt height));;
    width ← PyM.lift (py_int (fst wh));
    on_config (ServerConfig.setitem "img_width" (Py.VInt width));;
    cfg ← PyM.gets config;
    on_driver (DriverInterface.initialise_camera cfg);;
    config_flush
  else mret tt.

End Controller.

End CameraController.

(* ===================================================================== *)
(** * driver/RaspberryPiDriver.py                                         *)
(* ===================================================================== *)

Module RaspberryPiDriver.

(** The global names of [RaspberryPiDriver.py]: its imports and its
    class. *)
Definition globals : list string :=
  ["Picamera2"; "MappedArray"; "H264Encoder"; "Quality"; "CircularOutput";
   "controls"; "Transform"; "bisect_left"; "GPIO"; "LEDState";
   "ExposureMode"; "DriverInterface"; "ImageFormat"; "ImageResolution";
   "SharpnessMode"; "RPiDriver"].

(** The [Picamera2] object, as far as [autofocus] touches it: the
    autofocus mode control, the number of focus cycles run, and what
    the cycles still to come will report. *)
Record Picamera2 : Type := {
  af_mode_auto : bool;
  cycles_run : nat;
  cycle_results : list bool
}.

(** The attributes of an [RPiDriver] that [autofocus] reads or writes;
    [slept] lists the [time.sleep] calls, in milliseconds. *)
Record t : Type := {
  camera : option Picamera2;
  camera_model : string;
  logger : list string;
  slept : list Z
}.

Definition log (msg : string) : PyM.M t unit :=
  PyM.modify (fun d =>
    {| camera := camera d; camera_model := camera_model d;
       logger := logger d ++ [msg]; slept := slept d |}).

Definition sleep (ms : Z) : PyM.M t unit :=
  PyM.modify (fun d =>
    {| camera := camera d; camera_model := camera_model d;
       logger := logger d; slept := slept d ++ [ms] |}).

Definition on_camera (f : Picamera2 -> Picamera2) : PyM.M t unit :=
  PyM.modify (fun d =>
    {| camera := f <$> camera d; camera_model := camera_model d;
       logger := logger d; slept := slept d |}).

(** The property [can_autofocus]: ["imx708" in self.camera_model]. *)
Definition can_autofocus (d : t) : bool :=
  bool_decide (is_Some (String.index 0 "imx708" (camera_model d))).

(** [self.camera.autofocus_cycle()]: the next reported result; a
    camera with nothing left to report does not focus. *)
Definition autofocus_cycle : PyM.M t bool :=
  fun d =>
    match camera d with
    | None => (d, Py.Raise Py.AttributeError)
    | Some cam =>
        ({| camera := Some {| af_mode_auto := af_mode_auto cam;
                              cycles_run := S (cycles_run cam);
                              cycle_results := tail (cycle_results cam) |};
            camera_model := camera_model d;
            logger := logger d; slept := slept d |},
         Py.Ok (default false (head (cycle_results cam))))
    end.

(** [for _ in range(n)] of [autofocus], with the statement after the
    loop.  [time] is a bare name of the module. *)
Fixpoint focus_attempts (n : nat) : PyM.M t unit :=
  match n with
  | O => log "RPiDriver: autofocus routine timed out"
  | S n' =>
      success ← autofocus_cycle;
      if (success : bool) then
        log "RPiDriver: autofocus routine completed successfully"
      else
        PyM.lift (Py.resolve globals "time");;
        sleep 1000;;
        focus_attempts n'
  end.

(** [autofocus].  Its test is the bare name [can_autofocus], looked up
    among the globals; the branches are those of the property of that
    name. *)
Definition autofocus : PyM.M t unit :=
  cam ← PyM.gets camera;
  PyM.lift (Py.assert (bool_decide (is_Some (cam : option Picamera2))));;
  PyM.lift (Py.resolve globals "can_autofocus");;
  capable ← PyM.gets can_autofocus;
  if (capable : bool) then
    on_camera (fun cam => {| af_mode_auto := true;
                             cycles_run := cycles_run cam;
                             cycle_results := cycle_results cam |});;
    focus_attempts 5
  else log "RPiDriver: autofocus not supported".

(** The expression of lines 100 to 102 of [initialise_picamera], whose
    value is to become [self.video_buffer_size]:
    [int(config["frame_rate"] * (config["video_duration_before_motion"] + 1.1))]
    for whole-number settings. *)
Definition video_buffer_size (config : ServerConfig.Config) : Py.result Z :=
  frame_rate ← ServerConfig.getitem config "frame_rate";
  before ← ServerConfig.getitem config "video_duration_before_motion";
  match frame_rate, before with
  | Py.VInt f, Py.VInt d =>
      F64.int_of
        (F64.mul (F64.of_Z f) (F64.add (F64.of_Z d) F64.lit_1_1))
  | _, _ => Py.Raise Py.TypeError
  end.

End RaspberryPiDriver.

(** ** Initialisation of the camera *)

Module RPiInitialise.

(** The calls into [picamera2], [libcamera] and [RPi.GPIO] that the
    initialisation makes.  They belong to those packages, not to this
    repository, and are taken as given: each may raise. *)
Class Libraries : Type := {
  (** [GPIO.setmode(GPIO.BCM)], [GPIO.setwarnings(False)] and
      [GPIO.setup(16, GPIO.OUT)] *)
  GPIO_setup : Py.result unit;
  (** [GPIO.output(16, state)] *)
  GPIO_output : Interface.LEDState -> Py.result unit;
  (** [Picamera2()] *)
  Picamera2_new : Py.result RaspberryPiDriver.Picamera2;
  (** [camera.close()] *)
  close : RaspberryPiDriver.Picamera2 -> Py.result unit;
  (** [camera.camera_properties['Model']] *)
  camera_model_of : RaspberryPiDriver.Picamera2 -> Py.result string;
  (** [Transform(hflip=rotated, vflip=rotated)] *)
  Transform : bool -> Py.result unit;
  (** [camera.create_video_configuration(...)], once entered *)
  create_video_configuration :
    RaspberryPiDriver.Picamera2 -> Py.result unit;
  (** [camera.configure(video_config)] *)
  configure : PyM.M RaspberryPiDriver.Picamera2 unit;
  (** [camera.start()] *)
  start : PyM.M RaspberryPiDriver.Picamera2 unit;
  (** [camera.capture_metadata()["FrameDuration"]] *)
  frame_duration_of : PyM.M RaspberryPiDriver.Picamera2 Py.value;
  (** [camera.set_controls({...})] *)
  set_controls :
    list (string * Py.value) -> PyM.M RaspberryPiDriver.Picamera2 unit;
  (** [H264Encoder(repeat=True, iperiod=15)] *)
  H264Encoder : Py.result unit;
  (** [CircularOutput(buffersize=n)] *)
  CircularOutput : Z -> Py.result unit
}.

(** An [RPiDriver] with the two attributes that the end of
    [initialise_picamera] assigns: the size of the video buffer, and
    the buffer size of the encoder's circular output.  The constructor
    assigns neither. *)
Record t : Type := {
  device : RaspberryPiDriver.t;
  video_buffer_size : option Z;
  encoder_output : option Z
}.

(** [RPiDriver.__init__(logger)] *)
Definition init : t :=
  {| device := {| RaspberryPiDriver.camera := None;
                  RaspberryPiDriver.camera_model := "";
                  RaspberryPiDriver.logger := [];
                  RaspberryPiDriver.slept := [] |};
     video_buffer_size := None;
     encoder_output := None |}.

Definition on_device {A} (m : PyM.M RaspberryPiDriver.t A) : PyM.M t A :=
  fun s =>
    let '(d, r) := m (device s) in
    ({| device := d; video_buffer_size := video_buffer_size s;
        encoder_output := encoder_output s |}, r).

Definition log (msg : string) : PyM.M t unit :=
  on_device (RaspberryPiDriver.log msg).

(** A write of [self.camera]. *)
Definition set_camera (cam : RaspberryPiDriver.Picamera2) : PyM.M t unit :=
  on_device (PyM.modify (fun d =>
    {| RaspberryPiDriver.camera := Some cam;
       RaspberryPiDriver.camera_model := RaspberryPiDriver.camera_model d;
       RaspberryPiDriver.logger := RaspberryPiDriver.logger d;
       RaspberryPiDriver.slept := RaspberryPiDriver.slept d |})).

(** A write of [self.camera_model]. *)
Definition set_camera_model (model : string) : PyM.M t unit :=
  on_device (PyM.modify (fun d =>
    {| RaspberryPiDriver.camera := RaspberryPiDriver.camera d;
       RaspberryPiDriver.camera_model := model;
       RaspberryPiDriver.logger := RaspberryPiDriver.logger d;
       RaspberryPiDriver.slept := RaspberryPiDriver.slept d |})).

(** A method called on [self.camera]; [None] has no methods. *)
Definition on_camera {A} (m : PyM.M RaspberryPiDriver.Picamera2 A)
  : PyM.M t A :=
  on_device (fun d =>
    match RaspberryPiDriver.camera d with
    | None => (d, Py.Raise Py.AttributeError)
    | Some cam =>
        let '(cam', r) := m cam in
        ({| RaspberryPiDriver.camera := Some cam';
            RaspberryPiDriver.camera_model :=
              RaspberryPiDriver.camera_model d;
            RaspberryPiDriver.logger := RaspberryPiDriver.logger d;
            RaspberryPiDriver.slept := RaspberryPiDriver.slept d |}, r)
    end).

(** [1_000_000 // x] for a value [x] of the configuration. *)
Definition floordiv_1000000 (x : Py.value) : Py.result Z :=
  match x with
  | Py.VInt 0 => Py.Raise Py.ZeroDivisionError
  | Py.VInt n => Py.Ok (1000000 / n)
  | _ => Py.Raise Py.TypeError
  end.

(** [1 // (x / 1_000_000)], the frame rate that is logged. *)
Definition logged_rate (x : Py.value) : Py.result unit :=
  match x with
  | Py.VInt 0 => Py.Raise Py.ZeroDivisionError
  | Py.VInt _ => Py.Ok tt
  | _ => Py.Raise Py.TypeError
  end.

Section Methods.

Context `{Libraries}.

(** [configure_LED(state)] *)
Definition configure_LED (state : Interface.LEDState) : PyM.M t unit :=
  PyM.lift (GPIO_output state);;
  log "RPiDriver: LED %s".

(** [initialise_GPIO(config)] *)
Definition initialise_GPIO (config : ServerConfig.Config) : PyM.M t unit :=
  PyM.lift GPIO_setup;;
  led ← PyM.lift (ServerConfig.getitem config "LED");
  configure_LED (if bool_decide (led = Py.VStr "off")
                 then Interface.OFF else Interface.ON).

(** [set_exposure(mode, exposure_time, analogue_gain)].  [time] is a
    bare name of the module. *)
Definition set_exposure (mode : Interface.ExposureMode)
    (exposure_time analogue_gain : Py.value) : PyM.M t unit :=
  cam ← on_device (PyM.gets RaspberryPiDriver.camera);
  PyM.lift (Py.assert
    (bool_decide (is_Some (cam : option RaspberryPiDriver.Picamera2))));;
  match mode with
  | Interface.AUTO =>
      log "RPiDriver: Configuring automatic exposure time.";;
      on_camera (set_controls
        [("ExposureTime", Py.VInt 0); ("AnalogueGain", Py.VInt 0);
         ("AwbMode", Py.VObj "controls.AwbModeEnum.Auto")])
  | Interface.MANUAL =>
      log "RPiDriver: Configuring manual exposure with";;
      log "RPiDriver: Exposure Time: %d";;
      log "RPiDriver: Analogue Gain: %d";;
      PyM.lift (Py.assert (bool_decide (exposure_time ≠ Py.VNone)));;
      PyM.lift (Py.assert (bool_decide (analogue_gain ≠ Py.VNone)));;
      on_camera (set_controls
        [("ExposureTime", exposure_time); ("AnalogueGain", analogue_gain);
         ("AwbMode", Py.VObj "controls.AwbModeEnum.Auto")])
  end;;
  PyM.lift (Py.resolve RaspberryPiDriver.globals "time");;
  on_device (RaspberryPiDriver.sleep 500).

(** [set_sharpness(sharpness_mode, sharpness_val)].  The assertion of
    the manual branch names [shapness_mode], which nothing binds. *)
Definition set_sharpness (sharpness_mode : Interface.SharpnessMode)
    (sharpness_val : Py.value) : PyM.M t unit :=
  val ← match sharpness_mode with
        | Interface.SHARP_AUTO => mret (Py.VInt 1)
        | Interface.SHARP_MANUAL =>
            PyM.lift (Py.resolve RaspberryPiDriver.globals "shapness_mode");;
            mret sharpness_val
        end;
  on_camera (set_controls [("Sharpness", val)]);;
  log "RPi Driver: Sharpness set to %d".

(** [initialise_picamera(config)].  The arguments of the log calls are
    left out of the log. *)
Definition initialise_picamera (config : ServerConfig.Config)
  : PyM.M t unit :=
  log "RPiDriver: initialising picamera ...";;
  old ← on_device (PyM.gets RaspberryPiDriver.camera);
  match old with
  | Some cam => PyM.lift (close cam)
  | None => mret tt
  end;;
  match Picamera2_new with
  | Py.Ok cam => set_camera cam
  | Py.Raise e =>
      if Py.is_Exception e then
        log "RPiDriver: Unable to connect to camera";;
        PyM.raise (Py.Exception "Unable to connect to camera")
      else PyM.raise e
  end;;
  model ← on_camera (fun cam => (cam, camera_model_of cam));
  set_camera_model model;;
  log "RPiDriver: camera module revision %s detected.";;
  frame_rate ← PyM.lift (ServerConfig.getitem config "frame_rate");
  frame_duration ← PyM.lift (floordiv_1000000 frame_rate);
  rotate ← PyM.lift (ServerConfig.getitem config "rotate_camera");
  let rotated := bool_decide (rotate = Py.VInt 1) in
  PyM.lift (ServerConfig.getitem config "hi_res");;
  PyM.lift (ServerConfig.getitem config "lo_res");;
  PyM.lift (ServerConfig.getitem config "hi_res");;
  PyM.lift (Transform rotated);;
  PyM.lift (Py.unpack_kwargs
    [Py.KEnum "ImageResolution.HIRES"; Py.KEnum "ImageResolution.LORES";
     Py.KStr "raw"; Py.KStr "transform"; Py.KStr "controls"]);;
  on_camera (fun cam => (cam, create_video_configuration cam));;
  on_camera configure;;
  on_camera start;;
  duration ← on_camera frame_duration_of;
  PyM.lift (logged_rate duration);;
  log "RPiDriver: camera initialised with a resolution of %s and a framerate of %s fps";;
  log "RPiDriver: Note that frame rates above 12fps lead to dropped frames on a Pi Zeroand frame rates above 25fps can lock up the Pi Zero 2W";;
  PyM.lift (ServerConfig.getitem config "lo_res");;
  log "RPiDriver: Motion detection stream prepared with resolution %dx%d";;
  exposure_mode ← PyM.lift (ServerConfig.getitem config "exposure_mode");
  shutter_speed ← PyM.lift (ServerConfig.getitem config "shutter_speed");
  analogue_gain ← PyM.lift (ServerConfig.getitem config "analogue_gain");
  set_exposure (if bool_decide (exposure_mode = Py.VStr "auto")
                then Interface.AUTO else Interface.MANUAL)
    shutter_speed analogue_gain;;
  af_enable ← PyM.lift (ServerConfig.getitem config "af_enable");
  (if bool_decide (af_enable = Py.VInt 1)
   then on_device RaspberryPiDriver.autofocus
   else mret tt);;
  sharpness_mode ← PyM.lift (ServerConfig.getitem config "sharpness_mode");
  sharpness_val ← PyM.lift (ServerConfig.getitem config "sharpness_val");
  set_sharpness (if bool_decide (sharpness_mode = Py.VStr "auto")
                 then Interface.SHARP_AUTO else Interface.SHARP_MANUAL)
    sharpness_val;;
  size ← PyM.lift (RaspberryPiDriver.video_buffer_size config);
  PyM.modify (fun s =>
    {| device := device s; video_buffer_size := Some size;
       encoder_output := encoder_output s |});;
  PyM.lift H264Encoder;;
  PyM.lift (CircularOutput size);;
  PyM.modify (fun s =>
    {| device := device s; video_buffer_size := video_buffer_size s;
       encoder_output := Some size |});;
  log "RPiDriver: Video buffer size allocated = {}".

(** [initialise_camera(config)] *)
Definition initialise_camera (config : ServerConfig.Config)
  : PyM.M t unit :=
  initialise_GPIO config;;
  initialise_picamera config.

End Methods.

End RPiInitialise.

(* ===================================================================== *)
(** * driver/MockDriver.py                                                *)
(* ===================================================================== *)

Module MockDriver.

(** A video file: its frames and its frame rate. *)
Record video_file : Type := {
  vf_frames : list ndarray;
  vf_fps : F64.float
}.

(** A [cv2.VideoCapture]: the file it has opened, if it could, and its
    read position ([CAP_PROP_POS_FRAMES]).  OpenCV reports positions
    and counts as doubles that hold whole numbers; they are kept as
    integers, on which [+] and [%] are the same. *)
Record VideoCapture : Type := {
  vc_file : option video_file;
  vc_pos : Z
}.

Definition isOpened (v : VideoCapture) : bool :=
  bool_decide (is_Some (vc_file v)).

(** [get(cv2.CAP_PROP_FRAME_COUNT)] *)
Definition frame_count (v : VideoCapture) : Z :=
  match vc_file v with
  | Some f => Z.of_nat (length (vf_frames f))
  | None => 0
  end.

(** [get(cv2.CAP_PROP_FPS)] *)
Definition fps (v : VideoCapture) : F64.float :=
  match vc_file v with
  | Some f => vf_fps f
  | None => F64.of_Z 0
  end.

(** [set(cv2.CAP_PROP_POS_FRAMES, p)] *)
Definition set_pos (p : Z) (v : VideoCapture) : VideoCapture :=
  {| vc_file := vc_file v; vc_pos := p |}.

(** [read()]: the frame under the read position, which moves on by
    one; nothing past the end of the file. *)
Definition read (v : VideoCapture) : VideoCapture * option ndarray :=
  match vc_file v with
  | Some f =>
      if (0 <=? vc_pos v) && (vc_pos v <? frame_count v) then
        match vf_frames f !! Z.to_nat (vc_pos v) with
        | Some frame => (set_pos (vc_pos v + 1) v, Some frame)
        | None => (v, None)
        end
      else (v, None)
  | None => (v, None)
  end.

(** [self.video]: one capture per resolution. *)
Record captures : Type := {
  hires : VideoCapture;
  lores : VideoCapture
}.

Definition capture_of (r : Interface.ImageResolution) (v : captures)
  : VideoCapture :=
  match r with
  | Interface.HIRES => hires v
  | Interface.LORES => lores v
  end.

Definition with_capture (r : Interface.ImageResolution)
    (c : VideoCapture) (v : captures) : captures :=
  match r with
  | Interface.HIRES => {| hires := c; lores := lores v |}
  | Interface.LORES => {| hires := hires v; lores := c |}
  end.

(** The attributes of a [MockDriver].  [res], [callback], [CPUTemp]
    and the capture times play no part in serving frames and are left
    out. *)
Record t : Type := {
  LED : Interface.LEDState;
  sharpness : Interface.SharpnessMode * Py.value;
  exposure : DriverInterface.exposure_settings;
  af_enable : bool;
  video : option captures;
  wall_time : option F64.float;
  num_frames : option Z;
  frame_rate : option F64.float;
  time_before_trigger : option Py.value;
  rotated : bool
}.

(** [MockDriver.__init__] *)
Definition init : t :=
  {| LED := Interface.OFF;
     sharpness := (Interface.SHARP_AUTO, Py.VInt 1);
     exposure := {| DriverInterface.es_mode := Interface.AUTO;
                    DriverInterface.es_analogue_gain := Py.VInt 0;
                    DriverInterface.es_shutter_speed :=
                      DriverInterface.Value (Py.VInt 0) |};
     af_enable := true;
     video := None; wall_time := None; num_frames := None;
     frame_rate := None; time_before_trigger := None; rotated := false |}.

Definition set_LED (x : Interface.LEDState) (d : t) : t :=
  {| LED := x; sharpness := sharpness d; exposure := exposure d;
     af_enable := af_enable d; video := video d; wall_time := wall_time d;
     num_frames := num_frames d; frame_rate := frame_rate d;
     time_before_trigger := time_before_trigger d; rotated := rotated d |}.

Definition set_sharpness (x : Interface.SharpnessMode * Py.value) (d : t)
  : t :=
  {| LED := LED d; sharpness := x; exposure := exposure d;
     af_enable := af_enable d; video := video d; wall_time := wall_time d;
     num_frames := num_frames d; frame_rate := frame_rate d;
     time_before_trigger := time_before_trigger d; rotated := rotated d |}.

Definition set_exposure_attr (x : DriverInterface.exposure_settings)
    (d : t) : t :=
  {| LED := LED d; sharpness := sharpness d; exposure := x;
     af_enable := af_enable d; video := video d; wall_time := wall_time d;
     num_frames := num_frames d; frame_rate := frame_rate d;
     time_before_trigger := time_before_trigger d; rotated := rotated d |}.

Definition set_af_enable (x : bool) (d : t) : t :=
  {| LED := LED d; sharpness := sharpness d; exposure := exposure d;
     af_enable := x; video := video d; wall_time := wall_time d;
     num_frames := num_frames d; frame_rate := frame_rate d;
     time_before_trigger := time_before_trigger d; rotated := rotated d |}.

Definition set_video (x : option captures) (d : t) : t :=
  {| LED := LED d; sharpness := sharpness d; exposure := exposure d;
     af_enable := af_enable d; video := x; wall_time := wall_time d;
     num_frames := num_frames d; frame_rate := frame_rate d;
     time_before_trigger := time_before_trigger d; rotated := rotated d |}.

Definition set_wall_time (x : option F64.float) (d : t) : t :=
  {| LED := LED d; sharpness := sharpness d; exposure := exposure d;
     af_enable := af_enable d; video := video d; wall_time := x;
     num_frames := num_frames d; frame_rate := frame_rate d;
     time_before_trigger := time_before_trigger d; rotated := rotated d |}.

Definition set_num_frames (x : option Z) (d : t) : t :=
  {| LED := LED d; sharpness := sharpness d; exposure := exposure d;
     af_enable := af_enable d; video := video d; wall_time := wall_time d;
     num_frames := x; frame_rate := frame_rate d;
     time_before_trigger := time_before_trigger d; rotated := rotated d |}.

Definition set_frame_rate (x : option F64.float) (d : t) : t :=
  {| LED := LED d; sharpness := sharpness d; exposure := exposure d;
     af_enable := af_enable d; video := video d; wall_time := wall_time d;
     num_frames := num_frames d; frame_rate := x;
     time_before_trigger := time_before_trigger d; rotated := rotated d |}.

Definition set_time_before_trigger (x : option Py.value) (d : t) : t :=
  {| LED := LED d; sharpness := sharpness d; exposure := exposure d;
     af_enable := af_enable d; video := video d; wall_time := wall_time d;
     num_frames := num_frames d; frame_rate := frame_rate d;
     time_before_trigger := x; rotated := rotated d |}.

Definition set_rotated (x : bool) (d : t) : t :=
  {| LED := LED d; sharpness := sharpness d; exposure := exposure d;
     af_enable := af_enable d; video := video d; wall_time := wall_time d;
     num_frames := num_frames d; frame_rate := frame_rate d;
     time_before_trigger := time_before_trigger d; rotated := x |}.

Section Methods.

Context `{Cv2}.

(** [os.environ] *)
Variable environ : gmap string string.

(** The video file found at a path, if one can be opened there. *)
Variable open_video : string -> option video_file.

(** An attribute that must have been given a value. *)
Definition attr {A} (x : option A) : PyM.M t A :=
  PyM.lift (match x with
            | Some a => Py.Ok a
            | None => Py.Raise Py.TypeError
            end).

Definition configure_LED (state : Interface.LEDState) : PyM.M t unit :=
  PyM.modify (set_LED state).

(** [initialise_camera(config)], with [now] the reading of
    [time.time()].  The frame sizes read from the configuration (the
    properties [hi_res] and [lo_res], which raise on a resolution they
    do not know) and set on the captures do not move a read position
    and are left out, as is the line logged before the exception is
    raised: where the method returns, this is the state it leaves. *)
Definition initialise_camera (now : F64.float)
    (config : ServerConfig.Config) : PyM.M t unit :=
  led ← PyM.lift (ServerConfig.getitem config "LED");
  configure_LED (if bool_decide (led = Py.VStr "off")
                 then Interface.OFF else Interface.ON);;
  PyM.lift (Py.assert
    (bool_decide (is_Some (environ !! "MOCK_VIDEO_PATH"))));;
  vid_path ← attr (environ !! "MOCK_VIDEO_PATH");
  let cap := {| vc_file := open_video vid_path; vc_pos := 0 |} in
  PyM.modify (set_video (Some {| hires := cap; lores := cap |}));;
  (if isOpened cap then mret tt
   else PyM.raise (Py.Exception "Unable to create mock feed"));;
  PyM.modify (set_num_frames (Some (frame_count cap)));;
  PyM.modify (set_frame_rate (Some (fps cap)));;
  af ← PyM.lift (ServerConfig.getitem config "af_enable");
  PyM.modify (set_af_enable (bool_decide (af = Py.VInt 1)));;
  sharp_mode ← PyM.lift (ServerConfig.getitem config "sharpness_mode");
  PyM.modify (fun d => set_sharpness
    (if bool_decide (sharp_mode = Py.VStr "auto")
     then Interface.SHARP_AUTO else Interface.SHARP_MANUAL,
     snd (sharpness d)) d);;
  sharp_val ← PyM.lift (ServerConfig.getitem config "sharpness_val");
  PyM.modify (fun d => set_sharpness (fst (sharpness d), sharp_val) d);;
  exp_mode ← PyM.lift (ServerConfig.getitem config "exposure_mode");
  PyM.modify (fun d => set_exposure_attr
    {| DriverInterface.es_mode :=
         if bool_decide (exp_mode = Py.VStr "auto")
         then Interface.AUTO else Interface.MANUAL;
       DriverInterface.es_analogue_gain :=
         DriverInterface.es_analogue_gain (exposure d);
       DriverInterface.es_shutter_speed :=
         DriverInterface.es_shutter_speed (exposure d) |} d);;
  shutter ← PyM.lift (ServerConfig.getitem config "shutter_speed");
  PyM.modify (fun d => set_exposure_attr
    {| DriverInterface.es_mode := DriverInterface.es_mode (exposure d);
       DriverInterface.es_analogue_gain :=
         DriverInterface.es_analogue_gain (exposure d);
       DriverInterface.es_shutter_speed :=
         DriverInterface.Value shutter |} d);;
  gain ← PyM.lift (ServerConfig.getitem config "analogue_gain");
  PyM.modify (fun d => set_exposure_attr
    {| DriverInterface.es_mode := DriverInterface.es_mode (exposure d);
       DriverInterface.es_analogue_gain := gain;
       DriverInterface.es_shutter_speed :=
         DriverInterface.es_shutter_speed (exposure d) |} d);;
  PyM.modify (set_wall_time (Some now));;
  before ← PyM.lift
    (ServerConfig.getitem config "video_duration_before_motion");
  PyM.modify (set_time_before_trigger (Some before));;
  rotate ← PyM.lift (ServerConfig.getitem config "rotate_camera");
  PyM.modify (set_rotated (bool_decide (rotate = Py.VInt 1))).

(** [advance_lores_video(shift)], with [now] the reading of
    [time.time()]. *)
Definition advance_lores_video (now shift : F64.float) : PyM.M t unit :=
  wall ← PyM.bind (PyM.gets wall_time) attr;
  let time_since_last_call := F64.add (F64.sub now wall) shift in
  rate ← PyM.bind (PyM.gets frame_rate) attr;
  frames_since_last_call ←
    PyM.lift (F64.int_of (F64.mul time_since_last_call rate));
  PyM.modify (set_wall_time (Some now));;
  v ← PyM.bind (PyM.gets video) attr;
  let current_frame := vc_pos (lores v) in
  n ← PyM.bind (PyM.gets num_frames) attr;
  new_pos ← PyM.lift
    (if n =? 0 then Py.Raise Py.ZeroDivisionError
     else Py.Ok ((current_frame + frames_since_last_call) `mod` n));
  PyM.modify (set_video
    (Some (with_capture Interface.LORES (set_pos new_pos (lores v)) v))).

(** [get_yuv_image(resolution)] *)
Definition get_yuv_image (now : F64.float)
    (resolution : Interface.ImageResolution) : PyM.M t ndarray :=
  advance_lores_video now (F64.of_Z 0);;
  v ← PyM.bind (PyM.gets video) attr;
  let '(cap, frame) := read (capture_of resolution v) in
  PyM.modify (set_video (Some (with_capture resolution cap v)));;
  match frame with
  | None => PyM.raise Py.AssertionError
  | Some frame =>
      rot ← PyM.gets rotated;
      let frame := cvtColor_BGR2YUV_I420 frame in
      mret (if (rot : bool) then flip0 frame else frame)
  end.

End Methods.

End MockDriver.

(* ===================================================================== *)
(** * api.py: the [/time/<time_string>] endpoint                          *)
(* ===================================================================== *)

Module Api.

(** A Flask [Response]. *)
Record Response : Type := {
  body : string;
  status : Z;
  mimetype : string
}.

(** The two attributes of [current_app.change_detector] that the
    endpoint reads and writes. *)
Record change_detector : Type := {
  device_time : option F64.float;
  device_time_start : option F64.float
}.

(** The double-quote character. *)
Definition dq : string := String "034"%char EmptyString.

(** ['{"TAG": "' + time_string + '"}'] *)
Definition json_body (tag time_string : string) : string :=
  ("{" ++ dq ++ tag ++ dq ++ ": " ++ dq ++ time_string ++ dq ++ "}")%string.

Section UpdateTime.

(** The builtin [float] on a string. *)
Variable py_float : string -> Py.result F64.float.

(** [update_time(time_string)], with [now] the reading of
    [time.time()]. *)
Definition update_time (now : F64.float) (time_string : string)
  : PyM.M change_detector Response :=
  current ← PyM.gets device_time;
  if current is None then
    x ← PyM.lift (py_float time_string);
    if F64.gtb x (F64.of_Z 1580317004) then
      x' ← PyM.lift (py_float time_string);
      PyM.modify (fun cd => {| device_time := Some x';
                               device_time_start := device_time_start cd |});;
      PyM.modify (fun cd => {| device_time := device_time cd;
                               device_time_start := Some now |});;
      mret {| body := json_body "SUCCESS" time_string; status := 200;
              mimetype := "application/json" |}
    else
      mret {| body := json_body "ERROR" time_string; status := 400;
              mimetype := "application/json" |}
  else
    mret {| body := json_body "NOT_MODIFIED" time_string; status := 304;
            mimetype := "application/json" |}.

(** The endpoint serving a sequence of requests, each with the clock
    reading at its arrival; the responses in order. *)
Fixpoint serve (requests : list (F64.float * string)) (cd : change_detector)
  : change_detector * list (Py.result Response) :=
  match requests with
  | [] => (cd, [])
  | (now, time_string) :: rest =>
      let '(cd1, r) := update_time now time_string cd in
      let '(cd2, rs) := serve rest cd1 in
      (cd2, r :: rs)
  end.

(** The three responses. *)
Definition success (time_string : string) : Response :=
  {| body := json_body "SUCCESS" time_string; status := 200;
     mimetype := "application/json" |}.

Definition error (time_string : string) : Response :=
  {| body := json_body "ERROR" time_string; status := 400;
     mimetype := "application/json" |}.

Definition not_modified (time_string : string) : Response :=
  {| body := json_body "NOT_MODIFIED" time_string; status := 304;
     mimetype := "application/json" |}.

End UpdateTime.

(** [float(s)] on a string of decimal digits, the form in which a
    client sends its clock. *)
Definition float_of_digits (s : string) : Py.result F64.float :=
  n ← CameraController.py_int s;
  mret (F64.of_Z n).

End Api.

(* ===================================================================== *)
(** * driver/MockDriver.py: recording a clip                              *)
(* ===================================================================== *)

Module MockRecording.

(** The simulated device with the attributes its two recording methods
    add, and the video files written so far, by path: for each the
    frames handed to its [cv2.VideoWriter], in order. *)
Record t : Type := {
  device : MockDriver.t;
  vid_cap_start_time : option F64.float;
  vid_cap_start_frame : option F64.float;
  vid_cap_file_path : option string;
  written : gmap string (list ndarray)
}.

Definition on_device {A} (m : PyM.M MockDriver.t A) : PyM.M t A :=
  fun s =>
    let '(d, r) := m (device s) in
    ({| device := d; vid_cap_start_time := vid_cap_start_time s;
        vid_cap_start_frame := vid_cap_start_frame s;
        vid_cap_file_path := vid_cap_file_path s;
        written := written s |}, r).

Definition set_written (w : gmap string (list ndarray)) (s : t) : t :=
  {| device := device s; vid_cap_start_time := vid_cap_start_time s;
     vid_cap_start_frame := vid_cap_start_frame s;
     vid_cap_file_path := vid_cap_file_path s; written := w |}.

(** A number of the configuration as a float operand. *)
Definition as_float (v : Py.value) : Py.result F64.float :=
  match v with
  | Py.VInt n => Py.Ok (F64.of_Z n)
  | _ => Py.Raise Py.TypeError
  end.

Section Methods.

Context `{Cv2}.

(** [x % y] on floats, for [y] other than zero. *)
Variable float_mod : F64.float -> F64.float -> F64.float.

(** [start_video_capture(file_path)], with [now] the reading of
    [time.time()].  [time_before_trigger] is no attribute of the
    object before [initialise_camera] has assigned it; the others are
    [None] until then. *)
Definition start_video_capture (now : F64.float) (file_path : string)
  : PyM.M t unit :=
  before ← on_device
             (PyM.bind (PyM.gets MockDriver.time_before_trigger)
                (fun x => PyM.lift (match x with
                                    | Some a => Py.Ok a
                                    | None => Py.Raise Py.AttributeError
                                    end)));
  before ← PyM.lift (as_float before);
  PyM.modify (fun s =>
    {| device := device s;
       vid_cap_start_time := Some (F64.sub now before);
       vid_cap_start_frame := vid_cap_start_frame s;
       vid_cap_file_path := vid_cap_file_path s;
       written := written s |});;
  v ← on_device (PyM.bind (PyM.gets MockDriver.video) MockDriver.attr);
  rate ← on_device (PyM.bind (PyM.gets MockDriver.frame_rate)
                      MockDriver.attr);
  n ← on_device (PyM.bind (PyM.gets MockDriver.num_frames) MockDriver.attr);
  (if n =? 0 then PyM.raise Py.ZeroDivisionError else mret tt);;
  PyM.modify (fun s =>
    {| device := device s;
       vid_cap_start_time := vid_cap_start_time s;
       vid_cap_start_frame :=
         Some (float_mod
                 (F64.sub (F64.of_Z (MockDriver.vc_pos (MockDriver.hires v)))
                    (F64.mul before rate))
                 (F64.of_Z n));
       vid_cap_file_path := vid_cap_file_path s;
       written := written s |});;
  PyM.modify (fun s =>
    {| device := device s;
       vid_cap_start_time := vid_cap_start_time s;
       vid_cap_start_frame := vid_cap_start_frame s;
       vid_cap_file_path := Some file_path;
       written := written s |}).

(** One turn of the [for] loop of [stop_video_capture]: read the next
    hi-res frame, from the start of the file when the end is reached,
    and write it to [path]. *)
Definition write_next (path : string) : PyM.M t unit :=
  v ← on_device (PyM.bind (PyM.gets MockDriver.video) MockDriver.attr);
  let '(cap, frame) := MockDriver.read (MockDriver.hires v) in
  let '(cap, frame) :=
    match frame with
    | Some _ => (cap, frame)
    | None => MockDriver.read (MockDriver.set_pos 0 cap)
    end in
  on_device (PyM.modify (MockDriver.set_video
    (Some (MockDriver.with_capture Interface.HIRES cap v))));;
  match frame with
  | None => PyM.raise Py.AssertionError
  | Some frame =>
      rot ← on_device (PyM.gets MockDriver.rotated);
      let frame := if (rot : bool) then flip0 frame else frame in
      PyM.modify (fun s =>
        set_written (<[path := default [] (written s !! path) ++ [frame]]>
                       (written s)) s)
  end.

Fixpoint write_frames (count : nat) (path : string) : PyM.M t unit :=
  match count with
  | O => mret tt
  | S count' => write_next path;; write_frames count' path
  end.

(** [stop_video_capture()], with [now] the reading of [time.time()].
    Opening the writer empties the file at the path.  The frame size
    [self.res] handed to the writer is left out, as it is in
    [initialise_camera], which assigns it before the frame rate. *)
Definition stop_video_capture (now : F64.float) : PyM.M t unit :=
  started ← PyM.bind (PyM.gets vid_cap_start_time)
              (fun x => PyM.lift (match x with
                                  | Some a => Py.Ok a
                                  | None => Py.Raise Py.TypeError
                                  end));
  rate ← on_device (PyM.bind (PyM.gets MockDriver.frame_rate)
                      MockDriver.attr);
  num_frames ← PyM.lift (F64.int_of (F64.mul (F64.sub now started) rate));
  path ← PyM.bind (PyM.gets vid_cap_file_path)
           (fun x => PyM.lift (match x with
                               | Some a => Py.Ok a
                               | None => Py.Raise Py.AttributeError
                               end));
  PyM.modify (fun s => set_written (<[path := []]> (written s)) s);;
  write_frames (Z.to_nat num_frames) path.

End Methods.

End MockRecording.

(* ===================================================================== *)
(** * CameraController.py: the other commands                             *)
(* ===================================================================== *)

Module DriverControls.

(** Two more methods the controller calls on its driver.  Only some
    drivers have a [set_sharpness]: [None] stands for a driver object
    without that attribute. *)
Class Controls (D : Type) : Type := {
  configure_LED : Interface.LEDState -> PyM.M D unit;
  set_sharpness :
    option (Interface.SharpnessMode -> Py.value -> PyM.M D unit)
}.

End DriverControls.

Module Commands.

Section Commands.

Context `{Cv2} {D : Type} `{DriverInterface.Driver D}
  `{DriverControls.Controls D}.

(** Whether [open(path, 'w')] succeeds. *)
Variable fs_open : string -> bool.

(** [set_camera_rotation(rotation)] *)
Definition set_camera_rotation (rotation : bool)
  : PyM.M CameraController.t unit :=
  stored ← CameraController.config_get "rotate_camera";
  if bool_decide (bool_decide (stored = Py.VInt 1) ≠ rotation) then
    CameraController.on_config
      (ServerConfig.setitem "rotate_camera"
         (Py.VInt (if rotation then 1 else 0)));;
    cfg ← PyM.gets CameraController.config;
    CameraController.on_driver (DriverInterface.initialise_camera cfg);;
    CameraController.config_flush fs_open
  else mret tt.

(** [auto_exposure()] *)
Definition auto_exposure : PyM.M CameraController.t unit :=
  CameraController.on_config
    (ServerConfig.setitem "exposure_mode" (Py.VStr "auto"));;
  PyM.lift (Py.resolve CameraController.globals "ExposureMode");;
  CameraController.on_driver
    (DriverInterface.set_exposure Interface.AUTO Py.VNone Py.VNone);;
  CameraController.config_flush fs_open.

(** [set_LED(LED)] *)
Definition set_LED (LED : Py.value) : PyM.M CameraController.t unit :=
  stored ← CameraController.config_get "LED";
  if bool_decide (stored ≠ LED) then
    if bool_decide (LED = Py.VStr "off") then
      CameraController.on_driver
        (DriverControls.configure_LED Interface.OFF);;
      CameraController.on_config
        (ServerConfig.setitem "LED" (Py.VStr "off"));;
      CameraController.config_flush fs_open
    else
      CameraController.on_driver
        (DriverControls.configure_LED Interface.ON);;
      CameraController.on_config
        (ServerConfig.setitem "LED" (Py.VStr "on"));;
      CameraController.config_flush fs_open
  else mret tt.

(** [set_sharpness(sharpness_val, sharpness_mode)]: the driver's
    method is looked up, then its arguments are evaluated. *)
Definition set_sharpness (sharpness_val sharpness_mode : Py.value)
  : PyM.M CameraController.t unit :=
  method ← PyM.lift (match DriverControls.set_sharpness with
                     | Some m => Py.Ok m
                     | None => Py.Raise Py.AttributeError
                     end);
  PyM.lift (Py.resolve CameraController.globals "SharpnessMode");;
  CameraController.on_driver
    (method (if bool_decide (sharpness_mode = Py.VStr "auto")
             then Interface.SHARP_AUTO else Interface.SHARP_MANUAL)
       sharpness_val);;
  CameraController.on_config
    (ServerConfig.setitem "sharpness_val" sharpness_val);;
  CameraController.on_config
    (ServerConfig.setitem "sharpness_mode" sharpness_mode);;
  CameraController.config_flush fs_open.


(** [run_autofocus()] *)
Definition run_autofocus : PyM.M CameraController.t unit :=
  CameraController.on_driver DriverInterface.autofocus.

End Commands.

End Commands.

(* ===================================================================== *)
(** * Stand-ins for collaborators outside the repository                  *)
(* ===================================================================== *)

Module Fixtures.

(** An OpenCV that converts by copying and encodes a frame as itself. *)
#[global] Instance cv2_copy : Cv2 := {|
  cvtColor_YUV420p2RGB := fun a => Py.Ok (Some a);
  cvtColor_BGR2YUV_I420 := fun a => a;
  flip0 := fun a => rev a;
  imencode_jpg := fun a => Py.Ok (true, a)
|}.

(** What a scripted capture does: hand out a frame, fail, or be
    interrupted from the keyboard. *)
Inductive capture_event : Type :=
| Frame (a : ndarray)
| Fault (msg : string)
| Interrupt.

Definition play (ev : capture_event) : Py.result ndarray :=
  match ev with
  | Frame a => Py.Ok a
  | Fault msg => Py.Raise (Py.Exception msg)
  | Interrupt => Py.Raise Py.KeyboardInterrupt
  end.

(** A driver that plays back a script of captures, remembers each
    configuration it is initialised with, and accepts every
    initialisation. *)
Record scripted : Type := {
  captures : list capture_event;
  initialised_with : list ServerConfig.Config;
  settings : DriverInterface.exposure_settings
}.

#[global] Instance scripted_driver : DriverInterface.Driver scripted := {|
  DriverInterface.initialise_camera := fun cfg d =>
    ({| captures := captures d;
        initialised_with := initialised_with d ++ [cfg];
        settings := settings d |}, Py.Ok tt);
  DriverInterface.get_yuv_image := fun _ d =>
    ({| captures := tail (captures d);
        initialised_with := initialised_with d;
        settings := settings d |},
     play (default (Frame []) (head (captures d))));
  DriverInterface.set_exposure := fun m t g d =>
    ({| captures := captures d;
        initialised_with := initialised_with d;
        settings := {| DriverInterface.es_mode := m;
                       DriverInterface.es_analogue_gain := g;
                       DriverInterface.es_shutter_speed :=
                         DriverInterface.Value t |} |},
     Py.Ok tt);
  DriverInterface.get_exposure_settings := fun d => (d, Py.Ok (settings d));
  DriverInterface.autofocus := fun d => (d, Py.Ok tt);
  DriverInterface.set_preprocess_callback := fun d => (d, Py.Ok tt);
  DriverInterface.stop := fun d => (d, Py.Ok tt)
|}.

(** A camera that has come unplugged: no capture, and no
    initialisation either. *)
Inductive unplugged : Type := Unplugged.

#[global] Instance unplugged_driver : DriverInterface.Driver unplugged := {|
  DriverInterface.initialise_camera := fun _ d =>
    (d, Py.Raise (Py.Exception "Unable to connect to camera"));
  DriverInterface.get_yuv_image := fun _ d =>
    (d, Py.Raise (Py.Exception "capture failed"));
  DriverInterface.set_exposure := fun _ _ _ d => (d, Py.Ok tt);
  DriverInterface.get_exposure_settings := fun d =>
    (d, Py.Raise (Py.Exception "capture failed"));
  DriverInterface.autofocus := fun d => (d, Py.Ok tt);
  DriverInterface.set_preprocess_callback := fun d => (d, Py.Ok tt);
  DriverInterface.stop := fun d => (d, Py.Ok tt)
|}.

(** A configuration file's content. *)
Definition config0 : ServerConfig.Config :=
  list_to_map
    [("LED", Py.VStr "off"); ("resolution", Py.VStr "1640x1232");
     ("img_width", Py.VInt 1640); ("img_height", Py.VInt 1232);
     ("rotate_camera", Py.VInt 0); ("exposure_mode", Py.VStr "auto");
     ("shutter_speed", Py.VInt 0); ("analogue_gain", Py.VInt 0);
     ("sharpness_mode", Py.VStr "auto"); ("sharpness_val", Py.VInt 1);
     ("af_enable", Py.VInt 0); ("timestamp", Py.VStr "off");
     ("frame_rate", Py.VInt 12); ("video_duration_before_motion", Py.VInt 5);
     ("data_path", Py.VStr "data")].

Definition scripted0 (script : list capture_event) : scripted :=
  {| captures := script; initialised_with := [];
     settings := {| DriverInterface.es_mode := Interface.AUTO;
                    DriverInterface.es_analogue_gain := Py.VInt 1;
                    DriverInterface.es_shutter_speed :=
                      DriverInterface.Value (Py.VInt 712) |} |}.

(** A controller just constructed on a scripted driver. *)
Definition controller0 (script : list capture_event)
  : CameraController.t :=
  {| CameraController.stop_event := false;
     CameraController.logger := [];
     CameraController.config := config0;
     CameraController.driver := scripted0 script;
     CameraController.image := None;
     CameraController.yuvimage := None;
     CameraController.recording_active := false;
     CameraController.slept := [] |}.

(** The controller that [__init__] builds on the scripted driver: the
    driver has been initialised once, with the configuration. *)
Definition constructed : CameraController.t :=
  {| CameraController.stop_event := false;
     CameraController.logger := [];
     CameraController.config := config0;
     CameraController.driver :=
       {| captures := []; initialised_with := [config0];
          settings := settings (scripted0 []) |};
     CameraController.image := None;
     CameraController.yuvimage := None;
     CameraController.recording_active := false;
     CameraController.slept := [] |}.

(** A configuration of 30 frames a second with 3 seconds of pre-roll. *)
Definition config_30fps_3s : ServerConfig.Config :=
  <["frame_rate" := Py.VInt 30]>
    (<["video_duration_before_motion" := Py.VInt 3]> config0).

(** An autofocus-capable camera whose first two focus cycles fail. *)
Definition imx708_driver : RaspberryPiDriver.t :=
  {| RaspberryPiDriver.camera :=
       Some {| RaspberryPiDriver.af_mode_auto := false;
               RaspberryPiDriver.cycles_run := 0;
               RaspberryPiDriver.cycle_results := [false; false; true] |};
     RaspberryPiDriver.camera_model := "imx708_wide";
     RaspberryPiDriver.logger := [];
     RaspberryPiDriver.slept := [] |}.

(** A recorded clip of 100 frames at 30 frames a second; frame [i]
    holds the one pixel [i]. *)
Definition clip : MockDriver.video_file :=
  {| MockDriver.vf_frames := (λ i, [i]) <$> seqZ 0 100;
     MockDriver.vf_fps := F64.of_Z 30 |}.

Definition environ0 : gmap string string :=
  {["MOCK_VIDEO_PATH" := "clip.mp4"]}.

Definition open_clip (path : string) : option MockDriver.video_file :=
  if bool_decide (path = "clip.mp4") then Some clip else None.

(** The simulated device initialised on the clip at clock reading
    1000, under the stock configuration (12 frames a second). *)
Definition mock0 : MockDriver.t :=
  fst (MockDriver.initialise_camera environ0 open_clip (F64.of_Z 1000)
         config0 MockDriver.init).

End Fixtures.

(** More stand-ins, for the commands and the recorder. *)
Module Scenes.

(** The scripted driver takes every LED state and has no
    [set_sharpness], like the simulated device. *)
#[global] Instance scripted_controls
  : DriverControls.Controls Fixtures.scripted := {|
  DriverControls.configure_LED := fun _ d => (d, Py.Ok tt);
  DriverControls.set_sharpness := None
|}.

(** A clip of three frames at 30 frames a second. *)
Definition short_clip : MockDriver.video_file :=
  {| MockDriver.vf_frames := [[10]; [11]; [12]];
     MockDriver.vf_fps := F64.of_Z 30 |}.

Definition open_short_clip (path : string) : option MockDriver.video_file :=
  if bool_decide (path = "clip.mp4") then Some short_clip else None.

(** The simulated device initialised on the short clip at clock
    reading 1000. *)
Definition mock_short : MockDriver.t :=
  fst (MockDriver.initialise_camera Fixtures.environ0 open_short_clip
         (F64.of_Z 1000) Fixtures.config0 MockDriver.init).

(** A recorder on that device, with nothing recorded yet. *)
Definition recorder0 : MockRecording.t :=
  {| MockRecording.device := mock_short;
     MockRecording.vid_cap_start_time := None;
     MockRecording.vid_cap_start_frame := None;
     MockRecording.vid_cap_file_path := None;
     MockRecording.written := ∅ |}.

(** [x % y] on floats that hold whole numbers. *)
(** The camera libraries when every call into them succeeds: the
    camera found is an [imx708] whose focus cycles succeed. *)
#[global] Instance libraries_at_work : RPiInitialise.Libraries := {|
  RPiInitialise.GPIO_setup := Py.Ok tt;
  RPiInitialise.GPIO_output := fun _ => Py.Ok tt;
  RPiInitialise.Picamera2_new :=
    Py.Ok {| RaspberryPiDriver.af_mode_auto := false;
             RaspberryPiDriver.cycles_run := 0;
             RaspberryPiDriver.cycle_results := [true] |};
  RPiInitialise.close := fun _ => Py.Ok tt;
  RPiInitialise.camera_model_of := fun _ => Py.Ok "imx708";
  RPiInitialise.Transform := fun _ => Py.Ok tt;
  RPiInitialise.create_video_configuration := fun _ => Py.Ok tt;
  RPiInitialise.configure := fun cam => (cam, Py.Ok tt);
  RPiInitialise.start := fun cam => (cam, Py.Ok tt);
  RPiInitialise.frame_duration_of := fun cam => (cam, Py.Ok (Py.VInt 33333));
  RPiInitialise.set_controls := fun _ cam => (cam, Py.Ok tt);
  RPiInitialise.H264Encoder := Py.Ok tt;
  RPiInitialise.CircularOutput := fun _ => Py.Ok tt
|}.

(** A controller whose scripted driver reports the shutter speed
    [x]. *)
Definition reporting (x : Num.t) : CameraController.t :=
  {| CameraController.stop_event := false;
     CameraController.logger := [];
     CameraController.config := Fixtures.config0;
     CameraController.driver :=
       {| Fixtures.captures := [];
          Fixtures.initialised_with := [];
          Fixtures.settings :=
            {| DriverInterface.es_mode := Interface.AUTO;
               DriverInterface.es_analogue_gain := Py.VInt 1;
               DriverInterface.es_shutter_speed :=
                 DriverInterface.Number x |} |};
     CameraController.image := None;
     CameraController.yuvimage := None;
     CameraController.recording_active := false;
     CameraController.slept := [] |}.

Definition float_mod_whole (x y : F64.float) : F64.float :=
  match F64.to_int x, F64.to_int y with
  | Some a, Some b => F64.of_Z (a `mod` b)
  | _, _ => S754_nan
  end.

End Scenes.

(* ===================================================================== *)
(** * Statements                                                          *)
(* ===================================================================== *)

(** Ascending order, by positions. *)
Definition ascending (a : list Z) : Prop :=
  ∀ (i j : nat) (y z : Z),
    (i <= j)%nat → a !! i = Some y → a !! j = Some z → y <= z.

(** Where [bisect_left] must land: everything before [p] is below [x],
    everything from [p] on is not. *)
Definition insertion_point (a : list Z) (x : Z) (p : nat) : Prop :=
  (p <= length a)%nat
  ∧ (∀ (i : nat) (y : Z), (i < p)%nat → a !! i = Some y → y < x)
  ∧ (∀ (i : nat) (y : Z), (p <= i)%nat → a !! i = Some y → x <= y).

(** The float [n / 2], for the shutter speeds that lie midway between
    two integers. *)
Definition halves (n : Z) : F64.float := F64.div (F64.of_Z n) (F64.of_Z 2).

(** Where [bisect_left] lands on any number [x]: every entry before
    [p] compares below [x], none from [p] on does. *)
Definition partition_point (a : list Z) (x : Num.t) (p : nat) : Prop :=
  (p <= length a)%nat
  ∧ (∀ (i : nat) (y : Z),
        (i < p)%nat → a !! i = Some y → Num.lt (Num.Int y) x = true)
  ∧ (∀ (i : nat) (y : Z),
        (p <= i)%nat → a !! i = Some y → Num.lt (Num.Int y) x = false).

(** [r] is a value of the table nearest to the rational [q], and the
    smaller one where two are equally near. *)
Definition nearest_to (a : list Z) (q : Q) (r : Z) : Prop :=
  r ∈ a
  ∧ Forall (λ t, (Qabs (inject_Z r - q) <= Qabs (inject_Z t - q))%Q) a
  ∧ Forall (λ t, (Qabs (inject_Z t - q) == Qabs (inject_Z r - q))%Q
                 → r <= t) a.

(** [r] is a value of the table nearest to [v], and the smaller one
    where two are equally near. *)
Definition nearest_smaller_wins (a : list Z) (v r : Z) : Prop :=
  r ∈ a
  ∧ Forall (λ t, Z.abs (r - v) <= Z.abs (t - v)) a
  ∧ Forall (λ t, Z.abs (t - v) = Z.abs (r - v) → r <= t) a.

(** What [set_exposure] has written by the time it fails. *)
Definition exposure_written (t g : Py.value) (cfg : ServerConfig.Config)
  : ServerConfig.Config :=
  <["exposure_mode" := Py.VStr "off"]>
    (<["analogue_gain" := g]> (<["shutter_speed" := t]> cfg)).

(** A computation that leaves the two buffer attributes as they
    were. *)
Definition keeps_buffer {A} (m : PyM.M RPiInitialise.t A) : Prop :=
  ∀ s, RPiInitialise.video_buffer_size (fst (m s))
       = RPiInitialise.video_buffer_size s
       ∧ RPiInitialise.encoder_output (fst (m s))
         = RPiInitialise.encoder_output s.

(** A computation that raises whatever the state. *)
Definition always_raises {A} (m : PyM.M RPiInitialise.t A) : Prop :=
  ∀ s, ∃ e, snd (m s) = Py.Raise e.

(** [floor(f * (d + 1.1))] in exact arithmetic:
    [f * (d + 11/10) = f * (10 * d + 11) / 10]. *)
Definition floor_frames (f d : Z) : Z := (f * (10 * d + 11)) / 10.

(** The double-precision computation on whole-number settings. *)
Definition double_frames (f d : Z) : Py.result Z :=
  F64.int_of (F64.mul (F64.of_Z f) (F64.add (F64.of_Z d) F64.lit_1_1)).

(** The two computations agree on a grid of settings. *)
Definition agree_on (fs ds : list Z) : bool :=
  forallb (λ f, forallb (λ d,
    bool_decide (double_frames f d = Py.Ok (floor_frames f d))) ds) fs.



(** The read positions of the two captures. *)
Definition lores_pos (d : MockDriver.t) : option Z :=
  (λ v, MockDriver.vc_pos (MockDriver.lores v)) <$> MockDriver.video d.

Definition hires_pos (d : MockDriver.t) : option Z :=
  (λ v, MockDriver.vc_pos (MockDriver.hires v)) <$> MockDriver.video d.


(** The state after the handler of [except Exception] has run on
    [c1], the driver having become [d2]. *)
Definition recovered {D : Type} (e : Py.exn) (d2 : D)
    (c1 : @CameraController.t D)
  : @CameraController.t D :=
  {| CameraController.stop_event := CameraController.stop_event c1;
     CameraController.logger :=
       (CameraController.logger c1
        ++ [CameraController.Log CameraController.ERROR
              "CameraController: driver error, reinitialising."])
       ++ [CameraController.LogException e];
     CameraController.config := CameraController.config c1;
     CameraController.driver := d2;
     CameraController.image := CameraController.image c1;
     CameraController.yuvimage := CameraController.yuvimage c1;
     CameraController.recording_active :=
       CameraController.recording_active c1;
     CameraController.slept := CameraController.slept c1 ++ [20] |}.

(** The state the handler of [except Exception] leaves behind on [c1]
    when its own call of [initialise_camera] raises, the driver having
    become [d2]: the error and the exception are logged, nothing is
    slept. *)
Definition abandoned {D : Type} (e : Py.exn) (d2 : D)
    (c1 : @CameraController.t D)
  : @CameraController.t D :=
  {| CameraController.stop_event := CameraController.stop_event c1;
     CameraController.logger :=
       (CameraController.logger c1
        ++ [CameraController.Log CameraController.ERROR
              "CameraController: driver error, reinitialising."])
       ++ [CameraController.LogException e];
     CameraController.config := CameraController.config c1;
     CameraController.driver := d2;
     CameraController.image := CameraController.image c1;
     CameraController.yuvimage := CameraController.yuvimage c1;
     CameraController.recording_active :=
       CameraController.recording_active c1;
     CameraController.slept := CameraController.slept c1 |}.



(** The state a turn of the loop leaves behind when it has captured
    [y] and converted it to [img], the driver having become [d1]. *)
Definition published {D : Type} (d1 : D) (y : ndarray)
    (img : option ndarray) (c : @CameraController.t D)
  : @CameraController.t D :=
  {| CameraController.stop_event := CameraController.stop_event c;
     CameraController.logger :=
       CameraController.logger c
       ++ (if img is None
           then [CameraController.Log CameraController.WARNING
                   "CameraController: got empty image."]
           else []);
     CameraController.config := CameraController.config c;
     CameraController.driver := d1;
     CameraController.image := img;
     CameraController.yuvimage := Some y;
     CameraController.recording_active :=
       CameraController.recording_active c;
     CameraController.slept :=
       CameraController.slept c
       ++ [if CameraController.recording_active c then 1000 else 30] |}.

(** The pauses the loop takes. *)
Definition pauses_of_loop : list Z := [20; 30; 1000].

(** A client of the simulated device asking for one frame after
    another: each request comes with the clock reading at its arrival
    and the resolution asked for; the outcomes in order. *)
Fixpoint requests `{Cv2}
    (reqs : list (F64.float * Interface.ImageResolution))
    (d : MockDriver.t) : MockDriver.t * list (Py.result ndarray) :=
  match reqs with
  | [] => (d, [])
  | (now, res) :: rest =>
      let '(d1, r) := MockDriver.get_yuv_image now res d in
      let '(d2, rs) := requests rest d1 in
      (d2, r :: rs)
  end.





(** The frames [q], [q + 1], ... of a file, [count] of them, starting
    over at the end of the file, flipped when the camera is rotated. *)
Definition clip_frames `{Cv2} (file : MockDriver.video_file) (rot : bool)
    (q : Z) (count : nat) : list ndarray :=
  omap (λ i : Z,
          (λ frame, if rot then flip0 frame else frame)
            <$> MockDriver.vf_frames file
                  !! Z.to_nat ((q + i)
                       `mod` Z.of_nat (length (MockDriver.vf_frames file))))
    (Z.of_nat <$> seq 0 count).

(** The device of a recorder replays [file] with its hi-res position
    at [q]. *)
Definition recording_from (file : MockDriver.video_file) (q : Z)
    (s : MockRecording.t) : Prop :=
  MockDriver.vf_frames file ≠ []
  ∧ 0 <= q <= Z.of_nat (length (MockDriver.vf_frames file))
  ∧ ∃ v, MockDriver.video (MockRecording.device s) = Some v
         ∧ MockDriver.vc_file (MockDriver.hires v) = Some file
         ∧ MockDriver.vc_pos (MockDriver.hires v) = q.

(** The controller with another configuration and another driver
    state. *)
Definition reconfigured {D : Type} (cfg : ServerConfig.Config) (d : D)
    (c : @CameraController.t D) : @CameraController.t D :=
  {| CameraController.stop_event := CameraController.stop_event c;
     CameraController.logger := CameraController.logger c;
     CameraController.config := cfg;
     CameraController.driver := d;
     CameraController.image := CameraController.image c;
     CameraController.yuvimage := CameraController.yuvimage c;
     CameraController.recording_active :=
       CameraController.recording_active c;
     CameraController.slept := CameraController.slept c |}.

(** A key that [Config] passes on to its dictionary: no attribute of
    the object, and none of the names every object has, which are
    written between double underscores. *)
Definition dictionary_key (k : string) : Prop :=
  ServerConfig.hasattr k = false ∧ String.prefix "__" k = false.

(** The attributes of a [Config] that are no properties: reading one
    runs no code of the class. *)
Definition plain_attributes : list string :=
  ["config"; "file_lock"; "load_from_file"; "flush"].

(** The exceptions [Config.flush] ends in. *)
Definition flush_errors : list Py.exn :=
  [Py.KeyError "data_path"; Py.TypeError; Py.OSError;
   Py.NameError "new_config"].

(** The resolutions [set_resolution] accepts, with the width and the
    height each one stands for. *)
Definition resolution_sizes : list (Py.value * Z * Z) :=
  [(Py.VStr "1640x1232", 1640, 1232); (Py.VStr "1920x1080", 1920, 1080)].

(** Whether a request was answered 200. *)
Definition is_accepted (out : Py.result Api.Response) : bool :=
  match out with
  | Py.Ok resp => Api.status resp =? 200
  | Py.Raise _ => false
  end.

(** How many requests of a sequence were answered 200. *)
Definition accepted_count (outs : list (Py.result Api.Response)) : nat :=
  length (List.filter is_accepted outs).

(* ===================================================================== *)
(** * Properties                                                          *)
(* ===================================================================== *)

(** ** Binary search *)

Section BisectFacts.

Lemma ascending_cons (y : Z) (a : list Z) :
  Forall (Z.le y) a → ascending a → ascending (y :: a).
Proof.
  intros Hall Hasc i j u v Hij Hi Hj.
  destruct i as [|i], j as [|j]; simpl in *; simplify_eq; try lia.
  - rewrite Forall_forall in Hall. apply Hall.
    eapply list_elem_of_lookup_2; eauto.
  - eapply (Hasc i j); eauto; lia.
Qed.

Lemma midpoint_between (lo hi : nat) :
  (lo < hi)%nat → (lo <= (lo + hi) / 2 < hi)%nat.
Proof.
  intros Hlt.
  pose proof (Nat.div_mod_eq (lo + hi) 2) as Hdm.
  pose proof (Nat.mod_upper_bound (lo + hi) 2) as Hm.
  lia.
Qed.

Lemma index_in_range (a : list Z) (i : nat) :
  (i < length a)%nat → ∃ y, a !! i = Some y ∧ Bisect.index a i = Py.Ok y.
Proof.
  intros Hi. destruct (lookup_lt_is_Some_2 a i Hi) as [y Hy].
  exists y. split; [done|]. unfold Bisect.index. by rewrite Hy.
Qed.

Lemma bisect_loop_unfold (fuel : nat) (a : list Z) (x : Num.t)
    (lo hi : nat) :
  Bisect.bisect_loop (S fuel) a x lo hi =
  if (lo <? hi)%nat then
    a_mid ← Bisect.index a ((lo + hi) / 2);
    if Num.lt (Num.Int a_mid) x
    then Bisect.bisect_loop fuel a x ((lo + hi) / 2 + 1)%nat hi
    else Bisect.bisect_loop fuel a x lo ((lo + hi) / 2)%nat
  else Py.Ok lo.
Proof. reflexivity. Qed.

(** A float that is finite compares with an integer as the rational
    it is. *)
Lemma compare_Z_finite (f : F64.float) (n : Z) :
  F64.is_finite f = true →
  F64.compare_Z f n = Some (F64.to_Q f ?= inject_Z n)%Q.
Proof. by destruct f. Qed.

Lemma lt_int_float (f : F64.float) (t : Z) :
  F64.is_finite f = true →
  Num.lt (Num.Int t) (Num.Float f) = true ↔ (inject_Z t < F64.to_Q f)%Q.
Proof.
  intros Hfin. unfold Num.lt. cbn [Num.repr].
  rewrite bool_decide_eq_true, (compare_Z_finite f t Hfin).
  rewrite Qgt_alt. split; [by intros [= ->]|by intros ->].
Qed.

(** What compares below a number still does when it gets smaller. *)
Lemma lt_antitone (x : Num.t) (s t : Z) :
  s <= t → Num.lt (Num.Int t) x = true → Num.lt (Num.Int s) x = true.
Proof.
  intros Hst. destruct x as [v|b|f].
  - unfold Num.lt. cbn [Num.repr]. intros H%Z.ltb_lt. apply Z.ltb_lt. lia.
  - unfold Num.lt. cbn [Num.repr]. intros H%Z.ltb_lt. apply Z.ltb_lt. lia.
  - destruct (F64.is_finite f) eqn:Hfin.
    + rewrite !(lt_int_float f _ Hfin). intros Hlt.
      apply Qle_lt_trans with (inject_Z t); [|exact Hlt].
      by rewrite <- Zle_Qle.
    + by destruct f.
Qed.

(** The loop keeps its invariant and, given a turn of fuel for every
    position still in play, ends where the entries stop comparing
    below [x]. *)
Lemma bisect_loop_partition (a : list Z) (x : Num.t) :
  ascending a →
  ∀ (fuel lo hi : nat),
    (hi - lo <= fuel)%nat → (lo <= hi <= length a)%nat →
    (∀ (i : nat) (y : Z),
        (i < lo)%nat → a !! i = Some y → Num.lt (Num.Int y) x = true) →
    (∀ (i : nat) (y : Z),
        (hi <= i)%nat → a !! i = Some y → Num.lt (Num.Int y) x = false) →
    ∃ p, Bisect.bisect_loop fuel a x lo hi = Py.Ok p
         ∧ partition_point a x p.
Proof.
  intros Hasc fuel.
  induction fuel as [|fuel IH]; intros lo hi Hfuel Hrange Hlow Hhigh.
  - assert (lo = hi) as -> by lia.
    exists hi. simpl. rewrite Nat.ltb_irrefl.
    split; [done|]. split; [lia|]. split; assumption.
  - rewrite bisect_loop_unfold. destruct (Nat.ltb_spec lo hi) as [Hlt|Hge].
    + pose proof (midpoint_between lo hi Hlt) as Hmid.
      set (mid := ((lo + hi) / 2)%nat) in *.
      destruct (index_in_range a mid) as (v & Hv & ->); [lia|].
      cbn [mbind result_bind Py.bind].
      destruct (Num.lt (Num.Int v) x) eqn:Hvx.
      * apply IH; [lia|lia| |assumption].
        intros i y Hi Hy. apply (lt_antitone x y v); [|exact Hvx].
        apply (Hasc i mid); [lia|done|done].
      * apply IH; [lia|lia|assumption|].
        intros i y Hi Hy.
        destruct (Num.lt (Num.Int y) x) eqn:Hyx; [|done].
        rewrite <- Hvx. symmetry. apply (lt_antitone x v y); [|exact Hyx].
        apply (Hasc mid i); [lia|done|done].
    + assert (lo = hi) as -> by lia.
      exists hi. split; [done|]. split; [lia|]. split; assumption.
Qed.

Lemma bisect_left_partition (a : list Z) (x : Num.t) :
  ascending a →
  ∃ p, Bisect.bisect_left a x = Py.Ok p ∧ partition_point a x p.
Proof.
  intros Hasc. unfold Bisect.bisect_left.
  apply bisect_loop_partition; [assumption|lia|lia| |].
  - intros i y Hi. lia.
  - intros i y Hi Hy. apply lookup_lt_Some in Hy. lia.
Qed.

Lemma bisect_left_correct (a : list Z) (x : Z) :
  ascending a →
  ∃ p, Bisect.bisect_left a x = Py.Ok p ∧ insertion_point a x p.
Proof.
  intros Hasc.
  destruct (bisect_left_partition a x Hasc) as (p & Hp & Hle & Hlow & Hhigh).
  exists p. split; [exact Hp|]. split; [exact Hle|]. split.
  - intros i y Hi Hy. apply Z.ltb_lt. exact (Hlow i y Hi Hy).
  - intros i y Hi Hy. apply Z.ltb_ge. exact (Hhigh i y Hi Hy).
Qed.

Lemma index_last_lookup (a : list Z) (y : Z) :
  a !! (length a - 1)%nat = Some y → a ≠ [] →
  CameraController.index_last a = Py.Ok y.
Proof.
  intros Hy Hne. unfold CameraController.index_last.
  rewrite last_lookup.
  replace (Nat.pred (length a)) with (length a - 1)%nat by lia.
  by rewrite Hy.
Qed.

(** On any ascending, non-empty table the search returns a nearest
    value, the smaller of two equally near ones. *)
Lemma find_closest_exposure_correct (a : list Z) (v : Z) :
  ascending a → a ≠ [] →
  ∃ r, CameraController.find_closest_exposure a v = Py.Ok r
       ∧ nearest_smaller_wins a v r.
Proof.
  intros Hasc Hne.
  assert (0 < length a)%nat as Hlen by (destruct a; simpl; [done|lia]).
  destruct (bisect_left_correct a v Hasc) as (p & Hp & Hle & Hlow & Hhigh).
  unfold CameraController.find_closest_exposure. rewrite Hp.
  cbn [mbind result_bind Py.bind].
  destruct (Nat.eqb_spec p 0) as [->|Hp0].
  { destruct (index_in_range a 0 Hlen) as (r & Hr & ->).
    exists r. split; [done|]. split; [by eapply list_elem_of_lookup_2|].
    split; apply Forall_lookup; intros j t Ht.
    - pose proof (Hhigh 0%nat r ltac:(lia) Hr).
      pose proof (Hhigh j t ltac:(lia) Ht).
      pose proof (Hasc 0%nat j r t ltac:(lia) Hr Ht). lia.
    - pose proof (Hasc 0%nat j r t ltac:(lia) Hr Ht). lia. }
  destruct (Nat.eqb_spec p (length a)) as [->|Hpn].
  { destruct (index_in_range a (length a - 1)) as (r & Hr & _); [lia|].
    rewrite (index_last_lookup a r Hr Hne).
    exists r. split; [done|]. split; [by eapply list_elem_of_lookup_2|].
    split; apply Forall_lookup; intros j t Ht.
    - pose proof (lookup_lt_Some _ _ _ Ht).
      pose proof (Hlow (length a - 1)%nat r ltac:(lia) Hr).
      pose proof (Hlow j t ltac:(lia) Ht).
      pose proof (Hasc j (length a - 1)%nat t r ltac:(lia) Ht Hr). lia.
    - pose proof (lookup_lt_Some _ _ _ Ht).
      pose proof (Hlow (length a - 1)%nat r ltac:(lia) Hr).
      pose proof (Hlow j t ltac:(lia) Ht).
      pose proof (Hasc j (length a - 1)%nat t r ltac:(lia) Ht Hr). lia. }
  destruct (index_in_range a (p - 1)) as (before & Hb & ->); [lia|].
  destruct (index_in_range a p) as (after & Ha & ->); [lia|].
  cbn [mbind result_bind Py.bind Num.sub Num.lt Num.repr].
  pose proof (Hlow (p - 1)%nat before ltac:(lia) Hb) as Hbv.
  pose proof (Hhigh p after ltac:(lia) Ha) as Hav.
  assert (∀ (j : nat) (t : Z), a !! j = Some t → t <= before ∨ after <= t)
    as Hsplit.
  { intros j t Ht. destruct (decide (j < p)%nat).
    - left. apply (Hasc j (p - 1)%nat); [lia|done|done].
    - right. apply (Hasc p j); [lia|done|done]. }
  destruct (Z.ltb_spec (after - v) (v - before)) as [Hnear|Hfar].
  - exists after. split; [done|]. split; [by eapply list_elem_of_lookup_2|].
    split; apply Forall_lookup; intros j t Ht;
      destruct (Hsplit j t Ht); lia.
  - exists before. split; [done|]. split; [by eapply list_elem_of_lookup_2|].
    split; apply Forall_lookup; intros j t Ht;
      destruct (Hsplit j t Ht); lia.
Qed.

Lemma ExpList_ascending : ascending CameraController.ExpList.
Proof.
  unfold CameraController.ExpList.
  repeat (apply ascending_cons; [repeat constructor; lia|]).
  intros i j y z _ Hi. by rewrite lookup_nil in Hi.
Qed.

End BisectFacts.

(** ** Floats: where subtraction and comparison are exact *)

Section FloatFacts.

Lemma digits2_pos_bounds (p : positive) :
  2 ^ (Zpos (digits2_pos p) - 1) <= Zpos p < 2 ^ Zpos (digits2_pos p).
Proof.
  induction p as [p IH|p IH|]; cbn [digits2_pos].
  - rewrite Pos2Z.inj_succ.
    replace (Z.succ (Zpos (digits2_pos p)) - 1)
      with (Z.succ (Zpos (digits2_pos p) - 1)) by lia.
    rewrite !Z.pow_succ_r by lia. lia.
  - rewrite Pos2Z.inj_succ.
    replace (Z.succ (Zpos (digits2_pos p)) - 1)
      with (Z.succ (Zpos (digits2_pos p) - 1)) by lia.
    rewrite !Z.pow_succ_r by lia. lia.
  - cbn. lia.
Qed.

Lemma digits2_pos_le (p : positive) (d : Z) :
  0 <= d → Zpos p < 2 ^ d → Zpos (digits2_pos p) <= d.
Proof.
  intros Hd Hlt. pose proof (digits2_pos_bounds p) as [Hlo _].
  destruct (Z.le_gt_cases (Zpos (digits2_pos p)) d) as [|Hgt]; [done|].
  assert (2 ^ d <= 2 ^ (Zpos (digits2_pos p) - 1))
    by (apply Z.pow_le_mono_r; lia).
  lia.
Qed.

Lemma iter_xO_value (p k : positive) :
  Zpos (Pos.iter xO p k) = Zpos p * 2 ^ Zpos k
  ∧ digits2_pos (Pos.iter xO p k) = (digits2_pos p + k)%positive.
Proof.
  induction k as [|k [IHv IHd]] using Pos.peano_ind.
  - cbn. split; [lia|]. by rewrite Pos.add_1_r.
  - rewrite Pos.iter_succ. cbn [digits2_pos]. rewrite IHd.
    rewrite Pos2Z.inj_succ, Z.pow_succ_r by lia.
    split; [lia|]. by rewrite Pos.add_succ_r.
Qed.

Lemma shl_align_value (p : positive) (e e' : Z) :
  e' <= e →
  ∃ p', shl_align p e e' = (p', e')
        ∧ Zpos p' = Zpos p * 2 ^ (e - e')
        ∧ Zpos (digits2_pos p') = Zpos (digits2_pos p) + (e - e').
Proof.
  intros Hle. unfold shl_align.
  destruct (e' - e) as [|d|d] eqn:Hd; [|lia|].
  - assert (e' = e) as -> by lia. exists p.
    rewrite Z.sub_diag. split; [done|]. split; lia.
  - exists (Pos.iter xO p d).
    destruct (iter_xO_value p d) as [Hv Hdig].
    replace (e - e') with (Zpos d) by lia.
    split; [done|]. split; [exact Hv|]. rewrite Hdig. lia.
Qed.

Lemma fexp_eq (e : Z) : fexp F64.prec F64.emax e = Z.max (e - 53) (-1074).
Proof. reflexivity. Qed.

Lemma round_aux_canonical (mz : positive) (e' : Z) :
  canonical_mantissa F64.prec F64.emax mz e' = true → e' <= 971 →
  binary_round_aux F64.prec F64.emax false (Zpos mz) e' loc_Exact
  = S754_finite false mz e'.
Proof.
  intros Hcan Hle. apply Z.eqb_eq in Hcan.
  unfold binary_round_aux, shr_fexp. cbn [Zdigits2 shr_record_of_loc].
  rewrite Hcan, Z.sub_diag. cbn [shr shr_m loc_of_shr_record
    round_nearest_even Zdigits2 shr_record_of_loc].
  rewrite Hcan, Z.sub_diag. cbn [shr shr_m].
  replace (e' <=? F64.emax - F64.prec) with true; [done|].
  symmetry. apply Z.leb_le. unfold F64.emax, F64.prec. lia.
Qed.

(** Normalising fewer than 54 bits at an exponent in range loses
    nothing. *)
Lemma normalize_exact (p : positive) (c : Z) :
  Zpos p < 2 ^ 53 → -1074 <= c <= 971 →
  ∃ mz e', binary_normalize F64.prec F64.emax (Zpos p) c false
           = S754_finite false mz e'
           ∧ canonical_mantissa F64.prec F64.emax mz e' = true
           ∧ -1074 <= e' <= c
           ∧ Zpos mz = Zpos p * 2 ^ (c - e').
Proof.
  intros Hp Hc.
  pose proof (digits2_pos_le p 53 ltac:(lia) Hp) as Hd.
  unfold binary_normalize, binary_round.
  set (e' := fexp F64.prec F64.emax (Zpos (digits2_pos p) + c)).
  assert (-1074 <= e' <= c) as He'
    by (unfold e'; rewrite fexp_eq; lia).
  destruct (shl_align_value p c e') as (mz & -> & Hval & Hdig); [lia|].
  assert (canonical_mantissa F64.prec F64.emax mz e' = true) as Hcan.
  { unfold canonical_mantissa. apply Z.eqb_eq. rewrite Hdig.
    replace (Zpos (digits2_pos p) + (c - e') + e')
      with (Zpos (digits2_pos p) + c) by lia. done. }
  exists mz, e'. split; [apply round_aux_canonical; [done|lia]|].
  split; [done|]. split; [lia|done].
Qed.

Lemma canonical_bounds (m : positive) (e : Z) :
  canonical_mantissa F64.prec F64.emax m e = true →
  -1074 <= e ∧ Zpos m < 2 ^ 53
  ∧ (-1074 < e → 2 ^ 52 <= Zpos m).
Proof.
  intros Hcan. apply Z.eqb_eq in Hcan. rewrite fexp_eq in Hcan.
  pose proof (digits2_pos_bounds m) as [Hlo Hhi].
  split; [lia|]. split.
  - assert (2 ^ Zpos (digits2_pos m) <= 2 ^ 53)
      by (apply Z.pow_le_mono_r; lia). lia.
  - intros He. assert (Zpos (digits2_pos m) = 53) as Hd by lia.
    rewrite Hd in Hlo. exact Hlo.
Qed.

Lemma pow_split (u c s : Z) :
  c <= u → 0 <= c + s → 2 ^ (u - c) * 2 ^ (c + s) = 2 ^ (u + s).
Proof.
  intros Hcu Hcs. rewrite <- Z.pow_add_r by lia. f_equal. lia.
Qed.

(** Canonical positive floats compare as their values do. *)
Lemma ltb_canonical (p q : positive) (a b : Z) :
  canonical_mantissa F64.prec F64.emax p a = true →
  canonical_mantissa F64.prec F64.emax q b = true →
  SFltb (S754_finite false p a) (S754_finite false q b)
  = (Zpos p * 2 ^ (a + 1074) <? Zpos q * 2 ^ (b + 1074)).
Proof.
  intros Hp Hq.
  destruct (canonical_bounds p a Hp) as (Ha & Hp53 & Hp52).
  destruct (canonical_bounds q b Hq) as (Hb & Hq53 & Hq52).
  unfold SFltb, SFcompare.
  assert (0 < 2 ^ (a + 1074)) as HPa by (apply Z.pow_pos_nonneg; lia).
  assert (0 < 2 ^ (b + 1074)) as HPb by (apply Z.pow_pos_nonneg; lia).
  destruct (Z.compare_spec a b) as [->|Hab|Hab].
  - change (Pos.compare_cont Eq p q) with (Pos.compare p q).
    destruct (Pos.compare_spec p q) as [->|Hpq|Hpq]; symmetry.
    + apply Z.ltb_ge. lia.
    + apply Z.ltb_lt. apply Z.mul_lt_mono_pos_r; lia.
    + apply Z.ltb_ge. apply Z.mul_le_mono_nonneg_r; lia.
  - symmetry. apply Z.ltb_lt.
    rewrite <- (pow_split b a 1074) by lia.
    assert (2 <= 2 ^ (b - a))
      by (change 2 with (2 ^ 1) at 1; apply Z.pow_le_mono_r; lia).
    specialize (Hq52 ltac:(lia)).
    assert (Zpos p < Zpos q * 2 ^ (b - a)) as Hlt.
    { apply Z.lt_le_trans with (2 ^ 53); [done|].
      change (2 ^ 53) with (2 ^ 52 * 2). apply Z.mul_le_mono_nonneg; lia. }
    rewrite Z.mul_assoc. apply Z.mul_lt_mono_pos_r; lia.
  - symmetry. apply Z.ltb_ge.
    rewrite <- (pow_split a b 1074) by lia.
    assert (2 <= 2 ^ (a - b))
      by (change 2 with (2 ^ 1) at 1; apply Z.pow_le_mono_r; lia).
    specialize (Hp52 ltac:(lia)).
    assert (Zpos q <= Zpos p * 2 ^ (a - b)) as Hle.
    { apply Z.le_trans with (2 ^ 53); [lia|].
      change (2 ^ 53) with (2 ^ 52 * 2). apply Z.mul_le_mono_nonneg; lia. }
    rewrite Z.mul_assoc. apply Z.mul_le_mono_nonneg_r; lia.
Qed.

(** Two differences of fewer than 54 bits compare, once normalised, as
    the differences themselves. *)
Lemma ltb_normalize (M1 M2 c1 c2 : Z) :
  0 <= M1 < 2 ^ 53 → 0 <= M2 < 2 ^ 53 →
  -1074 <= c1 <= 971 → -1074 <= c2 <= 971 →
  SFltb (binary_normalize F64.prec F64.emax M1 c1 false)
        (binary_normalize F64.prec F64.emax M2 c2 false)
  = (M1 * 2 ^ (c1 + 1074) <? M2 * 2 ^ (c2 + 1074)).
Proof.
  intros HM1 HM2 Hc1 Hc2.
  assert (0 < 2 ^ (c1 + 1074)) as HP1 by (apply Z.pow_pos_nonneg; lia).
  assert (0 < 2 ^ (c2 + 1074)) as HP2 by (apply Z.pow_pos_nonneg; lia).
  destruct M1 as [|p1|p1]; [|
    destruct (normalize_exact p1 c1) as (m1 & e1 & -> & Hcan1 & He1 & Hv1);
      [lia|lia|] |lia];
  (destruct M2 as [|p2|p2]; [|
    destruct (normalize_exact p2 c2) as (m2 & e2 & -> & Hcan2 & He2 & Hv2);
      [lia|lia|] |lia]).
  - reflexivity.
  - cbn [binary_normalize SFltb SFcompare]. symmetry. apply Z.ltb_lt. lia.
  - cbn [binary_normalize SFltb SFcompare]. symmetry. apply Z.ltb_ge. lia.
  - rewrite (ltb_canonical m1 m2 e1 e2 Hcan1 Hcan2).
    rewrite Hv1, Hv2, <- !Z.mul_assoc.
    rewrite (pow_split c1 e1 1074), (pow_split c2 e2 1074) by lia.
    reflexivity.
Qed.

Lemma sub_as_normalize (mx my : positive) (ex ey : Z) :
  F64.sub (S754_finite false mx ex) (S754_finite false my ey)
  = binary_normalize F64.prec F64.emax
      (Zpos mx * 2 ^ (ex - Z.min ex ey) - Zpos my * 2 ^ (ey - Z.min ex ey))
      (Z.min ex ey) false.
Proof.
  unfold F64.sub, SFsub. cbn [cond_Zopp].
  destruct (shl_align_value mx ex (Z.min ex ey)) as (px & -> & Hx & _);
    [lia|].
  destruct (shl_align_value my ey (Z.min ex ey)) as (py & -> & Hy & _);
    [lia|].
  cbn [fst]. by rewrite Hx, Hy.
Qed.

(** [float(n)] of a positive integer below 2^53 is that integer. *)
Lemma of_Z_exact (n : Z) :
  0 < n < 2 ^ 53 →
  ∃ m e, F64.of_Z n = S754_finite false m e
         ∧ canonical_mantissa F64.prec F64.emax m e = true
         ∧ -1074 <= e <= 0
         ∧ Zpos m * 2 ^ (e + 1074) = n * 2 ^ 1074.
Proof.
  intros Hn. destruct n as [|p|p]; [lia| |lia].
  destruct (normalize_exact p 0) as (m & e & Heq & Hcan & He & Hv);
    [lia|lia|].
  exists m, e. split; [exact Heq|]. split; [exact Hcan|]. split; [lia|].
  rewrite Hv, <- Z.mul_assoc.
  replace (0 - e) with (0 - e) by lia.
  rewrite (pow_split 0 e 1074) by lia. reflexivity.
Qed.

(** The comparison of [find_closest_exposure] on a float strictly
    between two integers of which the larger is at most twice the
    smaller: both differences are exact. *)
Lemma nearer_exact (A B : Z) (m : positive) (e : Z) :
  bounded F64.prec F64.emax m e = true →
  0 < B → A <= 2 * B → A < 2 ^ 53 →
  B * 2 ^ 1074 < Zpos m * 2 ^ (e + 1074) <= A * 2 ^ 1074 →
  F64.ltb (F64.sub (F64.of_Z A) (S754_finite false m e))
          (F64.sub (S754_finite false m e) (F64.of_Z B))
  = (A * 2 ^ 1074 - Zpos m * 2 ^ (e + 1074)
     <? Zpos m * 2 ^ (e + 1074) - B * 2 ^ 1074).
Proof.
  intros Hbounded HB HAB HA HX.
  apply andb_true_iff in Hbounded as [Hcan Hemax].
  apply Z.leb_le in Hemax. unfold F64.emax, F64.prec in Hemax.
  destruct (canonical_bounds m e Hcan) as (He & Hm53 & _).
  assert (0 < 2 ^ 1074) as HP by (apply Z.pow_pos_nonneg; lia).
  remember (2 ^ 1074) as P eqn:HeqP.
  assert (0 < 2 ^ (e + 1074)) as HPe by (apply Z.pow_pos_nonneg; lia).
  remember (Zpos m * 2 ^ (e + 1074)) as X eqn:HeqX.
  assert (B < A) as HBA by (clear - HX HP; nia).
  assert (A * P - X < X) as Hnear by (clear - HX HP HAB; nia).
  assert (X - B * P <= B * P) as Hfar by (clear - HX HP HAB; nia).
  destruct (of_Z_exact A) as (mA & eA & -> & HcanA & HeA & HvA); [lia|].
  destruct (of_Z_exact B) as (mB & eB & -> & HcanB & HeB & HvB); [lia|].
  rewrite <- HeqP in HvA, HvB.
  destruct (canonical_bounds mA eA HcanA) as (_ & HmA53 & _).
  destruct (canonical_bounds mB eB HcanB) as (_ & HmB53 & _).
  rewrite !sub_as_normalize.
  remember (Z.min eA e) as c eqn:Heqc.
  remember (Z.min e eB) as c' eqn:Heqc'.
  assert (c <= eA ∧ c <= e ∧ -1074 <= c <= 971 ∧ (e <= eA → c = e)
          ∧ (eA < e → c = eA)) as (Hc1 & Hc2 & Hc3 & Hc4 & Hc5)
    by (clear - Heqc He HeA Hemax; lia).
  assert (c' <= eB ∧ c' <= e ∧ -1074 <= c' <= 971 ∧ (eB <= e → c' = eB)
          ∧ (e < eB → c' = e)) as (Hc1' & Hc2' & Hc3' & Hc4' & Hc5')
    by (clear - Heqc' He HeB Hemax; lia).
  clear Heqc Heqc'.
  assert (0 < 2 ^ (c + 1074)) as HPc by (apply Z.pow_pos_nonneg; lia).
  assert (0 < 2 ^ (c' + 1074)) as HPc' by (apply Z.pow_pos_nonneg; lia).
  assert (0 < 2 ^ (e - c)) as HTe by (apply Z.pow_pos_nonneg; lia).
  assert (0 < 2 ^ (eB - c')) as HTB by (apply Z.pow_pos_nonneg; lia).
  remember (Zpos mA * 2 ^ (eA - c) - Zpos m * 2 ^ (e - c)) as M eqn:HeqM.
  remember (Zpos m * 2 ^ (e - c') - Zpos mB * 2 ^ (eB - c')) as M' eqn:HeqM'.
  assert (M * 2 ^ (c + 1074) = A * P - X) as HM.
  { rewrite HeqM, Z.mul_sub_distr_r, <- !Z.mul_assoc.
    rewrite (pow_split eA c 1074), (pow_split e c 1074) by lia.
    rewrite HvA, HeqX. reflexivity. }
  assert (M' * 2 ^ (c' + 1074) = X - B * P) as HM'.
  { rewrite HeqM', Z.mul_sub_distr_r, <- !Z.mul_assoc.
    rewrite (pow_split e c' 1074), (pow_split eB c' 1074) by lia.
    rewrite HvB, HeqX. reflexivity. }
  assert (0 <= M) as HM0.
  { apply (Z.mul_le_mono_pos_r _ _ (2 ^ (c + 1074))); [exact HPc|].
    rewrite HM. clear - HX. lia. }
  assert (0 <= M') as HM'0.
  { apply (Z.mul_le_mono_pos_r _ _ (2 ^ (c' + 1074))); [exact HPc'|].
    rewrite HM'. clear - HX. lia. }
  assert (M < 2 ^ 53) as HM53.
  { destruct (Z.le_gt_cases e eA) as [Hle|Hgt].
    - specialize (Hc4 Hle). subst c.
      assert (M < Zpos m); [|clear - H Hm53; lia].
      apply (Z.mul_lt_mono_pos_r (2 ^ (e + 1074))); [exact HPe|].
      rewrite HM, <- HeqX. exact Hnear.
    - specialize (Hc5 ltac:(lia)). subst c.
      rewrite Z.sub_diag in HeqM. change (2 ^ 0) with 1 in HeqM.
      clear - HeqM HmA53 HTe. nia. }
  assert (M' < 2 ^ 53) as HM'53.
  { destruct (Z.le_gt_cases eB e) as [Hle|Hgt].
    - specialize (Hc4' Hle). subst c'.
      assert (M' <= Zpos mB); [|clear - H HmB53; lia].
      apply (Z.mul_le_mono_pos_r _ _ (2 ^ (eB + 1074))); [exact HPc'|].
      rewrite HM', HvB. exact Hfar.
    - specialize (Hc5' ltac:(lia)). subst c'.
      rewrite Z.sub_diag in HeqM'. change (2 ^ 0) with 1 in HeqM'.
      clear - HeqM' Hm53 HTB. nia. }
  unfold F64.ltb.
  rewrite (ltb_normalize M M' c c');
    [|split; assumption|split; assumption|exact Hc3|exact Hc3'].
  by rewrite HM, HM'.
Qed.

End FloatFacts.

(** ** Floats as rationals *)

Section FloatValues.

Lemma to_Q_scaled (m : positive) (e : Z) :
  -1074 <= e →
  (F64.to_Q (S754_finite false m e) * inject_Z (2 ^ 1074)
   == inject_Z (Zpos m * 2 ^ (e + 1074)))%Q.
Proof.
  intros He. unfold F64.to_Q.
  destruct e as [|k|k].
  - rewrite <- inject_Z_mult. apply inject_Z_injective.
    rewrite Z.pow_0_r. cbn [Z.add]. lia.
  - rewrite <- inject_Z_mult. apply inject_Z_injective.
    rewrite <- Z.mul_assoc, <- Z.pow_add_r by lia. reflexivity.
  - unfold Qeq, Qmult, inject_Z. cbn [Qnum Qden].
    rewrite Pos.mul_1_r, Z.mul_1_r, Pos2Z.inj_pow.
    rewrite <- !Z.mul_assoc. f_equal.
    rewrite <- Z.pow_add_r by lia. f_equal. lia.
Qed.

Lemma to_Q_negative (m : positive) (e : Z) :
  (F64.to_Q (S754_finite true m e) < 0)%Q.
Proof.
  unfold F64.to_Q. destruct e as [|k|k].
  - change 0%Q with (inject_Z 0). rewrite <- Zlt_Qlt. lia.
  - change 0%Q with (inject_Z 0). rewrite <- Zlt_Qlt.
    assert (0 < 2 ^ Zpos k) by (apply Z.pow_pos_nonneg; lia). lia.
  - unfold Qlt. cbn [Qnum Qden]. lia.
Qed.

Lemma scaled_order (q : Q) (P X t : Z) :
  0 < P → (q * inject_Z P == inject_Z X)%Q →
  ((inject_Z t < q)%Q ↔ t * P < X) ∧ ((q <= inject_Z t)%Q ↔ X <= t * P).
Proof.
  intros HP Hq.
  assert (0 < inject_Z P)%Q as HPq
    by (change 0%Q with (inject_Z 0); by rewrite <- Zlt_Qlt).
  split.
  - rewrite <- (Qmult_lt_r _ _ (inject_Z P) HPq), Hq, <- inject_Z_mult.
    by rewrite <- Zlt_Qlt.
  - rewrite <- (Qmult_le_r _ _ (inject_Z P) HPq), Hq, <- inject_Z_mult.
    by rewrite <- Zle_Qle.
Qed.

Lemma scaled_nearer (q : Q) (P X A B : Z) :
  0 < P → (q * inject_Z P == inject_Z X)%Q →
  (inject_Z A - q < q - inject_Z B)%Q ↔ A * P - X < X - B * P.
Proof.
  intros HP Hq.
  assert (0 < inject_Z P)%Q as HPq
    by (change 0%Q with (inject_Z 0); by rewrite <- Zlt_Qlt).
  rewrite <- (Qmult_lt_r _ _ (inject_Z P) HPq).
  assert ((inject_Z A - q) * inject_Z P == inject_Z (A * P - X))%Q as ->.
  { unfold Z.sub. rewrite inject_Z_plus, inject_Z_opp, inject_Z_mult, <- Hq.
    ring. }
  assert ((q - inject_Z B) * inject_Z P == inject_Z (X - B * P))%Q as ->.
  { unfold Z.sub. rewrite inject_Z_plus, inject_Z_opp, inject_Z_mult, <- Hq.
    ring. }
  by rewrite <- Zlt_Qlt.
Qed.

Lemma of_int_exact (n : Z) :
  0 < n < 2 ^ 53 → F64.of_int n = Py.Ok (F64.of_Z n).
Proof.
  intros Hn. unfold F64.of_int.
  destruct (of_Z_exact n Hn) as (m & e & -> & _). reflexivity.
Qed.

(** The last comparison of [find_closest_exposure] on a float between
    two entries: both differences are computed exactly. *)
Lemma nearer_float (f : F64.float) (before after : Z) :
  F64.valid f → F64.is_finite f = true →
  0 < before → after <= 2 * before → after < 2 ^ 53 →
  (inject_Z before < F64.to_Q f)%Q → (F64.to_Q f <= inject_Z after)%Q →
  ∃ u v, Num.sub (Num.Int after) (Num.Float f) = Py.Ok u
         ∧ Num.sub (Num.Float f) (Num.Int before) = Py.Ok v
         ∧ (Num.lt u v = true
            ↔ (inject_Z after - F64.to_Q f
               < F64.to_Q f - inject_Z before)%Q).
Proof.
  intros Hvalid Hfin Hb Hab Ha Hlow Hhigh.
  assert (0 < inject_Z before)%Q as Hbq
    by (change 0%Q with (inject_Z 0); by rewrite <- Zlt_Qlt).
  destruct f as [s|s| |s m e]; try discriminate Hfin.
  { cbn [F64.to_Q] in Hlow. lra. }
  destruct s.
  { pose proof (to_Q_negative m e). lra. }
  unfold F64.valid in Hvalid. cbn [valid_binary] in Hvalid.
  pose proof Hvalid as Hbounded.
  apply andb_true_iff in Hvalid as [Hcan _].
  destruct (canonical_bounds m e Hcan) as (He & _ & _).
  assert (0 < 2 ^ 1074) as HP by (apply Z.pow_pos_nonneg; lia).
  pose proof (to_Q_scaled m e He) as Hq.
  destruct (scaled_order _ _ _ before HP Hq) as [Hlt _].
  destruct (scaled_order _ _ _ after HP Hq) as [_ Hle].
  apply Hlt in Hlow. apply Hle in Hhigh.
  assert (before < after) as Hba by nia.
  exists (Num.Float (F64.sub (F64.of_Z after) (S754_finite false m e))),
         (Num.Float (F64.sub (S754_finite false m e) (F64.of_Z before))).
  split; [|split].
  - unfold Num.sub. cbn [Num.repr]. rewrite of_int_exact by lia. done.
  - unfold Num.sub. cbn [Num.repr]. rewrite of_int_exact by lia. done.
  - unfold Num.lt. cbn [Num.repr].
    rewrite (nearer_exact after before m e Hbounded Hb Hab Ha);
      [|split; assumption].
    rewrite Z.ltb_lt. symmetry. by apply scaled_nearer.
Qed.

End FloatValues.

(** ** The nearest entry *)

Section Nearest.

(** The search, on a number that compares with the entries as the
    rational [q] does and for which the last comparison is exact,
    returns an entry nearest to [q], the smaller of two equally near
    ones. *)
Lemma closest_by_value (a : list Z) (x : Num.t) (q : Q) :
  ascending a → a ≠ [] →
  (∀ t : Z, Num.lt (Num.Int t) x = true ↔ (inject_Z t < q)%Q) →
  (∀ (i : nat) (before after : Z),
      a !! i = Some before → a !! S i = Some after →
      (inject_Z before < q)%Q → (q <= inject_Z after)%Q →
      ∃ u v, Num.sub (Num.Int after) x = Py.Ok u
             ∧ Num.sub x (Num.Int before) = Py.Ok v
             ∧ (Num.lt u v = true
                ↔ (inject_Z after - q < q - inject_Z before)%Q)) →
  ∃ r, CameraController.find_closest_exposure a x = Py.Ok r
       ∧ nearest_to a q r.
Proof.
  intros Hasc Hne Hlt Hnearer.
  assert (0 < length a)%nat as Hlen by (destruct a; simpl; [done|lia]).
  destruct (bisect_left_partition a x Hasc) as (p & Hp & Hle & Hlow & Hhigh).
  assert (∀ (i : nat) (y : Z),
            (i < p)%nat → a !! i = Some y → (inject_Z y < q)%Q) as Hlow'.
  { intros i y Hi Hy. apply Hlt. by eapply Hlow. }
  assert (∀ (i : nat) (y : Z),
            (p <= i)%nat → a !! i = Some y → (q <= inject_Z y)%Q) as Hhigh'.
  { intros i y Hi Hy. apply Qnot_lt_le. intros Hc. apply Hlt in Hc.
    by rewrite (Hhigh i y Hi Hy) in Hc. }
  clear Hlow Hhigh.
  assert (∀ (i j : nat) (y z : Z),
            (i <= j)%nat → a !! i = Some y → a !! j = Some z →
            (inject_Z y <= inject_Z z)%Q) as HascQ.
  { intros i j y z Hij Hy Hz. rewrite <- Zle_Qle. by eapply Hasc. }
  unfold CameraController.find_closest_exposure. rewrite Hp.
  cbn [mbind result_bind Py.bind].
  destruct (Nat.eqb_spec p 0) as [->|Hp0].
  { destruct (index_in_range a 0 Hlen) as (r & Hr & ->).
    exists r. split; [done|]. split; [by eapply list_elem_of_lookup_2|].
    pose proof (Hhigh' 0%nat r ltac:(lia) Hr).
    split; apply Forall_lookup; intros j t Ht;
      pose proof (HascQ 0%nat j r t ltac:(lia) Hr Ht).
    - rewrite !Qabs_pos by lra. lra.
    - intros _. apply (Hasc 0%nat j); [lia|done|done]. }
  destruct (Nat.eqb_spec p (length a)) as [->|Hpn].
  { destruct (index_in_range a (length a - 1)) as (r & Hr & _); [lia|].
    rewrite (index_last_lookup a r Hr Hne).
    exists r. split; [done|]. split; [by eapply list_elem_of_lookup_2|].
    pose proof (Hlow' (length a - 1)%nat r ltac:(lia) Hr).
    split; apply Forall_lookup; intros j t Ht;
      pose proof (lookup_lt_Some _ _ _ Ht);
      pose proof (Hlow' j t ltac:(lia) Ht);
      pose proof (HascQ j (length a - 1)%nat t r ltac:(lia) Ht Hr).
    - rewrite !Qabs_neg by lra. lra.
    - rewrite !Qabs_neg by lra. intros Htie.
      rewrite Zle_Qle. lra. }
  destruct (index_in_range a (p - 1)) as (before & Hb & ->); [lia|].
  destruct (index_in_range a p) as (after & Ha & ->); [lia|].
  cbn [mbind result_bind Py.bind].
  pose proof (Hlow' (p - 1)%nat before ltac:(lia) Hb) as Hbv.
  pose proof (Hhigh' p after ltac:(lia) Ha) as Hav.
  destruct (Hnearer (p - 1)%nat before after Hb) as (u & v & -> & -> & Huv);
    [by replace (S (p - 1)) with p by lia|exact Hbv|exact Hav|].
  cbn [mbind result_bind Py.bind].
  assert (∀ (j : nat) (t : Z), a !! j = Some t →
            (inject_Z t <= inject_Z before)%Q
            ∨ (inject_Z after <= inject_Z t)%Q) as Hsplit.
  { intros j t Ht. destruct (decide (j < p)%nat).
    - left. apply (HascQ j (p - 1)%nat); [lia|done|done].
    - right. apply (HascQ p j); [lia|done|done]. }
  destruct (Num.lt u v) eqn:Hcmp.
  - assert (inject_Z after - q < q - inject_Z before)%Q as Hnear
      by (by apply Huv).
    exists after. split; [done|]. split; [by eapply list_elem_of_lookup_2|].
    split; apply Forall_lookup; intros j t Ht;
      destruct (Hsplit j t Ht) as [Hside|Hside].
    + rewrite (Qabs_pos (inject_Z after - q)) by lra.
      rewrite (Qabs_neg (inject_Z t - q)) by lra. lra.
    + rewrite !Qabs_pos by lra. lra.
    + rewrite (Qabs_pos (inject_Z after - q)) by lra.
      rewrite (Qabs_neg (inject_Z t - q)) by lra. intros Htie. lra.
    + intros _. by rewrite Zle_Qle.
  - assert (¬ (inject_Z after - q < q - inject_Z before)%Q) as Hfar.
    { intros Hc. apply Huv in Hc. discriminate Hc. }
    apply Qnot_lt_le in Hfar.
    exists before. split; [done|]. split; [by eapply list_elem_of_lookup_2|].
    split; apply Forall_lookup; intros j t Ht;
      destruct (Hsplit j t Ht) as [Hside|Hside].
    + rewrite !Qabs_neg by lra. lra.
    + rewrite (Qabs_neg (inject_Z before - q)) by lra.
      rewrite (Qabs_pos (inject_Z t - q)) by lra. lra.
    + rewrite !Qabs_neg by lra. intros Htie. rewrite Zle_Qle. lra.
    + intros _. rewrite Zle_Qle. lra.
Qed.

(** On an integer (or a boolean, which is one). *)
Lemma closest_int (a : list Z) (x : Num.t) (n : Z) :
  Num.repr x = inl n → ascending a → a ≠ [] →
  ∃ r, CameraController.find_closest_exposure a x = Py.Ok r
       ∧ nearest_to a (inject_Z n) r.
Proof.
  intros Hx Hasc Hne. apply closest_by_value; [done|done| |].
  - intros t. unfold Num.lt. cbn [Num.repr]. rewrite Hx.
    by rewrite Z.ltb_lt, Zlt_Qlt.
  - intros i before after _ _ _ _.
    exists (Num.Int (after - n)), (Num.Int (n - before)).
    unfold Num.sub, Num.lt. cbn [Num.repr]. rewrite Hx.
    split; [done|]. split; [done|]. cbn [Num.repr].
    rewrite Z.ltb_lt, Zlt_Qlt. unfold Z.sub.
    by rewrite !inject_Z_plus, !inject_Z_opp.
Qed.

Lemma ExpList_adjacent (i : nat) (before after : Z) :
  CameraController.ExpList !! i = Some before →
  CameraController.ExpList !! S i = Some after →
  0 < before ∧ after <= 2 * before ∧ after < 2 ^ 53.
Proof.
  unfold CameraController.ExpList. intros Hb Ha.
  assert (after < 50000 → after < 2 ^ 53) as Hpow.
  { intros Hlt. apply Z.lt_trans with 50000; [exact Hlt|]. reflexivity. }
  do 22 (destruct i as [|i];
         [cbn in Hb, Ha; simplify_eq;
          (split; [lia|split; [lia|apply Hpow; lia]])|]).
  cbn in Hb. discriminate Hb.
Qed.

(** On a float of the fixed table's range or out of it. *)
Lemma closest_float (f : F64.float) :
  F64.valid f → F64.is_finite f = true →
  ∃ r, CameraController.find_closest_exposure CameraController.ExpList
         (Num.Float f) = Py.Ok r
       ∧ nearest_to CameraController.ExpList (F64.to_Q f) r.
Proof.
  intros Hvalid Hfin.
  apply closest_by_value; [exact ExpList_ascending|done| |].
  - intros t. by apply lt_int_float.
  - intros i before after Hb Ha Hlow Hhigh.
    destruct (ExpList_adjacent i before after Hb Ha) as (H1 & H2 & H3).
    by apply nearer_float.
Qed.

(** On every number that has a value. *)
Lemma find_closest_exposure_nearest (x : Num.t) (q : Q) :
  Num.valid x → Num.exact x = Some q →
  ∃ r, CameraController.find_closest_exposure CameraController.ExpList x
         = Py.Ok r
       ∧ nearest_to CameraController.ExpList q r.
Proof.
  intros Hvalid Hq. unfold Num.exact in Hq.
  destruct (Num.repr x) as [n|f] eqn:Hx.
  - injection Hq as <-. apply (closest_int _ x n Hx ExpList_ascending).
    done.
  - destruct x as [n'|b|f']; try discriminate Hx. injection Hx as ->.
    destruct (F64.is_finite f) eqn:Hfin; [|discriminate Hq].
    injection Hq as <-. by apply closest_float.
Qed.

End Nearest.

(** ** Exposure read-back *)

Lemma ExpList_bounds :
  Forall (λ t, 250 <= t <= 33333) CameraController.ExpList.
Proof. unfold CameraController.ExpList. repeat constructor; lia. Qed.

Lemma ExpList_ends :
  250 ∈ CameraController.ExpList ∧ 33333 ∈ CameraController.ExpList.
Proof.
  split; apply list_elem_of_In; unfold CameraController.ExpList; simpl; tauto.
Qed.

(** [x <= n] and [n <= x] on a number that has a value. *)
Lemma le_exact (x : Num.t) (q : Q) (n : Z) :
  Num.exact x = Some q →
  (Num.le x (Num.Int n) = true ↔ (q <= inject_Z n)%Q)
  ∧ (Num.le (Num.Int n) x = true ↔ (inject_Z n <= q)%Q).
Proof.
  unfold Num.exact, Num.le. cbn [Num.repr].
  destruct (Num.repr x) as [a|f].
  - intros [= <-]. rewrite !Z.leb_le, <- !Zle_Qle. done.
  - destruct (F64.is_finite f) eqn:Hfin; [|discriminate].
    intros [= <-]. rewrite !bool_decide_eq_true.
    rewrite (compare_Z_finite f n Hfin).
    pose proof (Qlt_alt (F64.to_Q f) (inject_Z n)) as Hlt.
    pose proof (Qgt_alt (F64.to_Q f) (inject_Z n)) as Hgt.
    pose proof (Qeq_alt (F64.to_Q f) (inject_Z n)) as Heq.
    destruct (F64.to_Q f ?= inject_Z n)%Q.
    + assert (F64.to_Q f == inject_Z n)%Q as -> by (by apply Heq).
      split; (split; [intros _; apply Qle_refl|intros _; by right]).
    + assert (F64.to_Q f < inject_Z n)%Q as H by (by apply Hlt).
      split; split.
      * intros _. by apply Qlt_le_weak.
      * intros _. by left.
      * intros [[=]|[=]].
      * intros Hc. exfalso. by apply (Qlt_not_le _ _ H).
    + assert (inject_Z n < F64.to_Q f)%Q as H by (by apply Hgt).
      split; split.
      * intros [[=]|[=]].
      * intros Hc. exfalso. by apply (Qlt_not_le _ _ H).
      * intros _. by apply Qlt_le_weak.
      * intros _. by left.
Qed.

(** The search never fails on the fixed table, stays within it, and
    sends what lies at or beyond an end of the table to that end. *)
Lemma quantizer_clamped (x : Num.t) :
  Num.valid x →
  ∃ r,
    CameraController.find_closest_exposure CameraController.ExpList x
      = Py.Ok r
    ∧ r ∈ CameraController.ExpList
    ∧ (Num.le x (Num.Int 250) = true → r = 250)
    ∧ (Num.le (Num.Int 33333) x = true → r = 33333).
Proof.
  intros Hvalid. destruct (Num.exact x) as [q|] eqn:Hq.
  - destruct (find_closest_exposure_nearest x q Hvalid Hq)
      as (r & Hr & Hin & Hnear & _).
    exists r. split; [exact Hr|]. split; [exact Hin|].
    pose proof ExpList_bounds as Hb. rewrite Forall_forall in Hb, Hnear.
    destruct ExpList_ends as [Hlo Hhi].
    pose proof (Hb r Hin) as [Hr1 Hr2].
    rewrite Zle_Qle in Hr1. rewrite Zle_Qle in Hr2.
    split; intros Hle.
    + apply (le_exact x q 250 Hq) in Hle.
      pose proof (Hnear 250 Hlo) as Hn.
      rewrite !Qabs_pos in Hn by lra.
      apply Z.le_antisymm; rewrite Zle_Qle; lra.
    + apply (le_exact x q 33333 Hq) in Hle.
      pose proof (Hnear 33333 Hhi) as Hn.
      rewrite !Qabs_neg in Hn by lra.
      apply Z.le_antisymm; rewrite Zle_Qle; lra.
  - destruct x as [n|b|f]; try discriminate Hq.
    destruct f as [s|[|]| |s m e]; try discriminate Hq.
    + exists 250. split; [reflexivity|]. split; [apply ExpList_ends|].
      split; [done|]. intros [=].
    + exists 33333. split; [reflexivity|]. split; [apply ExpList_ends|].
      split; [intros [=]|done].
    + exists 250. split; [reflexivity|]. split; [apply ExpList_ends|].
      split; intros [=].
Qed.

(** The controller's read-back hands out what the search returns on the
    driver's raw shutter speed. *)
Lemma get_exposure_settings_quantizes `{Cv2} {D : Type}
    `{DriverInterface.Driver D} (c : CameraController.t)
    (d' : D) (st : DriverInterface.exposure_settings) (x : Num.t) (r : Z) :
  DriverInterface.get_exposure_settings (CameraController.driver c)
    = (d', Py.Ok st) →
  DriverInterface.number_of (DriverInterface.es_shutter_speed st) = Some x →
  CameraController.find_closest_exposure CameraController.ExpList x
    = Py.Ok r →
  ∃ c' out, CameraController.get_exposure_settings c = (c', Py.Ok out)
            ∧ CameraController.shutter_speed out = r
            ∧ CameraController.config c' = CameraController.config c.
Proof.
  intros Hdrv Hraw Hfind.
  unfold CameraController.get_exposure_settings.
  unfold mbind, M_bind, PyM.bind, CameraController.on_driver.
  rewrite Hdrv. unfold PyM.lift. rewrite Hraw, Hfind.
  eexists _, _. split; [reflexivity|]. split; reflexivity.
Qed.

(** C2. For every raw shutter speed [x], an integer, a boolean or a
    float, whose value is the rational [q], the search over the fixed
    table returns a table value nearest to [q]; a table value as near
    as the result is never smaller than it, so of two equally near
    values the smaller is returned; the controller's read-back reports
    exactly that value.  712 yields 625, and so does 712.5, midway
    between 625 and 800; 1406.5, midway between 1250 and 1563, yields
    1250; 281.5, midway between 250 and 313, yields 250; 450, midway
    between 400 and 500, yields 400. *)
Theorem exposure_readback_nearest (x : Num.t) (q : Q) :
  Num.valid x → Num.exact x = Some q →
  (∃ r,
      CameraController.find_closest_exposure CameraController.ExpList x
        = Py.Ok r
      ∧ nearest_to CameraController.ExpList q r
      ∧ ∀ (cv : Cv2) (D : Type) (drv : DriverInterface.Driver D)
          (c : CameraController.t) (d' : D)
          (st : DriverInterface.exposure_settings),
          DriverInterface.get_exposure_settings (CameraController.driver c)
            = (d', Py.Ok st) →
          DriverInterface.number_of (DriverInterface.es_shutter_speed st)
            = Some x →
          ∃ c' out,
            CameraController.get_exposure_settings c = (c', Py.Ok out)
            ∧ CameraController.shutter_speed out = r)
  ∧ CameraController.find_closest_exposure CameraController.ExpList 712
      = Py.Ok 625
  ∧ CameraController.find_closest_exposure CameraController.ExpList
      (Num.Float (halves 1425)) = Py.Ok 625
  ∧ CameraController.find_closest_exposure CameraController.ExpList
      (Num.Float (halves 2813)) = Py.Ok 1250
  ∧ CameraController.find_closest_exposure CameraController.ExpList
      (Num.Float (halves 563)) = Py.Ok 250
  ∧ CameraController.find_closest_exposure CameraController.ExpList 450
      = Py.Ok 400.
Proof.
  intros Hvalid Hq.
  split; [|repeat split; vm_compute; reflexivity].
  destruct (find_closest_exposure_nearest x q Hvalid Hq) as (r & Hr & Hnear).
  exists r. split; [exact Hr|]. split; [exact Hnear|].
  intros cv D drv c d' st Hdrv Hraw.
  destruct (get_exposure_settings_quantizes c d' st x r Hdrv Hraw Hr)
    as (c' & out & Hout & Hshutter & _).
  by exists c', out.
Qed.

(** The read-back of a driver that reports a shutter speed of 712.5. *)
Lemma exposure_readback_nearest_witness :
  ∃ c' out,
    CameraController.get_exposure_settings
      (Scenes.reporting (Num.Float (halves 1425)))
      = (c', Py.Ok out)
    ∧ CameraController.shutter_speed out = 625.
Proof.
  destruct (exposure_readback_nearest (Num.Float (halves 1425))
              (F64.to_Q (halves 1425)))
    as [(r & Hr & _ & Hread) (_ & H712 & _)];
    [vm_compute; reflexivity|reflexivity|].
  rewrite H712 in Hr. injection Hr as <-.
  apply (Hread Fixtures.cv2_copy Fixtures.scripted Fixtures.scripted_driver
           (Scenes.reporting (Num.Float (halves 1425)))
           (CameraController.driver
              (Scenes.reporting (Num.Float (halves 1425))))
           (Fixtures.settings
              (CameraController.driver
                 (Scenes.reporting (Num.Float (halves 1425))))));
    reflexivity.
Defined.

(** C8. The search is total on the 22-entry table and closed over it:
    for every number [x], an integer, a boolean or a float, NaN and the
    infinities among them, it returns an entry of the table, 250 when
    [x <= 250] and 33333 when [33333 <= x]. *)
Theorem exposure_quantizer_total_and_clamped (x : Num.t) :
  Num.valid x →
  length CameraController.ExpList = 22%nat
  ∧ ∃ r,
      CameraController.find_closest_exposure CameraController.ExpList x
        = Py.Ok r
      ∧ r ∈ CameraController.ExpList
      ∧ (Num.le x 250 = true → r = 250)
      ∧ (Num.le 33333 x = true → r = 33333).
Proof.
  intros Hvalid. split; [reflexivity|]. by apply quantizer_clamped.
Qed.

(** 200.5, below the table, lands on its first entry. *)
Lemma exposure_quantizer_total_and_clamped_witness :
  CameraController.find_closest_exposure CameraController.ExpList
    (Num.Float (halves 401)) = Py.Ok 250.
Proof.
  destruct (exposure_quantizer_total_and_clamped (Num.Float (halves 401)))
    as (_ & r & Hr & _ & Hlow & _); [vm_compute; reflexivity|].
  rewrite Hr. f_equal. apply Hlow. vm_compute. reflexivity.
Defined.

(** ** Reading the frame slots before the first frame *)

(** C9. A controller as its constructor leaves it has both frame slots
    empty; with the image slot empty [get_md_image] returns [None] and
    [get_image_binary] raises instead of returning a buffer, and with
    the YUV slot empty [get_md_yuvimage] returns [None]. *)
Theorem no_frame_before_first_capture `{Cv2} {D : Type}
    `{DriverInterface.Driver D} (c : CameraController.t) :
  (∀ (d : D) (cfg : ServerConfig.Config),
      CameraController.init d cfg = Py.Ok c →
      CameraController.image c = None ∧ CameraController.yuvimage c = None)
  ∧ (CameraController.image c = None →
       CameraController.get_md_image c = None
       ∧ CameraController.get_image_binary c = Py.Raise Py.CvError)
  ∧ (CameraController.yuvimage c = None →
       CameraController.get_md_yuvimage c = None).
Proof.
  split; [|split].
  - intros d cfg. unfold CameraController.init.
    destruct (DriverInterface.initialise_camera cfg d) as [d1 [[]|e]];
      cbn; [|discriminate].
    destruct (ServerConfig.getitem cfg "timestamp") as [ts|e];
      cbn; [|discriminate].
    destruct (if bool_decide (ts = Py.VStr "on")
              then DriverInterface.set_preprocess_callback d1
              else (d1, Py.Ok tt)) as [d2 [[]|e]]; cbn; [|discriminate].
    intros [= <-]. split; reflexivity.
  - intros Himg. unfold CameraController.get_image_binary,
      CameraController.get_md_image. rewrite Himg. split; reflexivity.
  - intros Hyuv. unfold CameraController.get_md_yuvimage.
    by rewrite Hyuv.
Qed.

(** A controller constructed on the scripted driver, read at once. *)
Lemma no_frame_before_first_capture_witness :
  CameraController.init (Fixtures.scripted0 []) Fixtures.config0
    = Py.Ok Fixtures.constructed
  ∧ CameraController.get_md_image Fixtures.constructed = None
  ∧ CameraController.get_md_yuvimage Fixtures.constructed = None
  ∧ CameraController.get_image_binary Fixtures.constructed
      = Py.Raise Py.CvError.
Proof.
  destruct (no_frame_before_first_capture Fixtures.constructed)
    as (_ & Himg & Hyuv).
  destruct Himg as [H1 H2]; [reflexivity|].
  split; [vm_compute; reflexivity|].
  split; [exact H1|]. split; [apply Hyuv; reflexivity|exact H2].
Defined.

(** ** The clock endpoint *)

Section UpdateTimeFacts.

Variable py_float : string -> Py.result F64.float.

(** Once a device time is stored, a request changes nothing and is
    answered 304. *)
Lemma update_time_already_set (now : F64.float) (time_string : string)
    (cd : Api.change_detector) (y : F64.float) :
  Api.device_time cd = Some y →
  Api.update_time py_float now time_string cd
    = (cd, Py.Ok (Api.not_modified time_string)).
Proof.
  intros Hset. unfold Api.update_time.
  unfold mbind, M_bind, PyM.bind, PyM.gets. by rewrite Hset.
Qed.

(** The first request with a value above the threshold is accepted. *)
Lemma update_time_accepts (now : F64.float) (time_string : string)
    (cd : Api.change_detector) (x : F64.float) :
  Api.device_time cd = None →
  py_float time_string = Py.Ok x →
  F64.gtb x (F64.of_Z 1580317004) = true →
  Api.update_time py_float now time_string cd
    = ({| Api.device_time := Some x; Api.device_time_start := Some now |},
       Py.Ok (Api.success time_string)).
Proof.
  intros Hunset Hparse Hgt. unfold Api.update_time.
  unfold mbind, M_bind, PyM.bind, PyM.gets, PyM.lift, PyM.modify.
  rewrite Hunset, Hparse, Hgt. reflexivity.
Qed.

(** A first request with a value not above the threshold is refused
    and leaves the state as it was. *)
Lemma update_time_refuses (now : F64.float) (time_string : string)
    (cd : Api.change_detector) (x : F64.float) :
  Api.device_time cd = None →
  py_float time_string = Py.Ok x →
  F64.gtb x (F64.of_Z 1580317004) = false →
  Api.update_time py_float now time_string cd
    = (cd, Py.Ok (Api.error time_string)).
Proof.
  intros Hunset Hparse Hle. unfold Api.update_time.
  unfold mbind, M_bind, PyM.bind, PyM.gets, PyM.lift.
  rewrite Hunset, Hparse, Hle. reflexivity.
Qed.

Lemma serve_cons (now : F64.float) (time_string : string)
    (rest : list (F64.float * string)) (cd : Api.change_detector) :
  Api.serve py_float ((now, time_string) :: rest) cd
  = let '(cd1, r) := Api.update_time py_float now time_string cd in
    let '(cd2, rs) := Api.serve py_float rest cd1 in
    (cd2, r :: rs).
Proof. reflexivity. Qed.

(** With a device time stored, every request of a sequence is answered
    304 and the state does not move. *)
Lemma serve_already_set (requests : list (F64.float * string))
    (cd : Api.change_detector) (y : F64.float) :
  Api.device_time cd = Some y →
  Api.serve py_float requests cd
    = (cd, (λ req, Py.Ok (Api.not_modified (snd req))) <$> requests).
Proof.
  intros Hset. induction requests as [|[now ts] rest IH]; [reflexivity|].
  rewrite serve_cons, (update_time_already_set now ts cd y Hset), IH.
  reflexivity.
Qed.

End UpdateTimeFacts.

(** C7. With no device time stored, a request whose value parses and
    exceeds the threshold stores the value and the local receive time
    and is answered 200 with the success body; from then on every
    request of any later sequence is answered 304 and both stored
    times stay as that first request left them. *)
Theorem clock_sync_accepted_once
    (py_float : string -> Py.result F64.float)
    (now : F64.float) (time_string : string) (x : F64.float)
    (cd : Api.change_detector)
    (later : list (F64.float * string)) :
  Api.device_time cd = None →
  py_float time_string = Py.Ok x →
  F64.gtb x (F64.of_Z 1580317004) = true →
  let accepted :=
    {| Api.device_time := Some x; Api.device_time_start := Some now |} in
  Api.update_time py_float now time_string cd
    = (accepted, Py.Ok (Api.success time_string))
  ∧ Api.status (Api.success time_string) = 200
  ∧ Api.serve py_float later accepted
    = (accepted, (λ req, Py.Ok (Api.not_modified (snd req))) <$> later)
  ∧ Forall (λ req, Api.status (Api.not_modified (snd req)) = 304) later.
Proof.
  intros Hunset Hparse Hgt accepted.
  split; [by apply update_time_accepts|].
  split; [reflexivity|].
  split; [by apply (serve_already_set py_float later accepted x)|].
  apply Forall_forall. intros req _. reflexivity.
Qed.

(** A client sends its clock, then sends it twice more. *)
Lemma clock_sync_accepted_once_witness :
  let accepted :=
    {| Api.device_time := Some (F64.of_Z 1700000000);
       Api.device_time_start := Some (F64.of_Z 5) |} in
  Api.serve Api.float_of_digits
    [(F64.of_Z 5, "1700000000"); (F64.of_Z 6, "1700000001");
     (F64.of_Z 7, "1")]
    {| Api.device_time := None; Api.device_time_start := None |}
  = (accepted,
     [Py.Ok (Api.success "1700000000");
      Py.Ok (Api.not_modified "1700000001");
      Py.Ok (Api.not_modified "1")]).
Proof.
  intros accepted.
  destruct (clock_sync_accepted_once Api.float_of_digits
              (F64.of_Z 5) "1700000000" (F64.of_Z 1700000000)
              {| Api.device_time := None; Api.device_time_start := None |}
              [(F64.of_Z 6, "1700000001"); (F64.of_Z 7, "1")])
    as (Hfirst & _ & Hlater & _);
    [reflexivity | vm_compute; reflexivity | vm_compute; reflexivity |].
  rewrite serve_cons, Hfirst. cbv beta iota. rewrite Hlater.
  reflexivity.
Defined.

(** C10. With no device time stored, a request whose value parses but
    does not exceed 1580317004 is answered 400 with the error body and
    leaves the device time unset; a later request whose value exceeds
    the threshold is then accepted with 200. *)
Theorem clock_sync_rejects_old_time
    (py_float : string -> Py.result F64.float)
    (now now' : F64.float) (time_string time_string' : string)
    (x x' : F64.float) (cd : Api.change_detector) :
  Api.device_time cd = None →
  py_float time_string = Py.Ok x →
  F64.gtb x (F64.of_Z 1580317004) = false →
  py_float time_string' = Py.Ok x' →
  F64.gtb x' (F64.of_Z 1580317004) = true →
  Api.update_time py_float now time_string cd
    = (cd, Py.Ok (Api.error time_string))
  ∧ Api.status (Api.error time_string) = 400
  ∧ Api.device_time
      (fst (Api.update_time py_float now time_string cd)) = None
  ∧ Api.serve py_float [(now, time_string); (now', time_string')] cd
    = ({| Api.device_time := Some x'; Api.device_time_start := Some now' |},
       [Py.Ok (Api.error time_string); Py.Ok (Api.success time_string')]).
Proof.
  intros Hunset Hparse Hle Hparse' Hgt'.
  pose proof (update_time_refuses py_float now time_string cd x
                Hunset Hparse Hle) as Hrefused.
  split; [exact Hrefused|]. split; [reflexivity|].
  split; [by rewrite Hrefused|].
  rewrite serve_cons, Hrefused. cbv beta iota.
  rewrite serve_cons, (update_time_accepts py_float now' time_string' cd x'
             Hunset Hparse' Hgt').
  reflexivity.
Qed.

(** The threshold itself is refused; a current clock is then taken. *)
Lemma clock_sync_rejects_old_time_witness :
  Api.serve Api.float_of_digits
    [(F64.of_Z 5, "1580317004"); (F64.of_Z 6, "1580317005")]
    {| Api.device_time := None; Api.device_time_start := None |}
  = ({| Api.device_time := Some (F64.of_Z 1580317005);
        Api.device_time_start := Some (F64.of_Z 6) |},
     [Py.Ok (Api.error "1580317004"); Py.Ok (Api.success "1580317005")]).
Proof.
  apply (clock_sync_rejects_old_time Api.float_of_digits
           (F64.of_Z 5) (F64.of_Z 6) "1580317004" "1580317005"
           (F64.of_Z 1580317004) (F64.of_Z 1580317005)
           {| Api.device_time := None; Api.device_time_start := None |});
    vm_compute; reflexivity.
Defined.

(** ** Configuration commands *)

Section CommandFacts.

Context `{Cv2} {D : Type} `{DriverInterface.Driver D}.

Variable fs_open : string -> bool.

(** A resolution that is neither a supported one nor the stored one is
    refused by the assertion, before anything is written. *)
Lemma set_resolution_rejects (c : CameraController.t)
    (resolution current : Py.value) :
  ServerConfig.getitem (CameraController.config c) "resolution"
    = Py.Ok current →
  resolution ≠ current →
  resolution ∉ CameraController.supported_resolutions →
  CameraController.set_resolution fs_open resolution c
    = (c, Py.Raise Py.AssertionError).
Proof.
  intros Hcur Hne Hbad. unfold CameraController.set_resolution.
  unfold mbind, M_bind, PyM.bind, CameraController.config_get.
  rewrite Hcur. rewrite (bool_decide_eq_true_2 _ Hne).
  unfold PyM.lift, Py.assert. by rewrite (bool_decide_eq_false_2 _ Hbad).
Qed.

Lemma set_exposure_outcome (c : CameraController.t) (t g : Py.value) :
  CameraController.set_exposure fs_open t g c
  = ({| CameraController.stop_event := CameraController.stop_event c;
        CameraController.logger := CameraController.logger c;
        CameraController.config :=
          exposure_written t g (CameraController.config c);
        CameraController.driver := CameraController.driver c;
        CameraController.image := CameraController.image c;
        CameraController.yuvimage := CameraController.yuvimage c;
        CameraController.recording_active :=
          CameraController.recording_active c;
        CameraController.slept := CameraController.slept c |},
     Py.Raise (Py.NameError "ExposureMode")).
Proof. reflexivity. Qed.

End CommandFacts.

(** C3, at [set_exposure]. Whatever its arguments, [set_exposure]
    writes the shutter speed, the gain and the mode ["off"] into the
    stored configuration and then raises, without having reached the
    driver: the configuration is not left unchanged on the error path.
    At the request with no shutter speed and no gain the stored mode
    goes from ["auto"] to ["off"]. *)
Theorem set_exposure_error_path_mutates_config `{Cv2} {D : Type}
    `{DriverInterface.Driver D} (fs_open : string -> bool)
    (c : CameraController.t) (t g : Py.value) :
  (∃ c',
      CameraController.set_exposure fs_open t g c
        = (c', Py.Raise (Py.NameError "ExposureMode"))
      ∧ CameraController.config c' !! "shutter_speed" = Some t
      ∧ CameraController.config c' !! "analogue_gain" = Some g
      ∧ CameraController.config c' !! "exposure_mode"
          = Some (Py.VStr "off")
      ∧ CameraController.driver c' = CameraController.driver c)
  ∧ CameraController.config
      (fst (CameraController.set_exposure (λ _, true) Py.VNone Py.VNone
              (Fixtures.controller0 [])))
    ≠ CameraController.config (Fixtures.controller0 []).
Proof.
  split.
  - eexists. split; [apply set_exposure_outcome|].
    cbn [CameraController.config CameraController.driver].
    unfold exposure_written.
    split; [by simplify_map_eq|]. split; [by simplify_map_eq|].
    split; [by simplify_map_eq|reflexivity].
  - rewrite set_exposure_outcome. cbn [fst CameraController.config].
    intros Heq.
    apply (f_equal (λ m : gmap string Py.value, m !! "exposure_mode")) in Heq.
    unfold exposure_written in Heq. rewrite lookup_insert_eq in Heq.
    vm_compute in Heq. discriminate Heq.
Qed.

(** ** Autofocus on the real device *)

Lemma autofocus_outcome (d : RaspberryPiDriver.t) :
  RaspberryPiDriver.autofocus d
  = (d, match RaspberryPiDriver.camera d with
        | Some _ => Py.Raise (Py.NameError "can_autofocus")
        | None => Py.Raise Py.AssertionError
        end).
Proof.
  unfold RaspberryPiDriver.autofocus.
  unfold mbind, M_bind, PyM.bind, PyM.gets, PyM.lift.
  destruct (RaspberryPiDriver.camera d); reflexivity.
Qed.

(** C6, on the code. [autofocus] never returns normally: with a camera
    open it raises [NameError] at its test, having run no focus cycle
    and logged nothing; with none it fails its assertion.  So it is on
    a camera that reports the capability; and the retry loop itself
    raises at its first back-off, [time] being no name of the module. *)
Theorem autofocus_raises_before_any_cycle (d : RaspberryPiDriver.t) :
  (∀ r, snd (RaspberryPiDriver.autofocus d) ≠ Py.Ok r)
  ∧ fst (RaspberryPiDriver.autofocus d) = d
  ∧ RaspberryPiDriver.can_autofocus Fixtures.imx708_driver = true
  ∧ RaspberryPiDriver.autofocus Fixtures.imx708_driver
    = (Fixtures.imx708_driver, Py.Raise (Py.NameError "can_autofocus"))
  ∧ snd (RaspberryPiDriver.focus_attempts 5 Fixtures.imx708_driver)
    = Py.Raise (Py.NameError "time").
Proof.
  rewrite autofocus_outcome. cbn [fst snd].
  split; [intros r; destruct (RaspberryPiDriver.camera d); discriminate|].
  split; [reflexivity|].
  split; [vm_compute; reflexivity|].
  split; [apply autofocus_outcome|vm_compute; reflexivity].
Qed.

(** ** The size of the pre-roll buffer *)

Lemma lit_1_1_bits :
  F64.lit_1_1 = S754_finite false 4953959590107546 (-52).
Proof. vm_compute. reflexivity. Qed.

Lemma video_buffer_size_of (cfg : ServerConfig.Config) (f d : Z) :
  ServerConfig.getitem cfg "frame_rate" = Py.Ok (Py.VInt f) →
  ServerConfig.getitem cfg "video_duration_before_motion"
    = Py.Ok (Py.VInt d) →
  RaspberryPiDriver.video_buffer_size cfg = double_frames f d.
Proof.
  intros Hf Hd. unfold RaspberryPiDriver.video_buffer_size.
  rewrite Hf, Hd. reflexivity.
Qed.

Lemma agree_on_sound (fs ds : list Z) (f d : Z) :
  agree_on fs ds = true → f ∈ fs → d ∈ ds →
  double_frames f d = Py.Ok (floor_frames f d).
Proof.
  unfold agree_on. intros Hgrid Hf Hd.
  rewrite forallb_forall in Hgrid.
  specialize (Hgrid f (proj1 (list_elem_of_In _ _) Hf)).
  rewrite forallb_forall in Hgrid.
  specialize (Hgrid d (proj1 (list_elem_of_In _ _) Hd)).
  by apply bool_decide_eq_true_1 in Hgrid.
Qed.

Lemma agree_on_grid : agree_on (seqZ 1 29) (seqZ 0 121) = true.
Proof. vm_compute. reflexivity. Qed.

(** Were the assignment of the buffer size reached: at 30 frames a
    second and 3 seconds of pre-roll its expression gives 122, and
    [floor(30 * 4.1)] is 123. *)
Lemma video_buffer_size_not_floor :
  RaspberryPiDriver.video_buffer_size Fixtures.config_30fps_3s = Py.Ok 122
  ∧ floor_frames 30 3 = 123
  ∧ RaspberryPiDriver.video_buffer_size Fixtures.config_30fps_3s
    ≠ Py.Ok (floor_frames 30 3).
Proof.
  assert (RaspberryPiDriver.video_buffer_size Fixtures.config_30fps_3s = Py.Ok 122)
    as Hsize by (vm_compute; reflexivity).
  split; [exact Hsize|]. split; [reflexivity|].
  rewrite Hsize. vm_compute. discriminate.
Qed.

(** The expression is the truncation of the double-precision product
    [frame_rate * (before + 1.1)], [1.1] being the double nearest to
    11/10; for whole frame rates from 1 to 29 and whole pre-roll
    durations from 0 to 120 seconds it equals
    [floor(f * (d + 1.1))]. *)
Lemma video_buffer_size_is_floor_below_30fps
    (cfg : ServerConfig.Config) (f d : Z) :
  ServerConfig.getitem cfg "frame_rate" = Py.Ok (Py.VInt f) →
  ServerConfig.getitem cfg "video_duration_before_motion"
    = Py.Ok (Py.VInt d) →
  1 <= f <= 29 → 0 <= d <= 120 →
  RaspberryPiDriver.video_buffer_size cfg = Py.Ok (floor_frames f d)
  ∧ RaspberryPiDriver.video_buffer_size cfg
    = F64.int_of (F64.mul (F64.of_Z f) (F64.add (F64.of_Z d) F64.lit_1_1)).
Proof.
  intros Hf Hd Hfr Hdr.
  rewrite (video_buffer_size_of cfg f d Hf Hd).
  split; [|reflexivity].
  apply (agree_on_sound (seqZ 1 29) (seqZ 0 121) f d agree_on_grid);
    apply elem_of_seqZ; lia.
Qed.

(** ** Initialisation of the camera on the real device *)

Section InitialiseFacts.

Context `{RPiInitialise.Libraries}.

Lemma keeps_buffer_on_device {A} (m : PyM.M RaspberryPiDriver.t A) :
  keeps_buffer (RPiInitialise.on_device m).
Proof.
  intros s. unfold RPiInitialise.on_device.
  by destruct (m (RPiInitialise.device s)).
Qed.

Lemma keeps_buffer_lift {A} (r : Py.result A) :
  keeps_buffer (PyM.lift r).
Proof. by intros s. Qed.

Lemma keeps_buffer_bind {A B} (m : PyM.M RPiInitialise.t A)
    (k : A → PyM.M RPiInitialise.t B) :
  keeps_buffer m → (∀ a, keeps_buffer (k a)) → keeps_buffer (m ≫= k).
Proof.
  intros Hm Hk s. unfold mbind, M_bind, PyM.bind.
  specialize (Hm s). destruct (m s) as [s1 [a|e]]; cbn [fst] in *.
  - destruct (Hk a s1) as [H1 H2]. destruct Hm as [H3 H4].
    split; congruence.
  - exact Hm.
Qed.

Lemma always_raises_bind_l {A B} (m : PyM.M RPiInitialise.t A)
    (k : A → PyM.M RPiInitialise.t B) :
  always_raises m → always_raises (m ≫= k).
Proof.
  intros Hm s. unfold mbind, M_bind, PyM.bind.
  destruct (Hm s) as [e He]. destruct (m s) as [s1 [a|e1]]; cbn in *;
    [discriminate|]. by exists e1.
Qed.

Lemma always_raises_bind_r {A B} (m : PyM.M RPiInitialise.t A)
    (k : A → PyM.M RPiInitialise.t B) :
  (∀ a, always_raises (k a)) → always_raises (m ≫= k).
Proof.
  intros Hk s. unfold mbind, M_bind, PyM.bind.
  destruct (m s) as [s1 [a|e1]]; cbn; [apply Hk|by exists e1].
Qed.

(** The keyword arguments of [create_video_configuration] are refused
    before the method is entered, two of the names being members of
    [ImageResolution]. *)
Lemma keyword_names_refused :
  Py.unpack_kwargs
    [Py.KEnum "ImageResolution.HIRES"; Py.KEnum "ImageResolution.LORES";
     Py.KStr "raw"; Py.KStr "transform"; Py.KStr "controls"]
  = Py.Raise Py.TypeError.
Proof. reflexivity. Qed.

Ltac reach_the_call :=
  lazymatch goal with
  | |- always_raises (PyM.lift (Py.unpack_kwargs _) ≫= _) =>
      apply always_raises_bind_l; intros ?; by exists Py.TypeError
  | |- always_raises (_ ≫= _) =>
      apply always_raises_bind_r; intros ?; reach_the_call
  | |- _ => cbv zeta; reach_the_call
  end.

(** [initialise_picamera] never returns normally: whatever the
    libraries do and whatever the configuration holds, it raises at
    the call of [create_video_configuration] if not before. *)
Lemma initialise_picamera_raises (config : ServerConfig.Config) :
  always_raises (RPiInitialise.initialise_picamera config).
Proof. unfold RPiInitialise.initialise_picamera. reach_the_call. Qed.

Ltac keep_buffer :=
  lazymatch goal with
  | |- keeps_buffer (PyM.lift (Py.unpack_kwargs _) ≫= _) => by intros ?
  | |- keeps_buffer (RPiInitialise.on_device _) =>
      apply keeps_buffer_on_device
  | |- keeps_buffer (PyM.lift _) => apply keeps_buffer_lift
  | |- keeps_buffer (mret _) => by intros ?
  | |- keeps_buffer (PyM.raise _) => by intros ?
  | |- keeps_buffer (_ ≫= _) =>
      apply keeps_buffer_bind; [keep_buffer|intros ?; keep_buffer]
  | |- keeps_buffer (match ?x with _ => _ end) => destruct x; keep_buffer
  | |- keeps_buffer (if ?x then _ else _) => destruct x; keep_buffer
  | |- _ => cbv zeta; keep_buffer
  end.

(** Up to the call of [create_video_configuration] nothing is written
    to the two buffer attributes. *)
Lemma initialise_picamera_keeps_buffer (config : ServerConfig.Config)
    (s : RPiInitialise.t) :
  RPiInitialise.video_buffer_size
    (fst (RPiInitialise.initialise_picamera config s))
  = RPiInitialise.video_buffer_size s
  ∧ RPiInitialise.encoder_output
      (fst (RPiInitialise.initialise_picamera config s))
    = RPiInitialise.encoder_output s.
Proof.
  revert s. change (keeps_buffer (RPiInitialise.initialise_picamera config)).
  unfold RPiInitialise.initialise_picamera, RPiInitialise.log,
    RPiInitialise.set_camera, RPiInitialise.set_camera_model,
    RPiInitialise.on_camera.
  keep_buffer.
Qed.

Lemma initialise_GPIO_keeps_buffer (config : ServerConfig.Config)
    (s : RPiInitialise.t) :
  RPiInitialise.video_buffer_size
    (fst (RPiInitialise.initialise_GPIO config s))
  = RPiInitialise.video_buffer_size s
  ∧ RPiInitialise.encoder_output
      (fst (RPiInitialise.initialise_GPIO config s))
    = RPiInitialise.encoder_output s.
Proof.
  revert s. change (keeps_buffer (RPiInitialise.initialise_GPIO config)).
  unfold RPiInitialise.initialise_GPIO, RPiInitialise.configure_LED,
    RPiInitialise.log.
  keep_buffer.
Qed.

End InitialiseFacts.

(** With every library at work the camera is found, and the
    initialisation stops at the keyword names. *)
Lemma initialise_camera_stops_at_keyword_names :
  RPiInitialise.initialise_camera Fixtures.config_30fps_3s
    RPiInitialise.init
  = ({| RPiInitialise.device :=
          {| RaspberryPiDriver.camera :=
               Some {| RaspberryPiDriver.af_mode_auto := false;
                       RaspberryPiDriver.cycles_run := 0;
                       RaspberryPiDriver.cycle_results := [true] |};
             RaspberryPiDriver.camera_model := "imx708";
             RaspberryPiDriver.logger :=
               ["RPiDriver: LED %s";
                "RPiDriver: initialising picamera ...";
                "RPiDriver: camera module revision %s detected."];
             RaspberryPiDriver.slept := [] |};
        RPiInitialise.video_buffer_size := None;
        RPiInitialise.encoder_output := None |},
     Py.Raise Py.TypeError).
Proof. vm_compute. reflexivity. Qed.

(** C4. The pre-roll buffer is never allocated: on every
    configuration, in every state of the driver and whatever the
    camera libraries do, [initialise_camera] and [initialise_picamera]
    raise, and leave the size of the video buffer and the encoder's
    output as they were, which on a driver fresh from its constructor
    is unassigned.  The keyword arguments handed to
    [create_video_configuration] have members of [ImageResolution]
    among their names, which Python refuses before the method is
    entered; the assignment of the buffer size, 40 lines further down,
    is not reached. *)
Theorem video_buffer_never_allocated `{RPiInitialise.Libraries}
    (config : ServerConfig.Config) (s : RPiInitialise.t) :
  (∃ e, snd (RPiInitialise.initialise_picamera config s) = Py.Raise e)
  ∧ (∃ e, snd (RPiInitialise.initialise_camera config s) = Py.Raise e)
  ∧ RPiInitialise.video_buffer_size
      (fst (RPiInitialise.initialise_camera config s))
    = RPiInitialise.video_buffer_size s
  ∧ RPiInitialise.encoder_output
      (fst (RPiInitialise.initialise_camera config s))
    = RPiInitialise.encoder_output s
  ∧ RPiInitialise.video_buffer_size
      (fst (RPiInitialise.initialise_camera config RPiInitialise.init))
    = None.
Proof.
  assert (∀ s0,
            (∃ e, snd (RPiInitialise.initialise_camera config s0)
                  = Py.Raise e)
            ∧ RPiInitialise.video_buffer_size
                (fst (RPiInitialise.initialise_camera config s0))
              = RPiInitialise.video_buffer_size s0
            ∧ RPiInitialise.encoder_output
                (fst (RPiInitialise.initialise_camera config s0))
              = RPiInitialise.encoder_output s0) as Hcamera.
  { intros s0. unfold RPiInitialise.initialise_camera.
    unfold mbind, M_bind, PyM.bind.
    pose proof (initialise_GPIO_keeps_buffer config s0) as [Hg1 Hg2].
    destruct (RPiInitialise.initialise_GPIO config s0) as [s1 [[]|e]];
      cbn [fst snd] in *.
    - destruct (initialise_picamera_raises config s1) as [e He].
      destruct (initialise_picamera_keeps_buffer config s1) as [Hp1 Hp2].
      split; [by exists e|]. split; congruence.
    - split; [by exists e|]. by split. }
  split; [apply initialise_picamera_raises|].
  destruct (Hcamera s) as (Hraise & Hsize & Henc).
  split; [exact Hraise|]. split; [exact Hsize|]. split; [exact Henc|].
  by destruct (Hcamera RPiInitialise.init) as (_ & -> & _).
Qed.

(** ** The simulated device *)

Section MockFacts.

Context `{Cv2}.

Variable environ : gmap string string.
Variable open_video : string -> option MockDriver.video_file.


Lemma read_in_range (c : MockDriver.VideoCapture) (file : MockDriver.video_file) :
  MockDriver.vc_file c = Some file →
  0 <= MockDriver.vc_pos c < MockDriver.frame_count c →
  ∃ frame,
    MockDriver.vf_frames file !! Z.to_nat (MockDriver.vc_pos c) = Some frame
    ∧ MockDriver.read c
      = (MockDriver.set_pos (MockDriver.vc_pos c + 1) c, Some frame).
Proof.
  intros Hfile Hpos. unfold MockDriver.read, MockDriver.frame_count in *.
  rewrite Hfile in *.
  destruct (lookup_lt_is_Some_2 (MockDriver.vf_frames file)
              (Z.to_nat (MockDriver.vc_pos c))) as [frame Hframe]; [lia|].
  exists frame. split; [exact Hframe|].
  rewrite Hframe.
  destruct (Z.leb_spec 0 (MockDriver.vc_pos c)); [|lia].
  destruct (Z.ltb_spec (MockDriver.vc_pos c)
              (Z.of_nat (length (MockDriver.vf_frames file)))); [|lia].
  reflexivity.
Qed.

Lemma read_at_end (c : MockDriver.VideoCapture) :
  MockDriver.frame_count c <= MockDriver.vc_pos c →
  MockDriver.read c = (c, None).
Proof.
  intros Hpos. unfold MockDriver.read.
  destruct (MockDriver.vc_file c); [|reflexivity].
  destruct (Z.ltb_spec (MockDriver.vc_pos c) (MockDriver.frame_count c));
    [lia|]. by rewrite andb_false_r.
Qed.





Ltac step_bind :=
  match goal with
  | H : context [PyM.bind (PyM.lift ?r) _ _] |- _ =>
      unfold PyM.bind at 1, PyM.lift at 1 in H;
      let v := fresh "v" in let e := fresh "e" in
      destruct r as [v|e]; [|discriminate H]
  | H : context [PyM.bind (PyM.modify ?f) _ _] |- _ =>
      unfold PyM.bind at 1, PyM.modify at 1 in H
  end.

(** After a successful initialisation the device replays the file at
    the file's own frame rate, from its first frame. *)
Lemma initialise_camera_takes_file_rate (now : F64.float)
    (cfg : ServerConfig.Config) (d d1 : MockDriver.t) :
  MockDriver.initialise_camera environ open_video now cfg d
    = (d1, Py.Ok tt) →
  ∃ path file,
    environ !! "MOCK_VIDEO_PATH" = Some path
    ∧ open_video path = Some file
    ∧ MockDriver.frame_rate d1 = Some (MockDriver.vf_fps file)
    ∧ MockDriver.num_frames d1
      = Some (Z.of_nat (length (MockDriver.vf_frames file)))
    ∧ MockDriver.wall_time d1 = Some now
    ∧ MockDriver.video d1
      = Some {| MockDriver.hires :=
                  {| MockDriver.vc_file := Some file;
                     MockDriver.vc_pos := 0 |};
                MockDriver.lores :=
                  {| MockDriver.vc_file := Some file;
                     MockDriver.vc_pos := 0 |} |}.
Proof.
  unfold MockDriver.initialise_camera, MockDriver.configure_LED.
  unfold mbind, M_bind, MockDriver.attr. intros Hinit.
  step_bind. step_bind. 
  destruct (environ !! "MOCK_VIDEO_PATH") as [path|] eqn:Hpath.
  2:{ cbn in Hinit. discriminate Hinit. }
  rewrite bool_decide_eq_true_2 in Hinit by (by eexists).
  unfold Py.assert in Hinit.
  unfold PyM.bind at 1, PyM.lift at 1 in Hinit.
  unfold PyM.bind at 1, PyM.lift at 1 in Hinit.
  unfold PyM.bind at 1, PyM.modify at 1 in Hinit.
  unfold MockDriver.isOpened in Hinit. cbn [MockDriver.vc_file] in Hinit.
  destruct (open_video path) as [file|] eqn:Hfile.
  2:{ cbn in Hinit. discriminate Hinit. }
  rewrite bool_decide_eq_true_2 in Hinit by (by eexists).
  unfold PyM.bind at 1 in Hinit. cbn [mret M_ret PyM.ret] in Hinit.
  repeat step_bind.
  unfold PyM.modify in Hinit. injection Hinit as <-.
  exists path, file. repeat split; first [assumption|reflexivity].
Qed.


End MockFacts.





(** ** The frame loop *)

Section LoopFacts.

Context `{Cv2} {D : Type} `{DriverInterface.Driver D}.

(** An exception leaves the [try] block only from the capture or from
    the colour conversion, before anything is logged or slept; the
    configuration is not touched. *)
Lemma try_body_raise (c c1 : CameraController.t) (e : Py.exn) :
  CameraController.try_body c = (c1, Py.Raise e) →
  (snd (DriverInterface.get_yuv_image Interface.LORES
          (CameraController.driver c)) = Py.Raise e
   ∨ ∃ y, cvtColor_YUV420p2RGB y = Py.Raise e)
  ∧ CameraController.config c1 = CameraController.config c
  ∧ CameraController.logger c1 = CameraController.logger c
  ∧ CameraController.slept c1 = CameraController.slept c
  ∧ CameraController.stop_event c1 = CameraController.stop_event c.
Proof.
  unfold CameraController.try_body.
  unfold mbind, M_bind, PyM.bind, CameraController.on_driver.
  destruct (DriverInterface.get_yuv_image Interface.LORES
              (CameraController.driver c)) as [d1 [y|e1]]; cbn.
  - unfold PyM.lift.
    destruct (cvtColor_YUV420p2RGB y) as [img|e2] eqn:Hcvt; cbn.
    + destruct img as [img|]; cbn;
        destruct (CameraController.recording_active c); cbn; discriminate.
    + intros [= <- <-]. cbn. split; [right; by exists y|]. done.
  - intros [= <- <-]. cbn. split; [by left|]. done.
Qed.

Lemma on_exception_reinitialises (e : Py.exn) (c1 : CameraController.t)
    (d2 : D) (r : Py.result unit) :
  DriverInterface.initialise_camera (CameraController.config c1)
    (CameraController.driver c1) = (d2, r) →
  CameraController.on_exception e c1
  = match r with
    | Py.Ok _ => (recovered e d2 c1, Py.Ok tt)
    | Py.Raise e' => (abandoned e d2 c1, Py.Raise e')
    end.
Proof.
  intros Hinit. unfold CameraController.on_exception.
  unfold mbind, M_bind, PyM.bind, CameraController.log, PyM.modify,
    PyM.gets, CameraController.on_driver, CameraController.sleep.
  cbn. rewrite Hinit. destruct r as [[]|e']; reflexivity.
Qed.








End LoopFacts.


(** The handler's own call of [initialise_camera] is not guarded: when
    it raises, the exception leaves [run]. *)
Lemma frame_loop_unwinds_when_reinit_fails :
  snd (CameraController.run [false]
         {| CameraController.stop_event := false;
            CameraController.logger := [];
            CameraController.config := Fixtures.config0;
            CameraController.driver := Fixtures.Unplugged;
            CameraController.image := None;
            CameraController.yuvimage := None;
            CameraController.recording_active := false;
            CameraController.slept := [] |})
  = Some (CameraController.Unwound
            (Py.Exception "Unable to connect to camera")).
Proof. vm_compute. reflexivity. Qed.



(* ===================================================================== *)
(** * Further properties                                                   *)
(* ===================================================================== *)

(** ** The quantizer on any table *)



(** X3. The quantizer fixes the entries of its table, so quantizing
    its own result changes nothing. *)
Theorem find_closest_exposure_fixes_entries (a : list Z) (v : Z) :
  ascending a → a ≠ [] →
  (∀ t : Z,
      t ∈ a → CameraController.find_closest_exposure a t = Py.Ok t)
  ∧ ∃ r, CameraController.find_closest_exposure a v = Py.Ok r
         ∧ CameraController.find_closest_exposure a r = Py.Ok r.
Proof.
  intros Hasc Hne.
  assert (∀ t : Z,
      t ∈ a → CameraController.find_closest_exposure a t = Py.Ok t)
    as Hfix.
  { intros t Ht.
    destruct (find_closest_exposure_correct a t Hasc Hne)
      as (r & Hr & Hin & Hnear & Htie).
    rewrite Forall_forall in Hnear. pose proof (Hnear t Ht).
    rewrite Hr. f_equal. lia. }
  split; [exact Hfix|].
  destruct (find_closest_exposure_correct a v Hasc Hne)
    as (r & Hr & Hin & _).
  exists r. split; [exact Hr|by apply Hfix].
Qed.

Section LoopInvariants.

Context `{Cv2} {D : Type} `{DriverInterface.Driver D}.

Lemma try_body_ok (c c1 : CameraController.t) (u : unit) :
  CameraController.try_body c = (c1, Py.Ok u) →
  ∃ d1 y img,
    DriverInterface.get_yuv_image Interface.LORES (CameraController.driver c)
      = (d1, Py.Ok y)
    ∧ cvtColor_YUV420p2RGB y = Py.Ok img
    ∧ c1 = published d1 y img c.
Proof.
  unfold CameraController.try_body.
  unfold mbind, M_bind, PyM.bind, CameraController.on_driver.
  destruct (DriverInterface.get_yuv_image Interface.LORES
              (CameraController.driver c)) as [d1 [y|e1]]; cbn;
    [|discriminate].
  unfold PyM.lift.
  destruct (cvtColor_YUV420p2RGB y) as [img|e2] eqn:Hcvt; cbn;
    [|discriminate].
  intros Hc1. exists d1, y, img. split; [done|]. split; [done|].
  destruct img as [img|]; cbn in Hc1;
    destruct (CameraController.recording_active c) eqn:Hrec; cbn in Hc1;
    injection Hc1 as <-; unfold published; rewrite Hrec; cbn;
    rewrite ?app_nil_r; reflexivity.
Qed.

Lemma try_body_raise_slots (c c1 : CameraController.t) (e : Py.exn) :
  CameraController.try_body c = (c1, Py.Raise e) →
  CameraController.image c1 = CameraController.image c
  ∧ CameraController.recording_active c1
    = CameraController.recording_active c
  ∧ (CameraController.yuvimage c1 = CameraController.yuvimage c
     ∨ is_Some (CameraController.yuvimage c1))
  ∧ (snd (DriverInterface.get_yuv_image Interface.LORES
            (CameraController.driver c)) = Py.Raise e →
     CameraController.yuvimage c1 = CameraController.yuvimage c).
Proof.
  unfold CameraController.try_body.
  unfold mbind, M_bind, PyM.bind, CameraController.on_driver.
  destruct (DriverInterface.get_yuv_image Interface.LORES
              (CameraController.driver c)) as [d1 [y|e1]]; cbn.
  - unfold PyM.lift.
    destruct (cvtColor_YUV420p2RGB y) as [img|e2]; cbn.
    + destruct img as [img|]; cbn;
        destruct (CameraController.recording_active c); cbn; discriminate.
    + intros Heq. injection Heq as <- <-. cbn.
      repeat split; [by right; eexists|discriminate].
  - intros Heq. injection Heq as <- <-. cbn. repeat split; by left.
Qed.

(** A turn whose [try] block raised: apart from the driver and the log
    it leaves the attributes as the [try] block left them, and pauses,
    for 20 ms, exactly when it goes on to the next turn. *)
Lemma iteration_after_raise (c c1 c' : CameraController.t) (e : Py.exn)
    (fl : CameraController.flow) :
  CameraController.try_body c = (c1, Py.Raise e) →
  CameraController.iteration c = (c', fl) →
  CameraController.config c' = CameraController.config c1
  ∧ CameraController.recording_active c'
    = CameraController.recording_active c1
  ∧ CameraController.stop_event c' = CameraController.stop_event c1
  ∧ CameraController.image c' = CameraController.image c1
  ∧ CameraController.yuvimage c' = CameraController.yuvimage c1
  ∧ CameraController.slept c'
    = CameraController.slept c1
      ++ (if fl is CameraController.Continue then [20] else []).
Proof.
  intros Htry. unfold CameraController.iteration. rewrite Htry.
  destruct (DriverInterface.initialise_camera (CameraController.config c1)
              (CameraController.driver c1)) as [d2 r] eqn:Hinit.
  rewrite (on_exception_reinitialises e c1 d2 r Hinit).
  destruct e, r as [[]|e']; cbn; intros Heq; injection Heq as <- <-; cbn;
    rewrite ?app_nil_r; done.
Qed.

(** What one turn does to the attributes other than the driver and the
    log. *)
Lemma iteration_frame (c c' : CameraController.t) (fl : CameraController.flow) :
  CameraController.iteration c = (c', fl) →
  CameraController.config c' = CameraController.config c
  ∧ CameraController.recording_active c'
    = CameraController.recording_active c
  ∧ (is_Some (CameraController.yuvimage c) →
     is_Some (CameraController.yuvimage c'))
  ∧ ((∀ y, cvtColor_YUV420p2RGB y ≠ Py.Ok None) →
     is_Some (CameraController.image c) →
     is_Some (CameraController.image c'))
  ∧ ∃ pauses,
      CameraController.slept c' = CameraController.slept c ++ pauses
      ∧ pauses ⊆ pauses_of_loop
      ∧ length pauses = (if fl is CameraController.Continue then 1 else 0)%nat.
Proof.
  intros Hiter.
  destruct (CameraController.try_body c) as [c1 [u|e]] eqn:Htry.
  - unfold CameraController.iteration in Hiter. rewrite Htry in Hiter.
    injection Hiter as <- <-.
    destruct (try_body_ok c c1 u Htry) as (d1 & y & img & _ & Hcvt & ->).
    cbn. split; [done|]. split; [done|]. split; [by eexists|]. split.
    + intros Hnone _. destruct img as [img|]; [by eexists|].
      by destruct (Hnone y).
    + eexists. split; [reflexivity|]. unfold pauses_of_loop.
      split; [destruct (CameraController.recording_active c); set_solver|].
      reflexivity.
  - destruct (try_body_raise c c1 e Htry) as (_ & Hcfg & _ & Hslept & _).
    destruct (try_body_raise_slots c c1 e Htry) as (Himg & Hrec & Hyuv & _).
    destruct (iteration_after_raise c c1 c' e fl Htry Hiter)
      as (-> & -> & _ & -> & -> & ->).
    rewrite Hcfg, Hrec, Himg, Hslept.
    split; [done|]. split; [done|].
    split; [intros Hsome; destruct Hyuv as [->|Hnew]; done|].
    split; [done|].
    eexists. split; [reflexivity|]. unfold pauses_of_loop.
    destruct fl; (split; [set_solver|reflexivity]).
Qed.

Lemma stop_frame (c : CameraController.t) :
  CameraController.config (fst (CameraController.stop c))
    = CameraController.config c
  ∧ CameraController.recording_active (fst (CameraController.stop c))
    = CameraController.recording_active c
  ∧ CameraController.image (fst (CameraController.stop c))
    = CameraController.image c
  ∧ CameraController.yuvimage (fst (CameraController.stop c))
    = CameraController.yuvimage c
  ∧ CameraController.slept (fst (CameraController.stop c))
    = CameraController.slept c.
Proof.
  unfold CameraController.stop.
  unfold mbind, M_bind, PyM.bind, CameraController.log,
    CameraController.set_stop_event, PyM.modify,
    CameraController.on_driver. cbn.
  destruct (DriverInterface.stop (CameraController.driver c)) as [d r].
  destruct r; done.
Qed.

Lemma run_cons (b : bool) (sched : list bool) (c : CameraController.t) :
  CameraController.run (b :: sched) c
  = let c0 := if b then fst (CameraController.stop c) else c in
    if CameraController.is_stopped c0
    then (c0, Some CameraController.StopSignal)
    else match CameraController.iteration c0 with
         | (c1, CameraController.Continue) => CameraController.run sched c1
         | (c1, CameraController.Break) =>
             (c1, Some CameraController.Interrupted)
         | (c1, CameraController.Propagate e) =>
             (c1, Some (CameraController.Unwound e))
         end.
Proof. reflexivity. Qed.

(** X4. The frame loop never spins: every turn that goes on to the
    next one has slept once, for 20, 30 or 1000 ms, so a loop still
    running after [n] tests of its condition has slept [n] times. *)
Theorem run_pauses_every_turn (sched : list bool) (c : CameraController.t) :
  ∃ pauses,
    CameraController.slept (fst (CameraController.run sched c))
      = CameraController.slept c ++ pauses
    ∧ pauses ⊆ pauses_of_loop
    ∧ (length pauses <= length sched)%nat
    ∧ (snd (CameraController.run sched c) = None →
       length pauses = length sched).
Proof.
  revert c. induction sched as [|b sched IH]; intros c.
  - exists []. cbn. rewrite app_nil_r. split; [done|]. split; [set_solver|].
    split; [lia|done].
  - rewrite run_cons. cbv zeta.
    set (c0 := if b then fst (CameraController.stop c) else c).
    assert (CameraController.slept c0 = CameraController.slept c) as Hc0.
    { unfold c0. destruct b; [|done]. apply stop_frame. }
    destruct (CameraController.is_stopped c0).
    { exists []. cbn. rewrite app_nil_r. split; [done|].
      split; [set_solver|]. split; [lia|discriminate]. }
    destruct (CameraController.iteration c0) as [c1 fl] eqn:Hiter.
    destruct (iteration_frame c0 c1 fl Hiter)
      as (_ & _ & _ & _ & pause & Hslept & Hsub & Hlen).
    rewrite Hc0 in Hslept.
    destruct fl as [| |e].
    + destruct (IH c1) as (pauses & Hrest & Hsub' & Hle & Hnone).
      exists (pause ++ pauses). rewrite Hrest, Hslept, app_assoc.
      split; [done|]. split; [set_solver|].
      rewrite length_app, Hlen. split; [simpl; lia|].
      intros Hgoing. rewrite (Hnone Hgoing). reflexivity.
    + exists pause. cbn. split; [done|]. split; [done|].
      rewrite Hlen. split; [lia|discriminate].
    + exists pause. cbn. split; [done|]. split; [done|].
      rewrite Hlen. split; [lia|discriminate].
Qed.

(** X5. A published frame is never withdrawn: once the YUV slot holds
    a frame it holds one after any number of turns, whatever fails in
    them; and, the conversion never returning [None], the same goes
    for the image slot, so that the image handed to the JPEG encoder
    is an array. *)
Theorem run_keeps_published_frames (sched : list bool)
    (c : CameraController.t) :
  (is_Some (CameraController.yuvimage c) →
   is_Some (CameraController.yuvimage (fst (CameraController.run sched c))))
  ∧ ((∀ y, cvtColor_YUV420p2RGB y ≠ Py.Ok None) →
     is_Some (CameraController.image c) →
     is_Some (CameraController.image (fst (CameraController.run sched c)))
     ∧ ∃ r, cv2_imencode
              (CameraController.get_md_image
                 (fst (CameraController.run sched c)))
            = imencode_jpg r).
Proof.
  assert (∀ c : @CameraController.t D,
            is_Some (CameraController.image c) →
            ∃ r, cv2_imencode (CameraController.get_md_image c)
                 = imencode_jpg r) as Henc.
  { intros c0 [img Himg]. exists img.
    unfold CameraController.get_md_image. by rewrite Himg. }
  revert c. induction sched as [|b sched IH]; intros c.
  - cbn. split; [done|]. intros _ Himg. split; [done|by apply Henc].
  - rewrite run_cons. cbv zeta.
    set (c0 := if b then fst (CameraController.stop c) else c).
    assert (CameraController.yuvimage c0 = CameraController.yuvimage c
            ∧ CameraController.image c0 = CameraController.image c)
      as [Hyuv0 Himg0].
    { unfold c0. destruct b; [|done]. split; apply stop_frame. }
    destruct (CameraController.is_stopped c0).
    { cbn. rewrite Hyuv0, Himg0. split; [done|].
      intros _ Himg. split; [done|].
      apply Henc. by rewrite Himg0. }
    destruct (CameraController.iteration c0) as [c1 fl] eqn:Hiter.
    destruct (iteration_frame c0 c1 fl Hiter)
      as (_ & _ & Hyuv & Himg & _).
    rewrite Hyuv0 in Hyuv. rewrite Himg0 in Himg.
    destruct (IH c1) as [IHyuv IHimg].
    destruct fl as [| |e]; cbn.
    + split; [intros Hsome; by apply IHyuv, Hyuv|].
      intros Hcv Hsome. apply IHimg; [done|by apply Himg].
    + split; [done|]. intros Hcv Hsome.
      split; [by apply Himg|]. apply Henc. by apply Himg.
    + split; [done|]. intros Hcv Hsome.
      split; [by apply Himg|]. apply Henc. by apply Himg.
Qed.

(** X6. The frame loop never writes the configuration nor the
    recording flag, however it ends. *)
Theorem run_leaves_configuration (sched : list bool)
    (c : CameraController.t) :
  CameraController.config (fst (CameraController.run sched c))
    = CameraController.config c
  ∧ CameraController.recording_active (fst (CameraController.run sched c))
    = CameraController.recording_active c.
Proof.
  revert c. induction sched as [|b sched IH]; intros c; [done|].
  rewrite run_cons. cbv zeta.
  set (c0 := if b then fst (CameraController.stop c) else c).
  assert (CameraController.config c0 = CameraController.config c
          ∧ CameraController.recording_active c0
            = CameraController.recording_active c) as [Hcfg0 Hrec0].
  { unfold c0. destruct b; [|done]. split; apply stop_frame. }
  destruct (CameraController.is_stopped c0); [done|].
  destruct (CameraController.iteration c0) as [c1 fl] eqn:Hiter.
  destruct (iteration_frame c0 c1 fl Hiter) as (Hcfg & Hrec & _).
  destruct (IH c1) as [IHcfg IHrec].
  destruct fl as [| |e]; cbn; rewrite ?IHcfg, ?IHrec, Hcfg, Hrec; done.
Qed.

End LoopInvariants.

Section MockInvariants.

Context `{Cv2}.

Variable environ : gmap string string.
Variable open_video : string -> option MockDriver.video_file.

Ltac step_both :=
  match goal with
  | H : context [PyM.bind (PyM.lift ?r) _ _] |- _ =>
      unfold PyM.bind at 1, PyM.lift at 1 in H;
      unfold PyM.bind at 1, PyM.lift at 1;
      let v := fresh "v" in let e := fresh "e" in
      destruct r as [v|e]; [|discriminate H]
  | H : context [PyM.bind (PyM.modify ?f) _ _] |- _ =>
      unfold PyM.bind at 1, PyM.modify at 1 in H;
      unfold PyM.bind at 1, PyM.modify at 1
  end.

(** A successful initialisation leaves a state that owes nothing to
    the state before it. *)
Lemma initialise_camera_forgets (now : F64.float)
    (cfg : ServerConfig.Config) (d d' d1 : MockDriver.t) :
  MockDriver.initialise_camera environ open_video now cfg d
    = (d1, Py.Ok tt) →
  MockDriver.initialise_camera environ open_video now cfg d'
    = (d1, Py.Ok tt).
Proof.
  unfold MockDriver.initialise_camera, MockDriver.configure_LED.
  unfold mbind, M_bind, MockDriver.attr. intros Hinit.
  step_both. step_both.
  destruct (environ !! "MOCK_VIDEO_PATH") as [path|] eqn:Hpath.
  2:{ cbn in Hinit. discriminate Hinit. }
  rewrite bool_decide_eq_true_2 in Hinit by (by eexists).
  rewrite bool_decide_eq_true_2 by (by eexists).
  unfold Py.assert in *.
  unfold PyM.bind at 1, PyM.lift at 1 in Hinit.
  unfold PyM.bind at 1, PyM.lift at 1 in Hinit.
  unfold PyM.bind at 1, PyM.modify at 1 in Hinit.
  unfold PyM.bind at 1, PyM.lift at 1.
  unfold PyM.bind at 1, PyM.lift at 1.
  unfold PyM.bind at 1, PyM.modify at 1.
  unfold MockDriver.isOpened in *. cbn [MockDriver.vc_file] in *.
  destruct (open_video path) as [file|] eqn:Hfile.
  2:{ cbn in Hinit. discriminate Hinit. }
  rewrite bool_decide_eq_true_2 in Hinit by (by eexists).
  rewrite bool_decide_eq_true_2 by (by eexists).
  unfold PyM.bind at 1 in Hinit. cbn [mret M_ret PyM.ret] in Hinit.
  unfold PyM.bind at 1. cbn [mret M_ret PyM.ret].
  repeat step_both.
  unfold PyM.modify in *. injection Hinit as <-. reflexivity.
Qed.

(** X7. Re-initialising starts afresh: a successful initialisation leaves
    the same state whatever the state before it, with the clock
    reading taken and both read positions at the first frame; so
    initialising twice is initialising once. *)
Theorem mock_initialise_resets (now : F64.float)
    (cfg : ServerConfig.Config) (d d1 : MockDriver.t) :
  MockDriver.initialise_camera environ open_video now cfg d
    = (d1, Py.Ok tt) →
  (∀ d', MockDriver.initialise_camera environ open_video now cfg d'
         = (d1, Py.Ok tt))
  ∧ MockDriver.initialise_camera environ open_video now cfg d1
    = (d1, Py.Ok tt)
  ∧ lores_pos d1 = Some 0
  ∧ hires_pos d1 = Some 0
  ∧ MockDriver.wall_time d1 = Some now.
Proof.
  intros Hinit.
  destruct (initialise_camera_takes_file_rate environ open_video now cfg
              d d1 Hinit)
    as (path & file & _ & _ & _ & _ & Hwall & Hvideo).
  split; [intros d'; by apply (initialise_camera_forgets now cfg d)|].
  split; [by apply (initialise_camera_forgets now cfg d)|].
  unfold lores_pos, hires_pos. rewrite Hvideo. by cbn.
Qed.

Lemma frame_count_of (c : MockDriver.VideoCapture)
    (file : MockDriver.video_file) :
  MockDriver.vc_file c = Some file →
  MockDriver.frame_count c = Z.of_nat (length (MockDriver.vf_frames file)).
Proof. intros Hfile. unfold MockDriver.frame_count. by rewrite Hfile. Qed.






End MockInvariants.

Section RecordingFacts.

Context `{Cv2}.

Variable float_mod : F64.float -> F64.float -> F64.float.

Lemma write_next_step (file : MockDriver.video_file) (q : Z)
    (path : string) (s : MockRecording.t) :
  recording_from file q s →
  let n := Z.of_nat (length (MockDriver.vf_frames file)) in
  ∃ s' frame,
    MockRecording.write_next path s = (s', Py.Ok tt)
    ∧ MockDriver.vf_frames file !! Z.to_nat (q `mod` n) = Some frame
    ∧ recording_from file (q `mod` n + 1) s'
    ∧ MockRecording.written s'
      = <[path := default [] (MockRecording.written s !! path)
                  ++ [if MockDriver.rotated (MockRecording.device s)
                      then flip0 frame else frame]]>
          (MockRecording.written s)
    ∧ MockDriver.rotated (MockRecording.device s')
      = MockDriver.rotated (MockRecording.device s)
    ∧ MockDriver.frame_rate (MockRecording.device s')
      = MockDriver.frame_rate (MockRecording.device s)
    ∧ MockRecording.vid_cap_file_path s' = MockRecording.vid_cap_file_path s
    ∧ MockRecording.vid_cap_start_time s'
      = MockRecording.vid_cap_start_time s.
Proof.
  intros (Hne & Hq & v & Hv & Hfile & Hpos) n.
  assert (0 < n) as Hn
    by (unfold n; destruct (MockDriver.vf_frames file); [done|simpl; lia]).
  unfold MockRecording.write_next.
  unfold mbind, M_bind, PyM.bind at 1.
  unfold MockRecording.on_device at 1, PyM.bind at 1, PyM.gets at 1.
  rewrite Hv. unfold MockDriver.attr, PyM.lift at 1.
  destruct (decide (q < n)) as [Hlt|Hge].
  - destruct (read_in_range (MockDriver.hires v) file Hfile)
      as (frame & Hframe & Hread).
    { rewrite (frame_count_of _ file Hfile). rewrite Hpos. lia. }
    rewrite Hread, Hpos in *. rewrite (Z.mod_small q n) by lia.
    eexists _, frame. split.
    { unfold PyM.bind, MockRecording.on_device, PyM.modify, PyM.gets.
      cbn. reflexivity. }
    split; [exact Hframe|].
    split.
    { split; [done|]. split; [lia|]. eexists. cbn.
      split; [reflexivity|]. split; [exact Hfile|reflexivity]. }
    destruct s as [d ? ? ? ?]; destruct d; cbn. done.
  - assert (q = n) as -> by lia.
    rewrite Z.mod_same by lia.
    assert (MockDriver.read (MockDriver.hires v)
            = (MockDriver.hires v, None)) as Hend.
    { apply read_at_end. rewrite (frame_count_of _ file Hfile). lia. }
    rewrite Hend.
    destruct (read_in_range (MockDriver.set_pos 0 (MockDriver.hires v)) file)
      as (frame & Hframe & Hread).
    { exact Hfile. }
    { rewrite (frame_count_of _ file) by exact Hfile. cbn. lia. }
    cbn [MockDriver.vc_pos MockDriver.set_pos] in Hframe, Hread.
    rewrite Hread.
    eexists _, frame. split.
    { unfold PyM.bind, MockRecording.on_device, PyM.modify, PyM.gets.
      cbn. reflexivity. }
    split; [exact Hframe|].
    split.
    { split; [done|]. split; [lia|]. eexists. cbn.
      split; [reflexivity|]. split; [exact Hfile|reflexivity]. }
    destruct s as [d ? ? ? ?]; destruct d; cbn. done.
Qed.

Lemma clip_frames_S (file : MockDriver.video_file) (rot : bool) (q : Z)
    (count : nat) (frame : ndarray) :
  MockDriver.vf_frames file ≠ [] →
  MockDriver.vf_frames file
    !! Z.to_nat (q `mod` Z.of_nat (length (MockDriver.vf_frames file)))
    = Some frame →
  clip_frames file rot q (S count)
  = (if rot then flip0 frame else frame)
    :: clip_frames file rot
         (q `mod` Z.of_nat (length (MockDriver.vf_frames file)) + 1) count.
Proof.
  intros Hne Hframe. unfold clip_frames.
  set (n := Z.of_nat (length (MockDriver.vf_frames file))) in *.
  assert (0 < n) as Hn
    by (unfold n; destruct (MockDriver.vf_frames file); [done|simpl; lia]).
  cbn [seq fmap list_fmap omap list_omap].
  rewrite Z.add_0_r, Hframe. cbn. f_equal.
  rewrite <- fmap_S_seq, <- !list_fmap_compose.
  generalize (seq 0 count) as l. intros l.
  induction l as [|i l IH]; [reflexivity|].
  cbn [fmap list_fmap omap list_omap compose].
  replace ((q `mod` n + 1 + Z.of_nat i) `mod` n)
    with ((q + Z.of_nat (S i)) `mod` n).
  - by rewrite IH.
  - rewrite <- (Z.add_mod_idemp_l q (Z.of_nat (S i)) n) by lia.
    f_equal. lia.
Qed.

Lemma clip_frames_length (file : MockDriver.video_file) (rot : bool)
    (q : Z) (count : nat) :
  MockDriver.vf_frames file ≠ [] →
  length (clip_frames file rot q count) = count.
Proof.
  intros Hne. revert q. induction count as [|count IH]; intros q;
    [reflexivity|].
  set (n := Z.of_nat (length (MockDriver.vf_frames file))).
  assert (0 < n) as Hn
    by (unfold n; destruct (MockDriver.vf_frames file); [done|simpl; lia]).
  destruct (lookup_lt_is_Some_2 (MockDriver.vf_frames file)
              (Z.to_nat (q `mod` n))) as [frame Hframe].
  { pose proof (Z.mod_pos_bound q n Hn). lia. }
  rewrite (clip_frames_S file rot q count frame Hne Hframe).
  simpl. by rewrite IH.
Qed.

Lemma write_frames_S (count : nat) (path : string) (s : MockRecording.t) :
  MockRecording.write_frames (S count) path s
  = match MockRecording.write_next path s with
    | (s1, Py.Ok _) => MockRecording.write_frames count path s1
    | (s1, Py.Raise e) => (s1, Py.Raise e)
    end.
Proof. reflexivity. Qed.

(** The loop of [stop_video_capture] writes consecutive frames of the
    file, starting over at its end, and never fails on a file that has
    frames. *)
Lemma write_frames_writes (file : MockDriver.video_file) (q : Z)
    (count : nat) (path : string) (s : MockRecording.t)
    (old : list ndarray) :
  recording_from file q s →
  MockRecording.written s !! path = Some old →
  ∃ s' q',
    MockRecording.write_frames count path s = (s', Py.Ok tt)
    ∧ recording_from file q' s'
    ∧ MockRecording.written s'
      = <[path := old ++ clip_frames file
                          (MockDriver.rotated (MockRecording.device s))
                          q count]>
          (MockRecording.written s).
Proof.
  revert q s old.
  induction count as [|count IH]; intros q s old Hrec Hold.
  - exists s, q. split; [reflexivity|]. split; [exact Hrec|].
    cbn. rewrite app_nil_r. by rewrite insert_id.
  - destruct (write_next_step file q path s Hrec)
      as (s1 & frame & Hstep & Hframe & Hrec1 & Hwritten & Hrot & _).
    rewrite write_frames_S, Hstep.
    rewrite Hold in Hwritten. cbn [default] in Hwritten.
    destruct (IH _ s1 (old ++ [if MockDriver.rotated (MockRecording.device s)
                               then flip0 frame else frame]) Hrec1)
      as (s' & q' & Hrest & Hrec' & Hwritten').
    { rewrite Hwritten. apply lookup_insert_eq. }
    exists s', q'. split; [exact Hrest|]. split; [exact Hrec'|].
    rewrite Hwritten', Hwritten, Hrot, insert_insert_eq.
    destruct Hrec as (Hne & _).
    rewrite (clip_frames_S file _ q count frame Hne Hframe).
    by rewrite <- app_assoc.
Qed.

Lemma start_video_capture_arms (now : F64.float) (path : string)
    (s : MockRecording.t) (b n : Z) (r : F64.float)
    (v : MockDriver.captures) :
  MockDriver.time_before_trigger (MockRecording.device s)
    = Some (Py.VInt b) →
  MockDriver.video (MockRecording.device s) = Some v →
  MockDriver.frame_rate (MockRecording.device s) = Some r →
  MockDriver.num_frames (MockRecording.device s) = Some n →
  n ≠ 0 →
  ∃ start_frame,
    MockRecording.start_video_capture float_mod now path s
    = ({| MockRecording.device := MockRecording.device s;
          MockRecording.vid_cap_start_time :=
            Some (F64.sub now (F64.of_Z b));
          MockRecording.vid_cap_start_frame := Some start_frame;
          MockRecording.vid_cap_file_path := Some path;
          MockRecording.written := MockRecording.written s |},
       Py.Ok tt).
Proof.
  intros Hb Hv Hr Hn Hn0.
  unfold MockRecording.start_video_capture.
  unfold mbind, M_bind, PyM.bind, MockRecording.on_device, PyM.gets,
    MockDriver.attr, PyM.lift, PyM.modify. cbn.
  rewrite Hb. cbn. rewrite Hv. cbn. rewrite Hr. cbn. rewrite Hn. cbn.
  destruct (Z.eqb_spec n 0) as [?|_]; [done|]. cbn.
  eexists. destruct s; reflexivity.
Qed.

Lemma stop_video_capture_writes (now started r : F64.float)
    (file : MockDriver.video_file) (q num : Z) (path : string)
    (s : MockRecording.t) :
  recording_from file q s →
  MockDriver.frame_rate (MockRecording.device s) = Some r →
  MockRecording.vid_cap_start_time s = Some started →
  MockRecording.vid_cap_file_path s = Some path →
  F64.int_of (F64.mul (F64.sub now started) r) = Py.Ok num →
  ∃ s',
    MockRecording.stop_video_capture now s = (s', Py.Ok tt)
    ∧ MockRecording.written s'
      = <[path := clip_frames file
                    (MockDriver.rotated (MockRecording.device s))
                    q (Z.to_nat num)]>
          (MockRecording.written s).
Proof.
  intros Hrec Hr Hstarted Hpath Hnum.
  unfold MockRecording.stop_video_capture.
  unfold mbind, M_bind, PyM.bind, MockRecording.on_device, PyM.gets,
    MockDriver.attr, PyM.lift, PyM.modify.
  rewrite Hstarted. cbn. rewrite Hr. cbn. rewrite Hnum. cbn.
  rewrite Hpath. cbn.
  set (s0 := MockRecording.set_written _ _).
  destruct (write_frames_writes file q (Z.to_nat num) path s0 [])
    as (s' & q' & Hwrite & _ & Hwritten).
  { exact Hrec. }
  { unfold s0. cbn. apply lookup_insert_eq. }
  exists s'. split; [exact Hwrite|].
  rewrite Hwritten. unfold s0. cbn. by rewrite insert_insert_eq.
Qed.

(** X10. A clip recorded on the simulated device: started at [now0] and
    stopped at [now1], it holds as many frames as the time from
    [before] seconds ahead of the start to the stop makes at the
    device's frame rate; they are the frames of the file from the
    hi-res position on, in order, starting over at the end of the
    file, flipped when the camera is rotated; no other file is
    touched. *)
Theorem mock_clip_recorded (now0 now1 r : F64.float)
    (file : MockDriver.video_file) (q before num : Z) (path : string)
    (s : MockRecording.t) :
  recording_from file q s →
  MockDriver.frame_rate (MockRecording.device s) = Some r →
  MockDriver.num_frames (MockRecording.device s)
    = Some (Z.of_nat (length (MockDriver.vf_frames file))) →
  MockDriver.time_before_trigger (MockRecording.device s)
    = Some (Py.VInt before) →
  F64.int_of (F64.mul (F64.sub now1 (F64.sub now0 (F64.of_Z before))) r)
    = Py.Ok num →
  ∃ s1 s2,
    MockRecording.start_video_capture float_mod now0 path s
      = (s1, Py.Ok tt)
    ∧ MockRecording.stop_video_capture now1 s1 = (s2, Py.Ok tt)
    ∧ MockRecording.written s2 !! path
      = Some (clip_frames file
                (MockDriver.rotated (MockRecording.device s))
                q (Z.to_nat num))
    ∧ length (clip_frames file
                (MockDriver.rotated (MockRecording.device s))
                q (Z.to_nat num)) = Z.to_nat num
    ∧ ∀ other, other ≠ path →
        MockRecording.written s2 !! other
        = MockRecording.written s !! other.
Proof.
  intros Hrec Hr Hn Hbefore Hnum.
  pose proof Hrec as (Hne & Hq & v & Hv & Hfile & Hpos).
  destruct (start_video_capture_arms now0 path s before _ r v
              Hbefore Hv Hr Hn) as (start_frame & Hstart).
  { destruct (MockDriver.vf_frames file); [done|simpl; lia]. }
  eexists. rewrite Hstart.
  destruct (stop_video_capture_writes now1 (F64.sub now0 (F64.of_Z before))
              r file q num path
              {| MockRecording.device := MockRecording.device s;
                 MockRecording.vid_cap_start_time :=
                   Some (F64.sub now0 (F64.of_Z before));
                 MockRecording.vid_cap_start_frame := Some start_frame;
                 MockRecording.vid_cap_file_path := Some path;
                 MockRecording.written := MockRecording.written s |})
    as (s2 & Hstop & Hwritten); try done.
  exists s2. split; [reflexivity|]. split; [exact Hstop|].
  rewrite Hwritten. cbn [MockRecording.written MockRecording.device].
  split; [apply lookup_insert_eq|].
  split; [by apply clip_frames_length|].
  intros other Hother. by rewrite lookup_insert_ne.
Qed.

End RecordingFacts.

Section ConfigFacts.

(** ** The configuration object *)

Lemma getitem_plain (cfg : ServerConfig.Config) (k : string) :
  ServerConfig.hasattr k = false →
  ServerConfig.getitem cfg k
  = match cfg !! k with
    | Some v => Py.Ok v
    | None => Py.Raise (Py.KeyError k)
    end.
Proof. intros Hk. unfold ServerConfig.getitem. by rewrite Hk. Qed.

Lemma setitem_plain (cfg : ServerConfig.Config) (k : string) (v : Py.value) :
  ServerConfig.hasattr k = false →
  ServerConfig.setitem k v cfg = (<[k := v]> cfg, Py.Ok tt).
Proof. intros Hk. unfold ServerConfig.setitem. by rewrite Hk. Qed.

Lemma plain_attributes_hasattr (k : string) :
  k ∈ plain_attributes → ServerConfig.hasattr k = true.
Proof.
  unfold plain_attributes, ServerConfig.hasattr, ServerConfig.attributes.
  intros Hk. apply bool_decide_eq_true_2. set_solver.
Qed.

(** X11. Writing an item of the configuration and reading it back:
    for a key of the dictionary the value written is the value read,
    and the other keys of the dictionary read as before; for the name
    of an attribute that is no property the write raises [TypeError]
    and changes nothing, and a dictionary entry under that name is
    never what is read. *)
Theorem config_item_round_trip (cfg : ServerConfig.Config)
    (k k' : string) (v : Py.value) :
  (dictionary_key k →
   ServerConfig.getitem (fst (ServerConfig.setitem k v cfg)) k = Py.Ok v
   ∧ (dictionary_key k' → k' ≠ k →
      ServerConfig.getitem (fst (ServerConfig.setitem k v cfg)) k'
      = ServerConfig.getitem cfg k'))
  ∧ (k ∈ plain_attributes →
     ServerConfig.setitem k v cfg = (cfg, Py.Raise Py.TypeError)
     ∧ ServerConfig.getitem (<[k := v]> cfg) k = ServerConfig.getitem cfg k).
Proof.
  split.
  - intros [Hk _]. rewrite (setitem_plain cfg k v Hk). cbn [fst].
    split.
    + rewrite (getitem_plain _ k Hk). by rewrite lookup_insert_eq.
    + intros [Hk' _] Hne. rewrite !(getitem_plain _ k' Hk').
      by rewrite lookup_insert_ne.
  - intros Hk. apply plain_attributes_hasattr in Hk.
    unfold ServerConfig.setitem, ServerConfig.getitem.
    by rewrite Hk.
Qed.

Lemma flush_raises (fs_open : string → bool)
    (cfg : ServerConfig.Config) :
  ∃ e, ServerConfig.flush fs_open cfg = Py.Raise e
       ∧ e ∈ flush_errors
       ∧ (∀ p, cfg !! "data_path" = Some (Py.VStr p) →
               e = if fs_open p then Py.NameError "new_config"
                   else Py.OSError).
Proof.
  unfold ServerConfig.flush, ServerConfig.config_path, flush_errors.
  destruct (cfg !! "data_path") as [[| |p|]|] eqn:Hpath;
    cbn [mbind result_bind Py.bind].
  - exists Py.TypeError. split; [done|]. split; [set_solver|]. done.
  - exists Py.TypeError. split; [done|]. split; [set_solver|]. done.
  - destruct (fs_open p) eqn:Hopen.
    + exists (Py.NameError "new_config"). split; [reflexivity|].
      split; [set_solver|]. intros p' [= <-]. by rewrite Hopen.
    + exists Py.OSError. split; [reflexivity|].
      split; [set_solver|]. intros p' [= <-]. by rewrite Hopen.
  - exists Py.TypeError. split; [done|]. split; [set_solver|]. done.
  - exists (Py.KeyError "data_path"). split; [done|].
    split; [set_solver|]. done.
Qed.

(** X12. [Config.flush] never returns normally: whatever the
    dictionary holds and whether or not the file can be opened, it
    raises, for want of a ["data_path"] text, because the file cannot
    be opened, or at the unbound name [new_config]; and the
    controller's call of it leaves the controller as it was. *)
Theorem flush_never_succeeds `{Cv2} {D : Type} `{DriverInterface.Driver D}
    (fs_open : string → bool) (c : @CameraController.t D) :
  ∃ e, ServerConfig.flush fs_open (CameraController.config c) = Py.Raise e
       ∧ CameraController.config_flush fs_open c = (c, Py.Raise e)
       ∧ e ∈ flush_errors
       ∧ (∀ p, CameraController.config c !! "data_path"
                 = Some (Py.VStr p) →
               e = if fs_open p then Py.NameError "new_config"
                   else Py.OSError).
Proof.
  destruct (flush_raises fs_open (CameraController.config c))
    as (e & Hflush & Hin & Hwhich).
  exists e. split; [exact Hflush|].
  split; [unfold CameraController.config_flush; by rewrite Hflush|].
  split; [exact Hin|exact Hwhich].
Qed.

End ConfigFacts.

Section OtherCommandFacts.

Context `{Cv2} {D : Type} `{DriverInterface.Driver D}
  `{DriverControls.Controls D}.

Variable fs_open : string -> bool.

Ltac unfold_command :=
  unfold mbind, M_bind, PyM.bind, PyM.lift, PyM.gets, PyM.modify,
    CameraController.on_config, CameraController.on_driver,
    CameraController.config_get, CameraController.config_flush.

(** X13. [set_resolution] with the stored resolution does nothing; with
    another supported one it stores the resolution with the width and
    the height it stands for, re-initialises the driver with that
    configuration, and then raises, persisting having failed (or the
    driver). *)
Theorem set_resolution_accepted (c : CameraController.t)
    (resolution current : Py.value) (w h : Z) :
  ServerConfig.getitem (CameraController.config c) "resolution"
    = Py.Ok current →
  (resolution, w, h) ∈ resolution_sizes →
  CameraController.set_resolution fs_open current c = (c, Py.Ok tt)
  ∧ (resolution ≠ current →
     let cfg :=
       <["img_width" := Py.VInt w]>
         (<["img_height" := Py.VInt h]>
            (<["resolution" := resolution]> (CameraController.config c))) in
     let d := fst (DriverInterface.initialise_camera cfg
                     (CameraController.driver c)) in
     ∃ e, CameraController.set_resolution fs_open resolution c
          = (reconfigured cfg d c, Py.Raise e)).
Proof.
  intros Hcur Hin. split.
  - unfold CameraController.set_resolution. unfold_command.
    rewrite Hcur. rewrite bool_decide_eq_false_2 by (intros Hne; done).
    reflexivity.
  - intros Hne. cbv zeta.
    assert (ServerConfig.hasattr "resolution" = false) as Hk1 by reflexivity.
    assert (ServerConfig.hasattr "img_height" = false) as Hk2 by reflexivity.
    assert (ServerConfig.hasattr "img_width" = false) as Hk3 by reflexivity.
    unfold CameraController.set_resolution. unfold_command.
    rewrite Hcur. rewrite (bool_decide_eq_true_2 _ Hne).
    unfold resolution_sizes in Hin.
    assert (bool_decide (resolution ∈ CameraController.supported_resolutions)
            = true) as Hsup.
    { apply bool_decide_eq_true_2.
      unfold CameraController.supported_resolutions. set_solver. }
    rewrite Hsup. cbn [Py.assert].
    rewrite (setitem_plain _ "resolution" resolution Hk1).
    cbn [CameraController.config].
    assert (∃ sw sh, CameraController.unpack_split resolution
                     = Py.Ok (sw, sh)
                     ∧ CameraController.py_int sh = Py.Ok h
                     ∧ CameraController.py_int sw = Py.Ok w)
      as (sw & sh & -> & Hh & Hw).
    { apply elem_of_cons in Hin as [[= -> -> ->]|Hin].
      { by eexists _, _. }
      apply elem_of_cons in Hin as [[= -> -> ->]|Hin].
      { by eexists _, _. }
      by apply elem_of_nil in Hin. }
    cbn [fst snd]. rewrite Hh.
    rewrite (setitem_plain _ "img_height" (Py.VInt h) Hk2).
    cbn [CameraController.config]. rewrite Hw.
    rewrite (setitem_plain _ "img_width" (Py.VInt w) Hk3).
    cbn [CameraController.config CameraController.driver].
    destruct (DriverInterface.initialise_camera _ _) as [d1 [[]|e]].
    + cbn [CameraController.config fst].
      destruct (flush_raises fs_open
                  (<["img_width" := Py.VInt w]>
                     (<["img_height" := Py.VInt h]>
                        (<["resolution" := resolution]>
                           (CameraController.config c)))))
        as (e & -> & _).
      exists e. reflexivity.
    + exists e. reflexivity.
Qed.

(** X14. [set_camera_rotation] does nothing when the stored flag already
    says [rotation]; otherwise it stores 1 or 0, re-initialises the
    driver with that configuration and raises, persisting having
    failed (or the driver); asked again, it then does nothing. *)
Theorem set_camera_rotation_toggles (c : CameraController.t)
    (stored : Py.value) (rotation : bool) :
  ServerConfig.getitem (CameraController.config c) "rotate_camera"
    = Py.Ok stored →
  (bool_decide (stored = Py.VInt 1) = rotation →
   Commands.set_camera_rotation fs_open rotation c = (c, Py.Ok tt))
  ∧ (bool_decide (stored = Py.VInt 1) ≠ rotation →
     let cfg := <["rotate_camera" := Py.VInt (if rotation then 1 else 0)]>
                  (CameraController.config c) in
     let c' := reconfigured cfg
                 (fst (DriverInterface.initialise_camera cfg
                         (CameraController.driver c))) c in
     (∃ e, Commands.set_camera_rotation fs_open rotation c
           = (c', Py.Raise e))
     ∧ Commands.set_camera_rotation fs_open rotation c' = (c', Py.Ok tt)).
Proof.
  intros Hstored.
  assert (ServerConfig.hasattr "rotate_camera" = false) as Hk
    by reflexivity.
  split.
  - intros Hsame. unfold Commands.set_camera_rotation. unfold_command.
    rewrite Hstored. rewrite bool_decide_eq_false_2 by (intros Hne; done).
    reflexivity.
  - intros Hne. cbv zeta. split.
    + unfold Commands.set_camera_rotation. unfold_command.
      rewrite Hstored. rewrite (bool_decide_eq_true_2 _ Hne).
      rewrite (setitem_plain _ "rotate_camera" _ Hk).
      cbn [CameraController.config CameraController.driver].
      destruct (DriverInterface.initialise_camera _ _) as [d1 [[]|e]].
      * cbn [CameraController.config fst].
        destruct (flush_raises fs_open
                    (<["rotate_camera" :=
                         Py.VInt (if rotation then 1 else 0)]>
                       (CameraController.config c))) as (e & -> & _).
        exists e. reflexivity.
      * exists e. reflexivity.
    + unfold Commands.set_camera_rotation. unfold_command.
      cbn [reconfigured CameraController.config].
      rewrite (getitem_plain _ "rotate_camera" Hk), lookup_insert_eq.
      rewrite bool_decide_eq_false_2; [reflexivity|].
      intros Hdiff. apply Hdiff. destruct rotation; reflexivity.
Qed.

(** X15. [set_LED] does nothing when the stored text is the one asked for;
    otherwise it switches the LED off for ["off"] and on for anything
    else, and only when the driver has accepted that stores ["off"] or
    ["on"], before raising, persisting having failed. *)
Theorem set_LED_normalises (c : CameraController.t)
    (stored LED : Py.value) :
  ServerConfig.getitem (CameraController.config c) "LED" = Py.Ok stored →
  Commands.set_LED fs_open stored c = (c, Py.Ok tt)
  ∧ (LED ≠ stored →
     let off := bool_decide (LED = Py.VStr "off") in
     let '(d1, r) :=
       DriverControls.configure_LED
         (if off then Interface.OFF else Interface.ON)
         (CameraController.driver c) in
     match r with
     | Py.Ok _ =>
         ∃ e, Commands.set_LED fs_open LED c
              = (reconfigured
                   (<["LED" := Py.VStr (if off then "off" else "on")]>
                      (CameraController.config c)) d1 c,
                 Py.Raise e)
     | Py.Raise e =>
         Commands.set_LED fs_open LED c
         = (reconfigured (CameraController.config c) d1 c, Py.Raise e)
     end).
Proof.
  intros Hstored.
  assert (ServerConfig.hasattr "LED" = false) as Hk by reflexivity.
  split.
  - unfold Commands.set_LED. unfold_command.
    rewrite Hstored. rewrite bool_decide_eq_false_2 by (intros Hne; done).
    reflexivity.
  - intros Hne. cbv zeta.
    unfold Commands.set_LED. unfold_command.
    rewrite Hstored.
    rewrite (bool_decide_eq_true_2 (stored ≠ LED))
      by (intros Heq; by apply Hne).
    destruct (bool_decide (LED = Py.VStr "off"));
      destruct (DriverControls.configure_LED _ _) as [d1 [[]|e]];
      cbn [CameraController.config CameraController.driver];
      try reflexivity;
      rewrite (setitem_plain _ "LED" _ Hk); cbn [CameraController.config];
      match goal with
      | |- context [ServerConfig.flush fs_open ?cfg] =>
          destruct (flush_raises fs_open cfg) as (e & -> & _)
      end; exists e; reflexivity.
Qed.

(** X16. No exposure or sharpness command of the controller reaches the
    driver: [auto_exposure] raises once it has stored the mode
    ["auto"], [set_sharpness] raises before it has changed
    anything. *)
Theorem exposure_and_sharpness_never_reach_driver (c : CameraController.t)
    (sharpness_val sharpness_mode : Py.value) :
  Commands.auto_exposure fs_open c
  = (reconfigured (<["exposure_mode" := Py.VStr "auto"]>
                     (CameraController.config c))
       (CameraController.driver c) c,
     Py.Raise (Py.NameError "ExposureMode"))
  ∧ Commands.set_sharpness fs_open sharpness_val sharpness_mode c
    = (c, Py.Raise (if DriverControls.set_sharpness is Some _
                    then Py.NameError "SharpnessMode"
                    else Py.AttributeError)).
Proof.
  split.
  - reflexivity.
  - unfold Commands.set_sharpness. unfold_command.
    destruct DriverControls.set_sharpness; reflexivity.
Qed.


End OtherCommandFacts.

Section ClockInvariant.

Variable py_float : string -> Py.result F64.float.

Lemma update_time_unset (now : F64.float) (time_string : string)
    (cd : Api.change_detector) :
  Api.device_time cd = None →
  Api.update_time py_float now time_string cd
  = match py_float time_string with
    | Py.Ok x =>
        if F64.gtb x (F64.of_Z 1580317004)
        then ({| Api.device_time := Some x;
                 Api.device_time_start := Some now |},
              Py.Ok (Api.success time_string))
        else (cd, Py.Ok (Api.error time_string))
    | Py.Raise e => (cd, Py.Raise e)
    end.
Proof.
  intros Hunset. unfold Api.update_time.
  unfold mbind, M_bind, PyM.bind, PyM.gets, PyM.lift, PyM.modify.
  rewrite Hunset.
  destruct (py_float time_string) as [x|e]; [|reflexivity].
  destruct (F64.gtb x (F64.of_Z 1580317004)); reflexivity.
Qed.

Lemma accepted_count_not_modified (requests : list (F64.float * string)) :
  accepted_count
    ((λ req, Py.Ok (Api.not_modified (snd req))) <$> requests) = 0%nat.
Proof.
  unfold accepted_count.
  induction requests as [|req requests IH]; [reflexivity|exact IH].
Qed.

(** X18. Whatever requests arrive, in whatever order, and whatever text
    they carry: starting with no device time, at most one is answered
    200; a device time is stored exactly when one was; and the stored
    time is the value of a request of the sequence, above the
    threshold. *)
Theorem clock_set_at_most_once (requests : list (F64.float * string))
    (cd : Api.change_detector) :
  Api.device_time cd = None →
  let cd' := fst (Api.serve py_float requests cd) in
  let outs := snd (Api.serve py_float requests cd) in
  (accepted_count outs <= 1)%nat
  ∧ (Api.device_time cd' = None ↔ accepted_count outs = 0%nat)
  ∧ (∀ x, Api.device_time cd' = Some x →
          F64.gtb x (F64.of_Z 1580317004) = true
          ∧ ∃ req, req ∈ requests ∧ py_float (snd req) = Py.Ok x).
Proof.
  revert cd. induction requests as [|[now ts] requests IH]; intros cd Hunset.
  - cbn. rewrite Hunset. split; [lia|]. split; [done|]. intros x [=].
  - cbv zeta. rewrite serve_cons, (update_time_unset now ts cd Hunset).
    destruct (py_float ts) as [x|e] eqn:Hparse.
    + destruct (F64.gtb x (F64.of_Z 1580317004)) eqn:Hgt.
      * rewrite (serve_already_set py_float requests _ x) by reflexivity.
        cbn [fst snd Api.device_time].
        unfold accepted_count. cbn [List.filter is_accepted].
        change (Api.status (Api.success ts) =? 200) with true.
        cbn [length]. fold (accepted_count
          ((λ req, Py.Ok (Api.not_modified (snd req))) <$> requests)).
        rewrite accepted_count_not_modified.
        split; [lia|]. split; [split; discriminate|].
        intros x' [= <-]. split; [exact Hgt|].
        exists (now, ts). split; [set_solver|exact Hparse].
      * specialize (IH cd Hunset). cbv zeta in IH.
        destruct (Api.serve py_float requests cd) as [cd' outs].
        cbn [fst snd] in *. destruct IH as (Hle & Hiff & Hval).
        unfold accepted_count in *. cbn [List.filter is_accepted].
        change (Api.status (Api.error ts) =? 200) with false.
        split; [exact Hle|]. split; [exact Hiff|].
        intros x' Hx'. destruct (Hval x' Hx') as (Hgt' & req & Hin & Hreq).
        split; [exact Hgt'|]. exists req. split; [set_solver|exact Hreq].
    + specialize (IH cd Hunset). cbv zeta in IH.
      destruct (Api.serve py_float requests cd) as [cd' outs].
      cbn [fst snd] in *. destruct IH as (Hle & Hiff & Hval).
      unfold accepted_count in *. cbn [List.filter is_accepted].
      split; [exact Hle|]. split; [exact Hiff|].
      intros x' Hx'. destruct (Hval x' Hx') as (Hgt' & req & Hin & Hreq).
      split; [exact Hgt'|]. exists req. split; [set_solver|exact Hreq].
Qed.

End ClockInvariant.

(* ------------------------------------------------------------------ *)
(** * The further properties at concrete inputs                          *)
(* ------------------------------------------------------------------ *)



(** The exposure table, and 712 quantized twice. *)
Lemma find_closest_exposure_fixes_entries_witness :
  (∀ t : Z, t ∈ CameraController.ExpList →
        CameraController.find_closest_exposure CameraController.ExpList t
        = Py.Ok t)
  ∧ ∃ r, CameraController.find_closest_exposure CameraController.ExpList 712
         = Py.Ok r
         ∧ CameraController.find_closest_exposure CameraController.ExpList r
           = Py.Ok r.
Proof.
  apply (find_closest_exposure_fixes_entries CameraController.ExpList 712);
    [exact ExpList_ascending|discriminate].
Defined.

(** Initialising on the clip, and again. *)
Lemma mock_initialise_resets_witness :
  MockDriver.initialise_camera Fixtures.environ0 Fixtures.open_clip
    (F64.of_Z 1000) Fixtures.config0 Fixtures.mock0
  = (Fixtures.mock0, Py.Ok tt)
  ∧ lores_pos Fixtures.mock0 = Some 0
  ∧ hires_pos Fixtures.mock0 = Some 0.
Proof.
  destruct (mock_initialise_resets Fixtures.environ0 Fixtures.open_clip
              (F64.of_Z 1000) Fixtures.config0 MockDriver.init
              Fixtures.mock0)
    as (_ & Hagain & Hlo & Hhi & _); [vm_compute; reflexivity|].
  split; [exact Hagain|]. split; [exact Hlo|exact Hhi].
Defined.




(** A recording started and stopped at clock reading 1000 on the short
    clip, with 5 seconds before the trigger: 150 frames. *)
Lemma mock_clip_recorded_witness :
  ∃ s1 s2,
    MockRecording.start_video_capture Scenes.float_mod_whole
      (F64.of_Z 1000) "out.mp4" Scenes.recorder0 = (s1, Py.Ok tt)
    ∧ MockRecording.stop_video_capture (H := Fixtures.cv2_copy)
        (F64.of_Z 1000) s1 = (s2, Py.Ok tt)
    ∧ length <$> (MockRecording.written s2 !! "out.mp4") = Some 150%nat
    ∧ take 4 <$> (MockRecording.written s2 !! "out.mp4")
      = Some [[10]; [11]; [12]; [10]].
Proof.
  destruct (mock_clip_recorded (H := Fixtures.cv2_copy)
              Scenes.float_mod_whole (F64.of_Z 1000) (F64.of_Z 1000)
              (F64.of_Z 30) Scenes.short_clip 0 5 150 "out.mp4"
              Scenes.recorder0)
    as (s1 & s2 & Hstart & Hstop & Hwritten & Hlen & _).
  - split; [discriminate|]. split; [vm_compute; split; discriminate|].
    eexists. split; [vm_compute; reflexivity|]. split; reflexivity.
  - vm_compute; reflexivity.
  - vm_compute; reflexivity.
  - vm_compute; reflexivity.
  - vm_compute; reflexivity.
  - exists s1, s2. split; [exact Hstart|]. split; [exact Hstop|].
    rewrite Hwritten. cbn [fmap option_fmap option_map].
    split; [by rewrite Hlen|].
    etransitivity; [apply (f_equal (fmap (take 4))); exact Hwritten|].
    vm_compute. reflexivity.
Defined.

(** The stock configuration asked for 1920x1080. *)
Lemma set_resolution_accepted_witness :
  ∃ e, CameraController.set_resolution (λ _, true) (Py.VStr "1920x1080")
         (Fixtures.controller0 [])
       = (reconfigured
            (<["img_width" := Py.VInt 1920]>
               (<["img_height" := Py.VInt 1080]>
                  (<["resolution" := Py.VStr "1920x1080"]>
                     Fixtures.config0)))
            {| Fixtures.captures := [];
               Fixtures.initialised_with :=
                 [<["img_width" := Py.VInt 1920]>
                    (<["img_height" := Py.VInt 1080]>
                       (<["resolution" := Py.VStr "1920x1080"]>
                          Fixtures.config0))];
               Fixtures.settings :=
                 Fixtures.settings (Fixtures.scripted0 []) |}
            (Fixtures.controller0 []),
          Py.Raise e).
Proof.
  destruct (set_resolution_accepted (λ _, true) (Fixtures.controller0 [])
              (Py.VStr "1920x1080") (Py.VStr "1640x1232") 1920 1080)
    as [_ Hnew].
  - reflexivity.
  - unfold resolution_sizes. apply list_elem_of_further, list_elem_of_here.
  - apply Hnew. discriminate.
Defined.

(** The stock configuration, not rotated, asked to rotate. *)
Lemma set_camera_rotation_toggles_witness :
  ∃ c' e,
    Commands.set_camera_rotation (λ _, true) true (Fixtures.controller0 [])
      = (c', Py.Raise e)
    ∧ CameraController.config c' !! "rotate_camera" = Some (Py.VInt 1)
    ∧ Commands.set_camera_rotation (λ _, true) true c' = (c', Py.Ok tt).
Proof.
  destruct (set_camera_rotation_toggles (λ _, true)
              (Fixtures.controller0 []) (Py.VInt 0) true)
    as [_ Hnew]; [reflexivity|].
  destruct Hnew as [[e Hfirst] Hagain]; [discriminate|].
  eexists _, e. split; [exact Hfirst|]. split; [|exact Hagain].
  apply lookup_insert_eq.
Defined.

(** The LED, stored off, asked on. *)
Lemma set_LED_normalises_witness :
  ∃ e, Commands.set_LED (λ _, true) (Py.VStr "on") (Fixtures.controller0 [])
       = (reconfigured (<["LED" := Py.VStr "on"]> Fixtures.config0)
            (Fixtures.scripted0 []) (Fixtures.controller0 []),
          Py.Raise e).
Proof.
  destruct (set_LED_normalises (λ _, true) (Fixtures.controller0 [])
              (Py.VStr "off") (Py.VStr "on")) as [_ Hnew]; [reflexivity|].
  apply Hnew. discriminate.
Defined.

(** Text that is no number, then two clock values. *)
Lemma clock_set_at_most_once_witness :
  (accepted_count
     (snd (Api.serve Api.float_of_digits
             [(F64.of_Z 5, "soon"); (F64.of_Z 6, "1700000000");
              (F64.of_Z 7, "1800000000")]
             {| Api.device_time := None; Api.device_time_start := None |}))
   <= 1)%nat
  ∧ Api.device_time
      (fst (Api.serve Api.float_of_digits
              [(F64.of_Z 5, "soon"); (F64.of_Z 6, "1700000000");
               (F64.of_Z 7, "1800000000")]
              {| Api.device_time := None; Api.device_time_start := None |}))
    = Some (F64.of_Z 1700000000).
Proof.
  destruct (clock_set_at_most_once Api.float_of_digits
              [(F64.of_Z 5, "soon"); (F64.of_Z 6, "1700000000");
               (F64.of_Z 7, "1800000000")]
              {| Api.device_time := None; Api.device_time_start := None |})
    as (Hle & _ & _); [reflexivity|].
  split; [exact Hle|]. vm_compute. reflexivity.
Defined.

